(** * The prediction pipeline of [app_beautiful_fixed_v2.py]

    A shallow embedding of the methods of [ChempropBeautifulGUI] that load a
    model, predict one molecule or a CSV of molecules, normalise the model
    output and keep the prediction history.

    Python exceptions are values of [exn]; a method body is a computation in
    a state-and-exception monad whose state survives a raised exception, as
    the attributes and local variables of the Python object do.  The
    libraries the program calls (chemprop, RDKit, lightning, numpy, pandas)
    are the fields of a record [Libs]; widgets are fields of the window
    record, and message boxes and log lines are appended to lists.  Scores
    are binary64 floats, as in Python; tensors and arrays hold floats.  A
    Python [str] is modelled by its UTF-8 encoding.  The [smiles] column is
    a column of text: pandas gives a [str] for each cell that is filled in
    and the float [nan] for an empty one (a column that pandas reads as
    numbers or booleans is not modelled).  An item of the result table that
    shows a number holds the number and the text written after it.

    Style sheets, colours of labels, the progress bar, the status label, the
    model-information panel and [QApplication.processEvents] are left out:
    they raise nothing and none of the properties below reads them. *)

From Stdlib Require Import List String Ascii Bool Arith NArith ZArith Lia Floats.
Import ListNotations.
Open Scope string_scope.
Open Scope nat_scope.
Open Scope list_scope.

Set Implicit Arguments.
Set Warnings "-inexact-float".

(** ** Exceptions and outcomes *)

Inductive exn_class : Type :=
| TypeError | ValueError | RuntimeError | IndexError | UnboundLocalError
| ZeroDivisionError | OSError | ImportError | AttributeError | OtherException.

Record exn : Type := Exn { exn_cls : exn_class; exn_msg : string }.

Definition is_TypeError (e : exn) : bool :=
  match exn_cls e with TypeError => true | _ => false end.

(** Every class above derives from [Exception]. *)
Definition is_Exception (e : exn) : bool := true.

Inductive outcome (A : Type) : Type :=
| Ok (a : A)
| Raise (e : exn).
Arguments Ok {A} a.
Arguments Raise {A} e.

Definition raised {A} (o : outcome A) : bool :=
  match o with Ok _ => false | Raise _ => true end.

(** ** State and exception monad *)

Definition M (S A : Type) : Type := S -> outcome A * S.

Definition ret {S A} (a : A) : M S A := fun s => (Ok a, s).

Definition bind {S A B} (m : M S A) (k : A -> M S B) : M S B :=
  fun s => match m s with
           | (Ok a, s') => k a s'
           | (Raise e, s') => (Raise e, s')
           end.

Definition raise {S A} (e : exn) : M S A := fun s => (Raise e, s).

Definition lift {S A} (o : outcome A) : M S A := fun s => (o, s).

Definition gets {S A} (f : S -> A) : M S A := fun s => (Ok (f s), s).

Definition modify {S} (f : S -> S) : M S unit := fun s => (Ok tt, f s).

(** [try: body except <classes>: handler] *)
Definition try_except {S A} (body : M S A) (catches : exn -> bool)
    (handler : exn -> M S A) : M S A :=
  fun s => match body s with
           | (Ok a, s') => (Ok a, s')
           | (Raise e, s') => if catches e then handler e s' else (Raise e, s')
           end.

Declare Scope py_scope.
Delimit Scope py_scope with py.
Notation "x <- c ;; k" := (bind c (fun x => k))
  (at level 100, c at next level, right associativity) : py_scope.
Notation "c ;; k" := (bind c (fun _ => k))
  (at level 100, right associativity) : py_scope.
Open Scope py_scope.

(** ** Numeric arrays: [torch.Tensor] and [numpy.ndarray] of floats *)

Record ndarr : Type := NdArr { shape : list nat; data : list float }.

Definition numel (t : ndarr) : nat := fold_right Nat.mul 1 (shape t).

(** [t[0]] *)
Definition index0 (t : ndarr) : outcome ndarr :=
  match shape t with
  | [] => Raise (Exn IndexError "invalid index of a 0-dim tensor")
  | 0 :: _ => Raise (Exn IndexError "index 0 is out of bounds for dimension 0 with size 0")
  | S _ :: ds => Ok (NdArr ds (firstn (fold_right Nat.mul 1 ds) (data t)))
  end.

(** [t.item()] *)
Definition item (t : ndarr) : outcome float :=
  if numel t =? 1 then
    match data t with
    | x :: _ => Ok x
    | [] => Raise (Exn RuntimeError "tensor has no storage")
    end
  else Raise (Exn RuntimeError "a Tensor with several elements cannot be converted to Scalar").

(** [a.flat[0]] *)
Definition flat0 (a : ndarr) : outcome float :=
  match data a with
  | x :: _ => Ok x
  | [] => Raise (Exn IndexError "index 0 is out of bounds for size 0")
  end.

(** [l[0]] on a list or tuple *)
Definition seq0 {A} (l : list A) : outcome A :=
  match l with
  | x :: _ => Ok x
  | [] => Raise (Exn IndexError "list index out of range")
  end.

(** ** Text helpers

    A [str] is a sequence of Unicode characters; here it is the [string] of
    the bytes of its UTF-8 encoding, as the string literals of this file
    are. *)

(** [ch.isspace()] on the code point of a character, as [str.strip] tests
    it: 9-13, 28-32, U+0085, U+00A0, U+1680, U+2000-U+200A, U+2028, U+2029,
    U+202F, U+205F and U+3000. *)
Definition py_isspace (cp : N) : bool :=
  (((9 <=? cp) && (cp <=? 13)) || ((28 <=? cp) && (cp <=? 32)) ||
   (cp =? 133) || (cp =? 160) || (cp =? 5760) ||
   ((8192 <=? cp) && (cp <=? 8202)) || (cp =? 8232) || (cp =? 8233) ||
   (cp =? 8239) || (cp =? 8287) || (cp =? 12288))%N.

(** A continuation byte of UTF-8: [10xxxxxx]. *)
Definition is_cont (c : ascii) : bool :=
  ((128 <=? N_of_ascii c) && (N_of_ascii c <? 192))%N.

(** The code point of a character encoded on one, two or three bytes. *)
Definition char1 (a : ascii) : option N :=
  if (N_of_ascii a <? 128)%N then Some (N_of_ascii a) else None.

Definition char2 (a b : ascii) : option N :=
  if ((194 <=? N_of_ascii a) && (N_of_ascii a <? 224))%N && is_cont b
  then Some ((N_of_ascii a - 192) * 64 + (N_of_ascii b - 128))%N
  else None.

Definition char3 (a b c : ascii) : option N :=
  if ((224 <=? N_of_ascii a) && (N_of_ascii a <? 240))%N
     && is_cont b && is_cont c
  then Some (((N_of_ascii a - 224) * 64 + (N_of_ascii b - 128)) * 64 +
             (N_of_ascii c - 128))%N
  else None.

Definition space (ch : option N) : bool :=
  match ch with
  | Some cp => py_isspace cp
  | None => false
  end.

(** [s.lstrip()]: no white space is encoded on more than three bytes. *)
Fixpoint lstrip (s : string) : string :=
  match s with
  | String a r1 =>
      if space (char1 a) then lstrip r1
      else
        match r1 with
        | String b r2 =>
            if space (char2 a b) then lstrip r2
            else
              match r2 with
              | String c r3 => if space (char3 a b c) then lstrip r3 else s
              | EmptyString => s
              end
        | EmptyString => s
        end
  | EmptyString => s
  end.

(** [not s.lstrip()]: the characters of [s] are all white space. *)
Definition blank (s : string) : bool :=
  match lstrip s with EmptyString => true | _ => false end.

(** [s.rstrip()]: the text before the longest blank end of [s]. *)
Fixpoint rstrip (s : string) : string :=
  match s with
  | String a r => if blank s then EmptyString else String a (rstrip r)
  | EmptyString => EmptyString
  end.

(** [s.strip()] *)
Definition strip (s : string) : string := rstrip (lstrip s).

(** [s[:n]]: the first [n] characters; the continuation bytes of a
    character follow its first byte. *)
Fixpoint take_chars (n : nat) (s : string) : string :=
  match s with
  | String a r =>
      if is_cont a then String a (take_chars n r)
      else
        match n with
        | 0 => EmptyString
        | S k => String a (take_chars k r)
        end
  | EmptyString => EmptyString
  end.

(** [s.endswith(suffix)] *)
Definition endswith (s suffix : string) : bool :=
  let n := String.length s in
  let k := String.length suffix in
  (k <=? n) && String.eqb (substring (n - k) k s) suffix.

(** [not s] for a string *)
Definition str_empty (s : string) : bool :=
  match s with EmptyString => true | _ => false end.

(** [l[-n:]]; with [n = 0] the slice is [l[0:]], the whole list. *)
Definition last_n {A} (n : nat) (l : list A) : list A :=
  if n =? 0 then l else skipn (List.length l - n) l.

(** ** Data of the application *)

(** A cell of the [smiles] column, as [test_df['smiles'].tolist()] gives
    it: a [str], or the float [nan] for a cell left empty. *)
Inductive cell : Type :=
| Text (s : string)
| NaN.

Coercion Text : string >-> cell.

(** [isinstance(c, str)] *)
Definition is_text (c : cell) : bool :=
  match c with
  | Text _ => true
  | NaN => false
  end.

(** [str(c)] *)
Definition cell_str (c : cell) : string :=
  match c with
  | Text s => s
  | NaN => "nan"
  end.

(** [herb_type]: ['🌿 抗生素成分'], ['🍃 非抗生素成分'], ['❌ 预测失败']. *)
Inductive herb : Type := Antibiotic | NonAntibiotic | PredictionFailed.

(** The ['prediction'] entry of a batch record: a score or the string
    ['ERROR']. *)
Inductive pred_field : Type :=
| Score (x : float)
| ERROR.

(** One dictionary of the list [predictions] of [run_prediction]. *)
Record prediction : Type := {
  smiles : cell;
  pred : pred_field;
  confidence : float;
  is_antibiotic : bool;
  herb_type : herb
}.

(** One dictionary of [self.prediction_history]. *)
Record history_entry : Type := {
  timestamp : string;
  h_smiles : string;
  h_prediction : float;
  h_confidence : float
}.

(** A row of [self.result_table]: the four items of the row.  The item of
    the second column is [ValueCell x mark c], with the text [f"{x:.4f}"]
    followed by [mark] on the background [c], or [FailedCell], with the
    text ['❌ 预测失败'] on red; the third holds [f"{confidence:.3f}"] and
    the fourth the text of [herb]. *)
Inductive colour : Type := Green | Yellow | Red.

Inductive pred_cell : Type :=
| ValueCell (x : float) (mark : string) (background : colour)
| FailedCell.

Record table_row : Type := {
  col_smiles : string;
  col_pred : pred_cell;
  col_conf : float;
  col_nature : herb
}.

(** The HTML shown by [self.history_display]: the placeholder
    ['暂无预测历史'] or a table of rendered records. *)
Inductive history_view : Type :=
| NoHistory
| HistoryTable (rows : list history_entry).

(** [pd.DataFrame(self.prediction_history)] as written by [to_csv] with
    [index=False]: a header line and one row per dictionary. *)
Record csv : Type := { columns : list string; rows : list history_entry }.

(** Message boxes. *)
Inductive box : Type := Warning | Information | Critical.

Inductive message : Type :=
| PleaseSelectModelFile            (* 请先选择模型文件！ *)
| ModelActivated                   (* 模型激活成功！ *)
| ModelLoadFailed (e : exn)        (* 模型加载失败: {e} *)
| PleaseEnterSmiles                (* 请输入SMILES分子式！ *)
| PleaseLoadModel                  (* 请先加载模型！ *)
| PredictFailed (e : exn)          (* 预测失败: {e} *)
| PleaseSelectTestFile             (* 请选择测试文件！ *)
| CsvNeedsSmilesColumn             (* CSV文件必须包含'smiles'列！ *)
| BatchDone (total antibiotics : nat)
| BatchFailed (e : exn)            (* 批量预测失败: {e} *)
| NoHistoryToExport                (* 暂无历史记录可导出！ *)
| HistoryExported.                 (* 历史记录导出成功！ *)

Record dialog : Type := Dialog { dlg_box : box; dlg_msg : message }.

(** Lines appended to [self.log_edit]. *)
Inductive log_line : Type :=
| LogLoading
| LogLoaded
| LogLoadFailed (e : exn)
| LogUnloaded
| LogAnalysing (smiles50 : string)
| LogPredicted (x : float)
| LogPredictFailed (e : exn)
| LogExtractFailedDefault (e : exn)   (* 预测值提取失败: {e}, 使用默认值 0.5 *)
| LogBatchStart
| LogDetected (total : nat)
| LogItem (i total : nat) (x : float) (h : herb)
| LogItemFailed (i : nat) (e : exn)
| LogBatchComplete
| LogTotal (total : nat)
| LogAntibiotics (antibiotics total : nat)
| LogErrors (errors : nat)
| LogBatchFailed (e : exn)
| LogHistoryCleared
| LogExported (path : string).

(** Calls into the libraries, recorded in order. *)
Inductive ext_call : Type :=
| CallFeaturizer
| CallFromSmi (s : cell)
| CallMoleculeDataset
| CallBuildDataloader
| CallMolFromSmiles (s : cell)
| CallMoleculeDatapoint
| CallSetSmiles (s : cell)
| CallTrainer
| CallPredict
| CallConcatenate
| CallLoadCheckpoint (path : string)
| CallTorchLoad (path : string)
| CallReadCsv (path : string)
| CallToCsv (path : string).

(** ** The libraries and the window *)

Section Pipeline.

(** Objects of the libraries are opaque to the program. *)
Variables Model Featurizer Datapoint Dataset Loader Mol Trainer Preds PyObj : Type.

(** What [pred] can be in [_extract_prediction_value]. *)
Inductive raw_output : Type :=
| Tensor (t : ndarr)                 (* torch.Tensor *)
| Sequence (l : list PyObj)          (* list or tuple *)
| Array (a : ndarr)                  (* np.ndarray *)
| Object (v : PyObj).                (* anything else *)

Record Libs : Type := {
  (* featurizers.SimpleMoleculeMolGraphFeaturizer() *)
  SimpleMoleculeMolGraphFeaturizer : outcome Featurizer;
  (* data.MoleculeDatapoint.from_smi(smi) *)
  from_smi : cell -> outcome Datapoint;
  (* data.MoleculeDataset([dp], featurizer=...) *)
  MoleculeDataset : list Datapoint -> option Featurizer -> outcome Dataset;
  (* data.build_dataloader(batch, shuffle=False) *)
  build_dataloader : Dataset -> outcome Loader;
  (* from rdkit import Chem; Chem.MolFromSmiles(smiles) *)
  MolFromSmiles : cell -> outcome (option Mol);
  (* data.MoleculeDatapoint(mol=mol) *)
  MoleculeDatapoint_mol : Mol -> outcome Datapoint;
  (* data.MoleculeDatapoint() *)
  MoleculeDatapoint_noargs : outcome Datapoint;
  (* dp.smiles = smiles *)
  set_smiles : Datapoint -> cell -> outcome Datapoint;
  (* pl.Trainer(logger=None, enable_progress_bar=False, accelerator="cpu", devices=1) *)
  pl_Trainer : outcome Trainer;
  (* trainer.predict(self.model, test_loader) *)
  trainer_predict : Trainer -> option Model -> Loader -> outcome Preds;
  (* np.concatenate(test_preds, axis=0) *)
  np_concatenate : Preds -> outcome ndarr;
  (* float(x) *)
  py_float : PyObj -> outcome float;
  (* bool(self.model) *)
  model_bool : Model -> bool;
  (* models.MPNN.load_from_checkpoint(model_path) *)
  load_from_checkpoint : string -> outcome Model;
  (* torch.load(model_path, map_location='cpu') *)
  torch_load : string -> outcome Model;
  (* pd.read_csv(test_file): the columns, by name *)
  read_csv : string -> outcome (list (string * list cell));
  (* df.to_csv(file_path, index=False) *)
  to_csv : string -> outcome unit;
  (* pd.Timestamp.now().strftime("%Y-%m-%d %H:%M:%S") at the n-th reading *)
  timestamp_now : nat -> string
}.

Variable L : Libs.

(** The window object [self], followed by what lies outside it: the message
    boxes shown, the readings of the clock, the library calls made and the
    files written.  The rows of the table are filled from the top:
    [result_table] holds the rows that have their items and [empty_rows]
    counts the rows after them that have none. *)
Record window : Type := {
  model : option Model;
  model_path : option string;
  prediction_history : list history_entry;
  model_path_edit : string;
  smiles_input : string;
  test_edit : string;
  predict_single_btn : bool;
  batch_predict_btn : bool;
  result_table : list table_row;
  empty_rows : nat;
  history_display : history_view;
  log_edit : list log_line;
  dialogs : list dialog;
  clock : nat;
  calls : list ext_call;
  files : list (string * csv)
}.

Definition set_model (v : option Model) (p : option string) (w : window) : window :=
  {| model := v; model_path := p; prediction_history := prediction_history w;
     model_path_edit := model_path_edit w; smiles_input := smiles_input w;
     test_edit := test_edit w; predict_single_btn := predict_single_btn w;
     batch_predict_btn := batch_predict_btn w; result_table := result_table w;
     empty_rows := empty_rows w;
     history_display := history_display w; log_edit := log_edit w;
     dialogs := dialogs w; clock := clock w; calls := calls w; files := files w |}.

Definition set_prediction_history (h : list history_entry) (w : window) : window :=
  {| model := model w; model_path := model_path w; prediction_history := h;
     model_path_edit := model_path_edit w; smiles_input := smiles_input w;
     test_edit := test_edit w; predict_single_btn := predict_single_btn w;
     batch_predict_btn := batch_predict_btn w; result_table := result_table w;
     empty_rows := empty_rows w;
     history_display := history_display w; log_edit := log_edit w;
     dialogs := dialogs w; clock := clock w; calls := calls w; files := files w |}.

Definition set_buttons (b : bool) (w : window) : window :=
  {| model := model w; model_path := model_path w;
     prediction_history := prediction_history w;
     model_path_edit := model_path_edit w; smiles_input := smiles_input w;
     test_edit := test_edit w; predict_single_btn := b;
     batch_predict_btn := b; result_table := result_table w;
     empty_rows := empty_rows w;
     history_display := history_display w; log_edit := log_edit w;
     dialogs := dialogs w; clock := clock w; calls := calls w; files := files w |}.

Definition set_table (t : list table_row) (e : nat) (w : window) : window :=
  {| model := model w; model_path := model_path w;
     prediction_history := prediction_history w;
     model_path_edit := model_path_edit w; smiles_input := smiles_input w;
     test_edit := test_edit w; predict_single_btn := predict_single_btn w;
     batch_predict_btn := batch_predict_btn w; result_table := t;
     empty_rows := e;
     history_display := history_display w; log_edit := log_edit w;
     dialogs := dialogs w; clock := clock w; calls := calls w; files := files w |}.

(** [self.result_table.setRowCount(n)]: the rows beyond the [n]-th are
    dropped with their items, the rows that are missing are added empty. *)
Definition set_row_count (n : nat) (w : window) : window :=
  let kept := firstn n (result_table w) in
  set_table kept (n - List.length kept) w.

(** The four [setItem(i, _, _)] of one row: its items are replaced, or the
    first empty row gets its items; [setItem] does nothing outside the
    table.  (Rows are written in order from row 0, so the row written is
    never beyond the first empty one.) *)
Definition put_row (i : nat) (r : table_row) (w : window) : window :=
  let t := result_table w in
  if i <? List.length t
  then set_table (firstn i t ++ r :: skipn (S i) t) (empty_rows w) w
  else if (i =? List.length t) && (0 <? empty_rows w)
       then set_table (t ++ [r]) (empty_rows w - 1) w
       else w.

Definition set_history_display (v : history_view) (w : window) : window :=
  {| model := model w; model_path := model_path w;
     prediction_history := prediction_history w;
     model_path_edit := model_path_edit w; smiles_input := smiles_input w;
     test_edit := test_edit w; predict_single_btn := predict_single_btn w;
     batch_predict_btn := batch_predict_btn w; result_table := result_table w;
     empty_rows := empty_rows w;
     history_display := v; log_edit := log_edit w;
     dialogs := dialogs w; clock := clock w; calls := calls w; files := files w |}.

Definition add_log (l : log_line) (w : window) : window :=
  {| model := model w; model_path := model_path w;
     prediction_history := prediction_history w;
     model_path_edit := model_path_edit w; smiles_input := smiles_input w;
     test_edit := test_edit w; predict_single_btn := predict_single_btn w;
     batch_predict_btn := batch_predict_btn w; result_table := result_table w;
     empty_rows := empty_rows w;
     history_display := history_display w; log_edit := log_edit w ++ [l];
     dialogs := dialogs w; clock := clock w; calls := calls w; files := files w |}.

Definition add_dialog (d : dialog) (w : window) : window :=
  {| model := model w; model_path := model_path w;
     prediction_history := prediction_history w;
     model_path_edit := model_path_edit w; smiles_input := smiles_input w;
     test_edit := test_edit w; predict_single_btn := predict_single_btn w;
     batch_predict_btn := batch_predict_btn w; result_table := result_table w;
     empty_rows := empty_rows w;
     history_display := history_display w; log_edit := log_edit w;
     dialogs := dialogs w ++ [d]; clock := clock w; calls := calls w;
     files := files w |}.

Definition tick (w : window) : window :=
  {| model := model w; model_path := model_path w;
     prediction_history := prediction_history w;
     model_path_edit := model_path_edit w; smiles_input := smiles_input w;
     test_edit := test_edit w; predict_single_btn := predict_single_btn w;
     batch_predict_btn := batch_predict_btn w; result_table := result_table w;
     empty_rows := empty_rows w;
     history_display := history_display w; log_edit := log_edit w;
     dialogs := dialogs w; clock := S (clock w); calls := calls w;
     files := files w |}.

Definition add_call (c : ext_call) (w : window) : window :=
  {| model := model w; model_path := model_path w;
     prediction_history := prediction_history w;
     model_path_edit := model_path_edit w; smiles_input := smiles_input w;
     test_edit := test_edit w; predict_single_btn := predict_single_btn w;
     batch_predict_btn := batch_predict_btn w; result_table := result_table w;
     empty_rows := empty_rows w;
     history_display := history_display w; log_edit := log_edit w;
     dialogs := dialogs w; clock := clock w; calls := calls w ++ [c];
     files := files w |}.

Definition add_file (path : string) (content : csv) (w : window) : window :=
  {| model := model w; model_path := model_path w;
     prediction_history := prediction_history w;
     model_path_edit := model_path_edit w; smiles_input := smiles_input w;
     test_edit := test_edit w; predict_single_btn := predict_single_btn w;
     batch_predict_btn := batch_predict_btn w; result_table := result_table w;
     empty_rows := empty_rows w;
     history_display := history_display w; log_edit := log_edit w;
     dialogs := dialogs w; clock := clock w; calls := calls w;
     files := files w ++ [(path, content)] |}.

(** A running method: [self] and the local variables that outlive a [try]
    block in [run_prediction]; [None] is an unbound name. *)
Record frame : Type := {
  self : window;
  batch : option Dataset;
  test_loader : option Loader;
  predictions : list prediction
}.

Definition enter (w : window) : frame :=
  {| self := w; batch := None; test_loader := None; predictions := [] |}.

Definition on_self (f : window -> window) (fr : frame) : frame :=
  {| self := f (self fr); batch := batch fr; test_loader := test_loader fr;
     predictions := predictions fr |}.

Definition set_batch (b : Dataset) (fr : frame) : frame :=
  {| self := self fr; batch := Some b; test_loader := test_loader fr;
     predictions := predictions fr |}.

Definition set_test_loader (l : Loader) (fr : frame) : frame :=
  {| self := self fr; batch := batch fr; test_loader := Some l;
     predictions := predictions fr |}.

Definition set_predictions (p : list prediction) (fr : frame) : frame :=
  {| self := self fr; batch := batch fr; test_loader := test_loader fr;
     predictions := p |}.

Definition Py (A : Type) : Type := M frame A.

Definition log (l : log_line) : Py unit := modify (on_self (add_log l)).

Definition show (b : box) (m : message) : Py unit :=
  modify (on_self (add_dialog (Dialog b m))).

(** A library call: it is recorded, then it returns or raises. *)
Definition call {A} (c : ext_call) (o : outcome A) : Py A :=
  fun fr => (o, on_self (add_call c) fr).

(** The method [m] run on the window [w]: what escapes it, and the window
    afterwards. *)
Definition run_method (m : Py unit) (w : window) : outcome unit * window :=
  let (o, fr) := m (enter w) in (o, self fr).

(** ** History *)

(** A row of the history table: [record['smiles'][:50]] followed by
    ['...']. *)
Definition render_record (r : history_entry) : history_entry :=
  {| timestamp := timestamp r;
     h_smiles := (take_chars 50 (h_smiles r) ++ "...")%string;
     h_prediction := h_prediction r;
     h_confidence := h_confidence r |}.

Definition update_history_display : Py unit :=
  h <- gets (fun fr => prediction_history (self fr)) ;;
  match h with
  | [] => modify (on_self (set_history_display NoHistory))
  | _ :: _ =>
      (* for record in self.prediction_history[-20:] *)
      modify (on_self (set_history_display
                         (HistoryTable (map render_record (last_n 20 h)))))
  end.

Definition add_to_history (smi : string) (prediction conf : float) : Py unit :=
  n <- gets (fun fr => clock (self fr)) ;;
  modify (on_self tick) ;;
  let ts := timestamp_now L n in
  modify (on_self (fun w =>
    set_prediction_history
      (prediction_history w ++
         [{| timestamp := ts; h_smiles := smi; h_prediction := prediction;
             h_confidence := conf |}]) w)) ;;
  update_history_display.

Definition clear_history : Py unit :=
  modify (on_self (set_prediction_history [])) ;;
  update_history_display ;;
  log LogHistoryCleared.

(** [pd.DataFrame(self.prediction_history)]: the columns are the keys of the
    dictionaries in the order [add_to_history] writes them. *)
Definition DataFrame (h : list history_entry) : csv :=
  {| columns := ["timestamp"; "smiles"; "prediction"; "confidence"];
     rows := h |}.

(** [file_path] is what [QFileDialog.getSaveFileName] returns: the empty
    string when the user cancels. *)
Definition export_history (file_path : string) : Py unit :=
  h <- gets (fun fr => prediction_history (self fr)) ;;
  match h with
  | [] => show Warning NoHistoryToExport
  | _ :: _ =>
      if str_empty file_path then ret tt
      else
        let df := DataFrame h in
        call (CallToCsv file_path) (to_csv L file_path) ;;
        modify (on_self (add_file file_path df)) ;;
        log (LogExported file_path) ;;
        show Information HistoryExported
  end.

(** ** Model life cycle *)

Definition load_model : Py unit :=
  txt <- gets (fun fr => model_path_edit (self fr)) ;;
  let path := strip txt in
  if str_empty path then show Warning PleaseSelectModelFile
  else
    try_except
      (log LogLoading ;;
       m <- (if endswith path ".ckpt"
             then call (CallLoadCheckpoint path) (load_from_checkpoint L path)
             else call (CallTorchLoad path) (torch_load L path)) ;;
       modify (on_self (set_model (Some m) (Some path))) ;;
       modify (on_self (set_buttons true)) ;;
       log LogLoaded ;;
       show Information ModelActivated)
      is_Exception
      (fun e => log (LogLoadFailed e) ;; show Critical (ModelLoadFailed e)).

Definition unload_model : Py unit :=
  modify (on_self (set_model None None)) ;;
  modify (on_self (set_buttons false)) ;;
  log LogUnloaded.

(** [not self.model] *)
Definition not_model (m : option Model) : bool :=
  match m with
  | None => true
  | Some v => negb (model_bool L v)
  end.

(** ** Normalising the model output *)

Definition _extract_prediction_value (p : raw_output) : Py float :=
  try_except
    (match p with
     | Tensor t =>
         if 1 <? numel t
         then (t0 <- lift (index0 t) ;; lift (item t0))
         else lift (item t)
     | Sequence l => x <- lift (seq0 l) ;; lift (py_float L x)
     | Array a => lift (flat0 a)
     | Object v => lift (py_float L v)
     end)
    is_Exception
    (fun e => log (LogExtractFailedDefault e) ;; ret 0.5%float).

(** ** Single prediction *)

Definition display_single_result (smi : string) (prediction conf : float)
    : Py unit :=
  modify (on_self (set_row_count 1)) ;;
  let is_antibiotic := (0.5 <? prediction)%float in
  modify (on_self (put_row 0
    {| col_smiles := smi;
       col_pred := ValueCell prediction
                     (if is_antibiotic then " 🌿" else " 🍃")
                     (if is_antibiotic then Green else Yellow);
       col_conf := conf;
       col_nature := if is_antibiotic then Antibiotic else NonAntibiotic |})).

(** Lines 692-721 of [predict_single_molecule]: from the molecule to
    [pred_value]. *)
Definition score_single (smi : string) : Py float :=
  featurizer <- call CallFeaturizer (SimpleMoleculeMolGraphFeaturizer L) ;;
  dp <- call (CallFromSmi smi) (from_smi L smi) ;;
  b <- call CallMoleculeDataset (MoleculeDataset L [dp] (Some featurizer)) ;;
  loader <- call CallBuildDataloader (build_dataloader L b) ;;
  trainer <- call CallTrainer (pl_Trainer L) ;;
  mdl <- gets (fun fr => model (self fr)) ;;
  test_preds <- call CallPredict (trainer_predict L trainer mdl loader) ;;
  a <- call CallConcatenate (np_concatenate L test_preds) ;;
  _extract_prediction_value (Array a).

Definition predict_single_molecule : Py unit :=
  txt <- gets (fun fr => smiles_input (self fr)) ;;
  let smi := strip txt in
  if str_empty smi then show Warning PleaseEnterSmiles
  else
    mdl <- gets (fun fr => model (self fr)) ;;
    if not_model mdl then show Warning PleaseLoadModel
    else
      try_except
        (log (LogAnalysing (take_chars 50 smi)) ;;
         pred_value <- score_single smi ;;
         add_to_history smi pred_value 0.95%float ;;
         display_single_result smi pred_value 0.95%float ;;
         log (LogPredicted pred_value))
        is_Exception
        (fun e => log (LogPredictFailed e) ;; show Critical (PredictFailed e)).

(** ** Batch prediction *)

(** Lines 797-811 of [run_prediction]: the data loader of one molecule. *)
Definition build_item (smi : cell) : Py unit :=
  try_except
    (featurizer <- call CallFeaturizer (SimpleMoleculeMolGraphFeaturizer L) ;;
     dp <- call (CallFromSmi smi) (from_smi L smi) ;;
     b <- call CallMoleculeDataset (MoleculeDataset L [dp] (Some featurizer)) ;;
     modify (set_batch b) ;;
     loader <- call CallBuildDataloader (build_dataloader L b) ;;
     modify (set_test_loader loader))
    is_TypeError
    (fun _ =>
       try_except
         (mol <- call (CallMolFromSmiles smi) (MolFromSmiles L smi) ;;
          match mol with
          | None =>
              raise (Exn ValueError ("无效的SMILES: " ++ cell_str smi)%string)
          | Some ml =>
              dp <- call CallMoleculeDatapoint (MoleculeDatapoint_mol L ml) ;;
              b <- call CallMoleculeDataset (MoleculeDataset L [dp] None) ;;
              modify (set_batch b)
          end)
         (fun _ => true)
         (fun _ =>
            dp <- call CallMoleculeDatapoint (MoleculeDatapoint_noargs L) ;;
            dp' <- call (CallSetSmiles smi) (set_smiles L dp smi) ;;
            b <- call CallMoleculeDataset (MoleculeDataset L [dp'] None) ;;
            modify (set_batch b))).

(** Reading the local variable [test_loader]. *)
Definition read_test_loader : Py Loader :=
  v <- gets test_loader ;;
  match v with
  | Some l => ret l
  | None =>
      raise (Exn UnboundLocalError
               "local variable 'test_loader' referenced before assignment")
  end.

Definition error_record (smi : cell) : prediction :=
  {| smiles := smi; pred := ERROR; confidence := 0.0%float;
     is_antibiotic := false; herb_type := PredictionFailed |}.

Definition append_prediction (p : prediction) : Py unit :=
  modify (fun fr => set_predictions (predictions fr ++ [p]) fr).

(** Lines 797-825 of [run_prediction]: from the molecule to [pred_value]. *)
Definition score_item (smi : cell) : Py float :=
  build_item smi ;;
  trainer <- call CallTrainer (pl_Trainer L) ;;
  mdl <- gets (fun fr => model (self fr)) ;;
  loader <- read_test_loader ;;
  test_preds <- call CallPredict (trainer_predict L trainer mdl loader) ;;
  a <- call CallConcatenate (np_concatenate L test_preds) ;;
  _extract_prediction_value (Array a).

(** The body of the loop over [enumerate(smiles_list)]. *)
Definition predict_item (total_molecules i : nat) (smi : cell) : Py unit :=
  try_except
    (pred_value <- score_item smi ;;
     let positive := (0.5 <? pred_value)%float in
     let kind := if positive then Antibiotic else NonAntibiotic in
     append_prediction
       {| smiles := smi; pred := Score pred_value; confidence := 0.95%float;
          is_antibiotic := positive; herb_type := kind |} ;;
     log (LogItem (i + 1) total_molecules pred_value kind))
    is_Exception
    (fun e =>
       append_prediction (error_record smi) ;;
       log (LogItemFailed (i + 1) e)).

Fixpoint predict_items (total_molecules i : nat) (smiles_list : list cell)
    : Py unit :=
  match smiles_list with
  | [] => ret tt
  | smi :: rest =>
      predict_item total_molecules i smi ;;
      predict_items total_molecules (S i) rest
  end.

(** [QTableWidgetItem(v)] makes an item from a [str]; a float matches none
    of its overloads. *)
Definition not_a_str : exn :=
  Exn TypeError "arguments did not match any overloaded call".

Definition QTableWidgetItem (v : cell) : outcome string :=
  match v with
  | Text s => Ok s
  | NaN => Raise not_a_str
  end.

(** The items [display_batch_results] writes in the row of the record [p],
    the first with the text [smi]. *)
Definition row_with (smi : string) (p : prediction) : table_row :=
  {| col_smiles := smi;
     col_pred := match pred p with
                 | ERROR => FailedCell
                 | Score x =>
                     ValueCell x "" (if is_antibiotic p then Green else Yellow)
                 end;
     col_conf := confidence p;
     col_nature := herb_type p |}.

(** The row of a record whose [smiles] is a [str]. *)
Definition row_of (p : prediction) : table_row := row_with (cell_str (smiles p)) p.

(** [for i, pred in enumerate(predictions)], from the row [i] on. *)
Fixpoint display_rows (i : nat) (ps : list prediction) : Py unit :=
  match ps with
  | [] => ret tt
  | p :: rest =>
      smiles_item <- lift (QTableWidgetItem (smiles p)) ;;
      modify (on_self (put_row i (row_with smiles_item p))) ;;
      display_rows (S i) rest
  end.

Definition display_batch_results (ps : list prediction) : Py unit :=
  modify (on_self (set_row_count (List.length ps))) ;;
  display_rows 0 ps.

(** [for pred in predictions: if pred['prediction'] != 'ERROR': ...].  The
    records that get here have a [str] as [smiles]: on any other record
    [display_batch_results] has raised before this loop (lemma
    [display_rows_shape]), so the second branch below is never run; there
    [add_to_history] would store the float and [update_history_display]
    raise on it. *)
Fixpoint record_predictions (ps : list prediction) : Py unit :=
  match ps with
  | [] => ret tt
  | p :: rest =>
      match pred p with
      | Score x =>
          match smiles p with
          | Text smi => add_to_history smi x (confidence p)
          | NaN =>
              (* record['smiles'][:50] in update_history_display *)
              raise (Exn TypeError "'float' object is not subscriptable")
          end
      | ERROR => ret tt
      end ;;
      record_predictions rest
  end.

Definition is_error (p : prediction) : bool :=
  match pred p with ERROR => true | Score _ => false end.

(** ['smiles' in test_df.columns] and [test_df['smiles'].tolist()] *)
Fixpoint column (name : string) (df : list (string * list cell))
    : option (list cell) :=
  match df with
  | [] => None
  | (k, v) :: rest => if String.eqb k name then Some v else column name rest
  end.

Definition run_prediction : Py unit :=
  txt <- gets (fun fr => test_edit (self fr)) ;;
  let test_file := strip txt in
  if str_empty test_file then show Warning PleaseSelectTestFile
  else
    mdl <- gets (fun fr => model (self fr)) ;;
    if not_model mdl then show Warning PleaseLoadModel
    else
      try_except
        (log LogBatchStart ;;
         test_df <- call (CallReadCsv test_file) (read_csv L test_file) ;;
         match column "smiles" test_df with
         | None => show Warning CsvNeedsSmilesColumn
         | Some smiles_list =>
             let total_molecules := List.length smiles_list in
             log (LogDetected total_molecules) ;;
             modify (set_predictions []) ;;
             predict_items total_molecules 0 smiles_list ;;
             ps <- gets predictions ;;
             display_batch_results ps ;;
             record_predictions ps ;;
             let total := List.length ps in
             let antibiotics := List.length (filter is_antibiotic ps) in
             let errors := List.length (filter is_error ps) in
             log LogBatchComplete ;;
             log (LogTotal total) ;;
             (* antibiotics/total*100 *)
             (if total =? 0
              then raise (Exn ZeroDivisionError "division by zero")
              else log (LogAntibiotics antibiotics total)) ;;
             log (LogErrors errors) ;;
             show Information (BatchDone total antibiotics)
         end)
        is_Exception
        (fun e => log (LogBatchFailed e) ;; show Critical (BatchFailed e)).

End Pipeline.

Arguments Tensor {PyObj} t.
Arguments Sequence {PyObj} l.
Arguments Array {PyObj} a.
Arguments Object {PyObj} v.
Arguments enter {Model Dataset Loader} w.

(** ** A small instance of the libraries, used in the examples *)

Module Lab.

Definition aspirin : string := "CC(=O)OC1=CC=CC=C1C(=O)O".
Definition junk : string := "not-a-molecule".

(** The no-break space U+00A0, the ideographic space U+3000 and the
    zero-width space U+200B, which is no white space, in UTF-8. *)
Definition nbsp : string :=
  String (ascii_of_nat 194) (String (ascii_of_nat 160) "").
Definition wide_space : string :=
  String (ascii_of_nat 227)
    (String (ascii_of_nat 128) (String (ascii_of_nat 128) "")).
Definition zero_width : string :=
  String (ascii_of_nat 226)
    (String (ascii_of_nat 128) (String (ascii_of_nat 139) "")).

Definition ethanol : string := "CCO".

Definition score (s : string) : float :=
  if String.eqb s aspirin then 0.8%float
  else if String.eqb s ethanol then 0.5%float
  else 0.25%float.

(** What RDKit raises on an argument that is not a [str]
    ([Boost.Python.ArgumentError], a [TypeError]), and what a datapoint
    built without its molecule raises. *)
Definition not_smiles : exn :=
  Exn TypeError "Python argument types did not match C++ signature".
Definition needs_mol : exn :=
  Exn TypeError "missing 1 required positional argument: 'mol'".

(** Objects are the strings they were built from; a model is a number.
    [from_smi] rejects [junk] with an exception of class [c] and [nan] with
    a [TypeError]; RDKit returns [None] on [junk]; [bare] is what
    [MoleculeDatapoint()] gives; writing below [/readonly/] fails. *)
Definition libs (c : exn_class) (bare : outcome string)
    (table : list (string * list cell))
    : Libs nat unit string (list string) (list string) string unit
           (list float) float :=
  {| SimpleMoleculeMolGraphFeaturizer := Ok tt;
     from_smi := fun v =>
       match v with
       | Text s =>
           if String.eqb s junk then Raise (Exn c "SMILES is invalid")
           else Ok s
       | NaN => Raise not_smiles
       end;
     MoleculeDataset := fun l _ => Ok l;
     build_dataloader := fun d => Ok d;
     MolFromSmiles := fun v =>
       match v with
       | Text s => if String.eqb s junk then Ok None else Ok (Some s)
       | NaN => Raise not_smiles
       end;
     MoleculeDatapoint_mol := fun m => Ok m;
     MoleculeDatapoint_noargs := bare;
     set_smiles := fun _ v => Ok (cell_str v);
     pl_Trainer := Ok tt;
     trainer_predict := fun _ _ l => Ok (map score l);
     np_concatenate := fun p => Ok (NdArr [List.length p; 1] p);
     py_float := fun x => Ok x;
     model_bool := fun _ => true;
     load_from_checkpoint := fun _ => Ok 1;
     torch_load := fun _ => Ok 2;
     read_csv := fun _ => Ok table;
     to_csv := fun p =>
       if String.prefix "/readonly/" p
       then Raise (Exn OSError "Permission denied") else Ok tt;
     timestamp_now := fun _ => "2024-01-01 00:00:00" |}.

(** A window with a model loaded and the two input fields filled in. *)
Definition loaded (smi file : string) : window nat :=
  {| model := Some 1; model_path := Some "model.ckpt";
     prediction_history := [];
     model_path_edit := "model.ckpt"; smiles_input := smi; test_edit := file;
     predict_single_btn := true; batch_predict_btn := true;
     result_table := []; empty_rows := 0; history_display := NoHistory;
     log_edit := [];
     dialogs := []; clock := 0; calls := []; files := [] |}.

Definition two_molecules : list (string * list cell) :=
  [("name", [Text "a"; Text "b"]); ("smiles", [Text aspirin; Text junk])].

(** The libraries with a [from_smi] that raises [RuntimeError] on [junk],
    as chemprop does, and with one that raises [TypeError]; in both a
    datapoint cannot be built without its molecule.  In [permissive] it
    can. *)
Definition plain := libs RuntimeError (Raise needs_mol) two_molecules.
Definition typed := libs TypeError (Raise needs_mol) two_molecules.
Definition permissive := libs TypeError (Ok "") two_molecules.

(** Aspirin typed in, the test file chosen, a model loaded. *)
Definition start : window nat := loaded aspirin "mols.csv".

(** The same window after [unload_model]. *)
Definition unloaded : window nat :=
  snd (run_method (@unload_model nat (list string) (list string)) start).

(** A window whose input fields hold white space only, after
    [unload_model]. *)
Definition unloaded_blank : window nat :=
  snd (run_method (@unload_model nat (list string) (list string))
         (loaded wide_space " ")).

(** The window [start] after one single prediction. *)
Definition after_one : window nat :=
  snd (run_method (predict_single_molecule plain) start).

End Lab.


(** ** The packaging script [fix_packaging.py]

    The script prints to the console, asks one question, and runs
    PyInstaller through [subprocess.run].  The operating system is a
    record [Host]; what the script does to it is collected in [console]. *)

Module Packaging.

Record Host : Type := {
  (* os.path.exists(p) *)
  path_exists : string -> bool;
  (* os.getcwd() *)
  getcwd : string;
  (* os.path.join(a, b) *)
  path_join : string -> string -> string;
  (* os.pathsep *)
  pathsep : string;
  (* site.getsitepackages() *)
  getsitepackages : list string;
  (* os.makedirs(d, exist_ok=True) *)
  makedirs : string -> outcome unit;
  (* shutil.copy(src, dst) *)
  copy : string -> string -> outcome unit;
  (* subprocess.run(cmd).returncode *)
  subprocess_run : list string -> outcome Z;
  (* what the user types at the prompt of input() *)
  typed : string
}.

Record console : Type := {
  stdout : list string;
  commands : list (list string);
  made : list string;
  copies : list (string * string);
  prompts : list string
}.

Definition start : console :=
  {| stdout := []; commands := []; made := []; copies := []; prompts := [] |}.

Definition Sh (A : Type) : Type := M console A.

Definition print (line : string) : Sh unit :=
  modify (fun c => {| stdout := stdout c ++ [line]; commands := commands c;
                      made := made c; copies := copies c;
                      prompts := prompts c |}).

(** The console after one more printed line. *)
Definition printed (line : string) (c : console) : console :=
  {| stdout := stdout c ++ [line]; commands := commands c; made := made c;
     copies := copies c; prompts := prompts c |}.

(** [' '.join(cmd)] *)
Fixpoint join (sep : string) (l : list string) : string :=
  match l with
  | [] => ""
  | [x] => x
  | x :: rest => (x ++ sep ++ join sep rest)%string
  end.

(** [s * n] *)
Fixpoint times (s : string) (n : nat) : string :=
  match n with
  | 0 => ""
  | S k => (s ++ times s k)%string
  end.

Section Script.

Variable H : Host.

(** [subprocess.run(cmd).returncode == 0] *)
Definition run_ok (cmd : list string) : Sh bool :=
  fun c =>
    (match subprocess_run H cmd with
     | Ok rc => Ok (Z.eqb rc 0)
     | Raise e => Raise e
     end,
     {| stdout := stdout c; commands := commands c ++ [cmd]; made := made c;
        copies := copies c; prompts := prompts c |}).

Definition do_makedirs (d : string) : Sh unit :=
  fun c =>
    (makedirs H d,
     {| stdout := stdout c; commands := commands c; made := made c ++ [d];
        copies := copies c; prompts := prompts c |}).

Definition do_copy (src dst : string) : Sh unit :=
  fun c =>
    (copy H src dst,
     {| stdout := stdout c; commands := commands c; made := made c;
        copies := copies c ++ [(src, dst)]; prompts := prompts c |}).

(** [input(prompt)] *)
Definition input (prompt : string) : Sh string :=
  fun c =>
    (Ok (typed H),
     {| stdout := stdout c; commands := commands c; made := made c;
        copies := copies c; prompts := prompts c ++ [prompt] |}).

Definition method1_cmd : list string :=
  ["pyinstaller"; "--name=本草御菌"; "--console"; "--onedir"; "--clean";
   "--collect-data=descriptastorus"; "--collect-data=rdkit";
   "--collect-data=chemprop";
   "--hidden-import=descriptastorus.descriptors.rdDescriptors";
   "--hidden-import=rdkit.Chem.Descriptors"; "--hidden-import=chemprop";
   "--icon=app.ico"; "app_beautiful_fixed_v2.py"].

Definition method1_simple_fix : Sh bool :=
  print "方法1: 使用简单修复参数打包..." ;;
  print ("执行: " ++ join " " method1_cmd)%string ;;
  run_ok method1_cmd.

Definition method2_cmd (hook_dir : string) : list string :=
  ["pyinstaller"; "--name=ChempropGUI"; "--console"; "--onedir"; "--clean";
   ("--additional-hooks-dir=" ++ hook_dir)%string;
   "--collect-all=descriptastorus"; "--collect-all=rdkit";
   "--collect-all=chemprop"; "app_up.py"].

Definition copy_if_exists (name hook_dir : string) : Sh unit :=
  if path_exists H name
  then do_copy name (path_join H hook_dir name)
  else ret tt.

Definition method2_with_hooks : Sh bool :=
  print "方法2: 使用自定义 hook 文件打包..." ;;
  let hook_dir := path_join H (getcwd H) "hooks" in
  do_makedirs hook_dir ;;
  copy_if_exists "hook-descriptastorus.py" hook_dir ;;
  copy_if_exists "hook-rdkit.py" hook_dir ;;
  print ("执行: " ++ join " " (method2_cmd hook_dir))%string ;;
  run_ok (method2_cmd hook_dir).

(** The last two literals of the list in the source are adjacent with no
    comma between them, so Python joins them into one argument. *)
Definition method3_cmd (site_packages : string) : list string :=
  ["pyinstaller"; "--name=ChempropGUI"; "--console"; "--onedir"; "--clean";
   ("--add-data=" ++ path_join H site_packages "descriptastorus" ++
      pathsep H ++ "descriptastorus")%string;
   ("--add-data=" ++ path_join H site_packages "rdkit" ++
      pathsep H ++ "rdkit")%string;
   "--hidden-import=descriptastorus.descriptors.rdDescriptors";
   "--hidden-import=rdkit.Chem.Descriptors";
   ("--" ++ "app_beautiful_fixed_v3.py")%string].

Definition method3_manual_data_files : Sh bool :=
  print "方法3: 手动指定数据文件路径..." ;;
  let site_packages :=
    match getsitepackages H with
    | [] => ""
    | first :: _ => first
    end in
  if str_empty site_packages || negb (path_exists H site_packages)
  then print "无法找到 site-packages 路径" ;; ret false
  else
    print ("执行: " ++ join " " (method3_cmd site_packages))%string ;;
    run_ok (method3_cmd site_packages).

Definition method4_cmd : list string :=
  ["pyinstaller"; "--name=ChempropGUI"; "--console"; "--onedir"; "--clean";
   "--debug=all"; "--log-level=DEBUG"; "--collect-all=descriptastorus";
   "--collect-all=rdkit"; "app_up.py"].

Definition method4_debug_mode : Sh bool :=
  print "方法4: 调试模式打包..." ;;
  print ("执行: " ++ join " " method4_cmd)%string ;;
  run_ok method4_cmd.

(** The dictionary [methods] of [main]. *)
Definition methods (choice : string) : option (Sh bool) :=
  if String.eqb choice "1" then Some method1_simple_fix
  else if String.eqb choice "2" then Some method2_with_hooks
  else if String.eqb choice "3" then Some method3_manual_data_files
  else if String.eqb choice "4" then Some method4_debug_mode
  else None.

Definition main : Sh Z :=
  print "Chemprop GUI 打包问题修复工具" ;;
  print (times "=" 50) ;;
  if negb (path_exists H "app_up.py")
  then print "错误: 未找到 app_up.py 文件" ;; ret 1%Z
  else
    print "选择修复方法:" ;;
    print "1. 简单修复 (推荐)" ;;
    print "2. 使用自定义 hook 文件" ;;
    print "3. 手动指定数据文件" ;;
    print "4. 调试模式" ;;
    answer <- input "请输入选择 (1-4): " ;;
    let choice := strip answer in
    match methods choice with
    | None => print "无效的选择" ;; ret 1%Z
    | Some method =>
        success <- method ;;
        (if success : bool
         then
           print "\n✓ 打包完成！" ;;
           print "输出目录: dist/ChempropGUI/" ;;
           print "\n重要提示:" ;;
           print "1. 请测试生成的可执行文件是否能正常运行" ;;
           print "2. 如果仍然有问题，请尝试其他方法" ;;
           print "3. 方法4的调试信息可以帮助诊断问题"
         else
           print "\n✗ 打包失败！" ;;
           print "请尝试其他方法或检查错误信息") ;;
        ret (if success then 0%Z else 1%Z)
    end.

(** The command lines that pass a script to PyInstaller: an argument that
    is not an option. *)
Definition is_option (arg : string) : bool := String.prefix "--" arg.

Definition has_script (cmd : list string) : bool :=
  existsb (fun a => negb (is_option a)) (tl cmd).

End Script.

(** A host for the examples: the application and one hook file are
    present, PyInstaller returns 0 for every command but the debug one, and
    the user types a space, [2] and a no-break space. *)
Definition lab : Host :=
  {| path_exists := fun p =>
       String.eqb p "app_up.py" || String.eqb p "hook-rdkit.py" ||
       String.eqb p "/usr/lib/python3/site-packages";
     getcwd := "/work";
     path_join := fun a b => (a ++ "/" ++ b)%string;
     pathsep := ":";
     getsitepackages := ["/usr/lib/python3/site-packages"];
     makedirs := fun _ => Ok tt;
     copy := fun _ _ => Ok tt;
     subprocess_run := fun cmd =>
       if existsb (String.eqb "--debug=all") cmd then Ok 1%Z else Ok 0%Z;
     typed := (" 2" ++ Lab.nbsp)%string |}.

End Packaging.

(** ** Vocabulary of the statements *)

Section Vocabulary.

Variables Model Featurizer Datapoint Dataset Loader Mol Trainer Preds PyObj : Type.
Variable L : Libs Model Featurizer Datapoint Dataset Loader Mol Trainer Preds PyObj.

(** The value computed by the [try] block of [_extract_prediction_value]. *)
Definition first_value (p : raw_output PyObj) : outcome float :=
  match p with
  | Tensor t =>
      if 1 <? numel t
      then match index0 t with Ok t0 => item t0 | Raise e => Raise e end
      else item t
  | Sequence l => match seq0 l with Ok x => py_float L x | Raise e => Raise e end
  | Array a => flat0 a
  | Object v => py_float L v
  end.

(** The dictionary appended for a molecule whose score is [x]. *)
Definition success_record (smi : cell) (x : float) : prediction :=
  {| smiles := smi; pred := Score x; confidence := 0.95%float;
     is_antibiotic := (0.5 <? x)%float;
     herb_type := if (0.5 <? x)%float then Antibiotic else NonAntibiotic |}.

(** The dictionary appended for a molecule, from the outcome of its [try]
    block. *)
Definition record_of (smi : cell) (o : outcome float) : prediction :=
  match o with
  | Ok x => success_record smi x
  | Raise _ => error_record smi
  end.

(** The history entries [record_predictions] appends, the clock reading [n]
    at the first. *)
Fixpoint entries_of (n : nat) (ps : list prediction) : list history_entry :=
  match ps with
  | [] => []
  | p :: rest =>
      match pred p with
      | Score x =>
          {| timestamp := timestamp_now L n; h_smiles := cell_str (smiles p);
             h_prediction := x; h_confidence := confidence p |}
          :: entries_of (S n) rest
      | ERROR => entries_of n rest
      end
  end.

(** What [update_history_display] shows for the history [h]. *)
Definition view_of (h : list history_entry) : history_view :=
  match h with
  | [] => NoHistory
  | _ :: _ => HistoryTable (map render_record (last_n 20 h))
  end.

(** The row [display_single_result] writes for the score [x]. *)
Definition single_row (smi : string) (x c : float) : table_row :=
  {| col_smiles := smi;
     col_pred := ValueCell x (if (0.5 <? x)%float then " 🌿" else " 🍃")
                   (if (0.5 <? x)%float then Green else Yellow);
     col_conf := c;
     col_nature := if (0.5 <? x)%float then Antibiotic else NonAntibiotic |}.

(** The window after [add_to_history]. *)
Definition with_entry (smi : string) (x c : float) (w : window Model)
    : window Model :=
  let h := (prediction_history w ++
             [{| timestamp := timestamp_now L (clock w); h_smiles := smi;
                 h_prediction := x; h_confidence := c |}])%list in
  set_history_display (view_of h) (set_prediction_history h (tick w)).

(** The frame in which the loop of [run_prediction] starts, for the test
    file [path] with [total] molecules. *)
Definition loop_start (w : window Model) (path : string) (total : nat)
    : frame Model Dataset Loader :=
  set_predictions []
    (on_self (add_log (LogDetected total))
       (on_self (add_call (CallReadCsv path))
          (on_self (add_log LogBatchStart) (enter w)))).

(** The frame in which the loop body runs for the molecule of index [i]. *)
Definition frame_at (w : window Model) (path : string)
    (smiles_list : list cell) (i : nat) : frame Model Dataset Loader :=
  let total := List.length smiles_list in
  snd (predict_items L total 0 (firstn i smiles_list)
         (loop_start w path total)).

(** The list [predictions] when the loop ends. *)
Definition batch_predictions (w : window Model) (path : string)
    (smiles_list : list cell) : list prediction :=
  predictions (frame_at w path smiles_list (List.length smiles_list)).

(** The data loader of one molecule, as the first [try] block of
    [run_prediction] and [predict_single_molecule] build it. *)
Definition primary (smi : cell) : outcome Loader :=
  match SimpleMoleculeMolGraphFeaturizer L with
  | Ok featurizer =>
      match from_smi L smi with
      | Ok dp =>
          match MoleculeDataset L [dp] (Some featurizer) with
          | Ok b => build_dataloader L b
          | Raise e => Raise e
          end
      | Raise e => Raise e
      end
  | Raise e => Raise e
  end.

(** The score of a data loader under the model [mdl]. *)
Definition infer (mdl : option Model) (loader : Loader) : outcome float :=
  match pl_Trainer L with
  | Ok trainer =>
      match trainer_predict L trainer mdl loader with
      | Ok test_preds =>
          match np_concatenate L test_preds with
          | Ok a =>
              Ok (match flat0 a with Ok x => x | Raise _ => 0.5%float end)
          | Raise e => Raise e
          end
      | Raise e => Raise e
      end
  | Raise e => Raise e
  end.

(** The outcome for one molecule taken alone. *)
Definition solo (mdl : option Model) (smi : cell) : outcome float :=
  match primary smi with
  | Ok loader => infer mdl loader
  | Raise e => Raise e
  end.

(** What library calls, log lines and the local variables [batch] and
    [test_loader] leave alone in the window. *)
Definition wcore (w : window Model) :=
  (model w, model_path w, prediction_history w, model_path_edit w,
   smiles_input w, test_edit w, predict_single_btn w, batch_predict_btn w,
   result_table w, empty_rows w, history_display w, dialogs w, clock w,
   files w).

Definition quiet (fr fr' : frame Model Dataset Loader) : Prop :=
  wcore (self fr') = wcore (self fr) /\ predictions fr' = predictions fr.

(** A computation that changes at most the log, the recorded calls and the
    two local variables. *)
Definition keeps {A} (m : Py Model Dataset Loader A) : Prop :=
  forall fr, quiet fr (snd (m fr)).

End Vocabulary.


(** ** The user at the window *)

Section Actions.

Variables Model Featurizer Datapoint Dataset Loader Mol Trainer Preds PyObj : Type.
Variable L : Libs Model Featurizer Datapoint Dataset Loader Mol Trainer Preds PyObj.

(** [self.model_path_edit.setText(s)], by typing or through [select_model]. *)
Definition set_model_path_edit (s : string) (w : window Model) : window Model :=
  {| model := model w; model_path := model_path w;
     prediction_history := prediction_history w;
     model_path_edit := s; smiles_input := smiles_input w;
     test_edit := test_edit w; predict_single_btn := predict_single_btn w;
     batch_predict_btn := batch_predict_btn w; result_table := result_table w;
     empty_rows := empty_rows w;
     history_display := history_display w; log_edit := log_edit w;
     dialogs := dialogs w; clock := clock w; calls := calls w; files := files w |}.

(** [self.smiles_input.setText(s)], by typing or through an example button. *)
Definition set_smiles_input (s : string) (w : window Model) : window Model :=
  {| model := model w; model_path := model_path w;
     prediction_history := prediction_history w;
     model_path_edit := model_path_edit w; smiles_input := s;
     test_edit := test_edit w; predict_single_btn := predict_single_btn w;
     batch_predict_btn := batch_predict_btn w; result_table := result_table w;
     empty_rows := empty_rows w;
     history_display := history_display w; log_edit := log_edit w;
     dialogs := dialogs w; clock := clock w; calls := calls w; files := files w |}.

(** [self.test_edit.setText(s)], by typing or through [select_test]. *)
Definition set_test_edit (s : string) (w : window Model) : window Model :=
  {| model := model w; model_path := model_path w;
     prediction_history := prediction_history w;
     model_path_edit := model_path_edit w; smiles_input := smiles_input w;
     test_edit := s; predict_single_btn := predict_single_btn w;
     batch_predict_btn := batch_predict_btn w; result_table := result_table w;
     empty_rows := empty_rows w;
     history_display := history_display w; log_edit := log_edit w;
     dialogs := dialogs w; clock := clock w; calls := calls w; files := files w |}.

(** What a user can do: edit one of the three line edits or press one of
    the six buttons wired to the methods above.  [ExportHistory] carries the
    answer given to the file dialog. *)
Inductive action : Type :=
| EditModelPath (s : string)
| EditSmiles (s : string)
| EditTestFile (s : string)
| LoadModel
| UnloadModel
| PredictSingle
| RunPrediction
| ClearHistory
| ExportHistory (file_path : string).

(** The window after an action; when the slot raises, the window is as the
    exception left it. *)
Definition perform (a : action) (w : window Model) : window Model :=
  match a with
  | EditModelPath s => set_model_path_edit s w
  | EditSmiles s => set_smiles_input s w
  | EditTestFile s => set_test_edit s w
  | LoadModel => snd (run_method (load_model L) w)
  | UnloadModel => snd (run_method (@unload_model Model Dataset Loader) w)
  | PredictSingle => snd (run_method (predict_single_molecule L) w)
  | RunPrediction => snd (run_method (run_prediction L) w)
  | ClearHistory => snd (run_method (@clear_history Model Dataset Loader) w)
  | ExportHistory path => snd (run_method (export_history L path) w)
  end.

Definition perform_all (acts : list action) (w : window Model) : window Model :=
  fold_left (fun w a => perform a w) acts w.

Definition is_clear (a : action) : bool :=
  match a with ClearHistory => true | _ => false end.

Definition is_load_or_unload (a : action) : bool :=
  match a with LoadModel | UnloadModel => true | _ => false end.

Definition is_export (a : action) : bool :=
  match a with ExportHistory _ => true | _ => false end.

(** The history display agrees with the history. *)
Definition in_sync (w : window Model) : Prop :=
  history_display w = view_of (prediction_history w).

(** A model is held exactly when its path is recorded. *)
Definition path_with_model (w : window Model) : Prop :=
  model w = None <-> model_path w = None.

(** A property of frames that a computation keeps. *)
Definition pres {A} (I : frame Model Dataset Loader -> Prop)
    (m : Py Model Dataset Loader A) : Prop :=
  forall fr, I fr -> I (snd (m fr)).

(** The second and third constructions of lines 802-811, after a
    [TypeError] of the first one. *)
Definition third_construction (smi : cell) : outcome Dataset :=
  match MoleculeDatapoint_noargs L with
  | Ok dp =>
      match set_smiles L dp smi with
      | Ok dp' => MoleculeDataset L [dp'] None
      | Raise e => Raise e
      end
  | Raise e => Raise e
  end.

Definition fallback (smi : cell) : outcome Dataset :=
  match MolFromSmiles L smi with
  | Ok (Some ml) =>
      match MoleculeDatapoint_mol L ml with
      | Ok dp =>
          match MoleculeDataset L [dp] None with
          | Ok b => Ok b
          | Raise _ => third_construction smi
          end
      | Raise _ => third_construction smi
      end
  | Ok None => third_construction smi
  | Raise _ => third_construction smi
  end.

(** The loader [load_model] picks for a path, and what it returns. *)
Definition loader_call (path : string) : ext_call :=
  if endswith path ".ckpt" then CallLoadCheckpoint path else CallTorchLoad path.

Definition loader_result (path : string) : outcome Model :=
  if endswith path ".ckpt" then load_from_checkpoint L path
  else torch_load L path.

(** The summary of a batch: the number of records labelled antibiotic and
    the number of error records. *)
Definition count_antibiotic (ps : list prediction) : nat :=
  List.length (filter is_antibiotic ps).

Definition count_errors (ps : list prediction) : nat :=
  List.length (filter is_error ps).



(** The calls into chemprop, lightning and numpy of a single prediction
    that runs to its end. *)
Definition single_calls (smi : string) : list ext_call :=
  [CallFeaturizer; CallFromSmi smi; CallMoleculeDataset; CallBuildDataloader;
   CallTrainer; CallPredict; CallConcatenate].

(** How many of them are made for the molecule [smi] under the model
    [mdl]: the calls up to the first that raises, that one included, and all
    seven when none raises. *)
Definition calls_made (mdl : option Model) (smi : string) : nat :=
  match SimpleMoleculeMolGraphFeaturizer L with
  | Raise _ => 1
  | Ok featurizer =>
      match from_smi L smi with
      | Raise _ => 2
      | Ok dp =>
          match MoleculeDataset L [dp] (Some featurizer) with
          | Raise _ => 3
          | Ok b =>
              match build_dataloader L b with
              | Raise _ => 4
              | Ok loader =>
                  match pl_Trainer L with
                  | Raise _ => 5
                  | Ok trainer =>
                      match trainer_predict L trainer mdl loader with
                      | Raise _ => 6
                      | Ok _ => 7
                      end
                  end
              end
          end
      end
  end.

End Actions.

(** ** More instances for the examples *)

Module Cases.

(** The libraries of [Lab.plain] with other loaders and another
    [read_csv]. *)
Definition libs_with (load : string -> outcome nat)
    (csv : string -> outcome (list (string * list cell)))
    : Libs nat unit string (list string) (list string) string unit
           (list float) float :=
  {| SimpleMoleculeMolGraphFeaturizer :=
       SimpleMoleculeMolGraphFeaturizer Lab.plain;
     from_smi := from_smi Lab.plain;
     MoleculeDataset := MoleculeDataset Lab.plain;
     build_dataloader := build_dataloader Lab.plain;
     MolFromSmiles := MolFromSmiles Lab.plain;
     MoleculeDatapoint_mol := MoleculeDatapoint_mol Lab.plain;
     MoleculeDatapoint_noargs := MoleculeDatapoint_noargs Lab.plain;
     set_smiles := set_smiles Lab.plain;
     pl_Trainer := pl_Trainer Lab.plain;
     trainer_predict := trainer_predict Lab.plain;
     np_concatenate := np_concatenate Lab.plain;
     py_float := py_float Lab.plain;
     model_bool := model_bool Lab.plain;
     load_from_checkpoint := load;
     torch_load := load;
     read_csv := csv;
     to_csv := to_csv Lab.plain;
     timestamp_now := timestamp_now Lab.plain |}.

Definition corrupt : exn := Exn RuntimeError "invalid checkpoint".
Definition missing : exn := Exn OSError "No such file or directory".

(** No checkpoint can be loaded. *)
Definition no_checkpoint := libs_with (fun _ => Raise corrupt) (fun _ => Ok []).

(** The test file cannot be read. *)
Definition no_file := libs_with (fun _ => Ok 1) (fun _ => Raise missing).

(** The test file has a column [name] only. *)
Definition no_column :=
  libs_with (fun _ => Ok 1) (fun _ => Ok [("name", [Text "a"])]).

(** The test file has an empty [smiles] column. *)
Definition no_rows := libs_with (fun _ => Ok 1) (fun _ => Ok [("smiles", [])]).

(** The test file holds aspirin alone. *)
Definition one_row :=
  libs_with (fun _ => Ok 1) (fun _ => Ok [("smiles", [Text Lab.aspirin])]).


(** [Lab.start] with a model path and a test file made of white space
    (an ideographic space, a space and a no-break space), and the unloaded
    window with a checkpoint path between such spaces. *)
Definition blank_path : window nat :=
  set_model_path_edit (Lab.wide_space ++ " ")%string Lab.start.
Definition blank_file : window nat := set_test_edit Lab.nbsp Lab.start.
Definition spaced_path : window nat :=
  set_model_path_edit (Lab.wide_space ++ "model.ckpt" ++ Lab.nbsp)%string
    Lab.unloaded.

(** A session: pick aspirin, predict it, run the batch, export. *)
Definition session : list action :=
  [EditSmiles Lab.aspirin; PredictSingle; RunPrediction;
   ExportHistory "history.csv"].

(** Hosts of the packaging script: one without [app_up.py], one whose user
    answers [9], one without a site-packages directory. *)
Definition host_with (present : string -> bool) (sites : list string)
    (answer : string) : Packaging.Host :=
  {| Packaging.path_exists := present;
     Packaging.getcwd := Packaging.getcwd Packaging.lab;
     Packaging.path_join := Packaging.path_join Packaging.lab;
     Packaging.pathsep := Packaging.pathsep Packaging.lab;
     Packaging.getsitepackages := sites;
     Packaging.makedirs := Packaging.makedirs Packaging.lab;
     Packaging.copy := Packaging.copy Packaging.lab;
     Packaging.subprocess_run := Packaging.subprocess_run Packaging.lab;
     Packaging.typed := answer |}.

Definition empty_dir : Packaging.Host := host_with (fun _ => false) [] "1".
Definition wrong_answer : Packaging.Host :=
  host_with (Packaging.path_exists Packaging.lab) [] "9".

End Cases.

(** * Properties *)

Section Facts.

Variables Model Featurizer Datapoint Dataset Loader Mol Trainer Preds PyObj : Type.
Variable L : Libs Model Featurizer Datapoint Dataset Loader Mol Trainer Preds PyObj.

Local Notation "'Frame'" := (frame Model Dataset Loader).
Local Notation "'Comp'" := (Py Model Dataset Loader).

(** ** Computations that keep the window *)

Lemma quiet_refl (fr : Frame) : quiet fr fr.
Proof. split; reflexivity. Qed.

Lemma quiet_trans (a b c : Frame) : quiet a b -> quiet b c -> quiet a c.
Proof. intros [H1 H2] [H3 H4]. split; congruence. Qed.

Lemma keeps_ret A (a : A) : keeps (ret a : Comp A).
Proof. intro fr. apply quiet_refl. Qed.

Lemma keeps_raise A (e : exn) : keeps (raise e : Comp A).
Proof. intro fr. apply quiet_refl. Qed.

Lemma keeps_lift A (o : outcome A) : keeps (lift o : Comp A).
Proof. intro fr. apply quiet_refl. Qed.

Lemma keeps_gets A (f : Frame -> A) : keeps (gets f).
Proof. intro fr. apply quiet_refl. Qed.

Lemma keeps_bind A B (m : Comp A) (k : A -> Comp B) :
  keeps m -> (forall a, keeps (k a)) -> keeps (bind m k).
Proof.
  intros Hm Hk fr. unfold bind. specialize (Hm fr).
  destruct (m fr) as [[a | e] fr1]; simpl in *.
  - eapply quiet_trans; [exact Hm | apply Hk].
  - exact Hm.
Qed.

Lemma keeps_try A (body : Comp A) (c : exn -> bool) (h : exn -> Comp A) :
  keeps body -> (forall e, keeps (h e)) -> keeps (try_except body c h).
Proof.
  intros Hb Hh fr. unfold try_except. specialize (Hb fr).
  destruct (body fr) as [[a | e] fr1]; simpl in *.
  - exact Hb.
  - destruct (c e); simpl.
    + eapply quiet_trans; [exact Hb | apply Hh].
    + exact Hb.
Qed.

Lemma keeps_call A (c : ext_call) (o : outcome A) : keeps (call c o : Comp A).
Proof. intro fr. split; reflexivity. Qed.

Lemma keeps_log (l : log_line) : keeps (log l : Comp unit).
Proof. intro fr. split; reflexivity. Qed.

Lemma keeps_set_batch (b : Dataset) : keeps (modify (set_batch b) : Comp unit).
Proof. intro fr. split; reflexivity. Qed.

Lemma keeps_set_test_loader (l : Loader) :
  keeps (modify (set_test_loader l) : Comp unit).
Proof. intro fr. split; reflexivity. Qed.

Ltac keeps_step :=
  first
    [ apply keeps_ret | apply keeps_raise | apply keeps_lift
    | apply keeps_gets | apply keeps_call | apply keeps_log
    | apply keeps_set_batch | apply keeps_set_test_loader
    | apply keeps_bind; [ | intro ]
    | apply keeps_try; [ | intro ]
    | match goal with
      | |- keeps (match ?x with _ => _ end) => destruct x
      end ].

Lemma keeps_extract (p : raw_output PyObj) :
  keeps (_extract_prediction_value L p).
Proof. unfold _extract_prediction_value. repeat keeps_step. Qed.

Lemma keeps_build_item (smi : cell) : keeps (build_item L smi).
Proof. unfold build_item. repeat keeps_step. Qed.

Lemma keeps_read_test_loader : keeps (read_test_loader (Model:=Model) (Dataset:=Dataset) (Loader:=Loader)).
Proof. unfold read_test_loader. repeat keeps_step. Qed.

Lemma keeps_score_item (smi : cell) : keeps (score_item L smi).
Proof.
  unfold score_item.
  repeat first [ apply keeps_extract | apply keeps_build_item
               | apply keeps_read_test_loader | keeps_step ].
Qed.

Lemma keeps_score_single (smi : string) : keeps (score_single L smi).
Proof.
  unfold score_single. repeat first [ apply keeps_extract | keeps_step ].
Qed.

(** ** Normalisation of the model output *)

Lemma extract_eq (p : raw_output PyObj) (fr : Frame) :
  _extract_prediction_value L p fr =
  match first_value L p with
  | Ok x => (Ok x, fr)
  | Raise e => (Ok 0.5%float, on_self (add_log (LogExtractFailedDefault e)) fr)
  end.
Proof.
  unfold _extract_prediction_value, first_value, try_except, bind, lift.
  destruct p as [t | l | a | v]; simpl.
  - destruct (1 <? numel t).
    + destruct (index0 t) as [t0 | e]; [destruct (item t0) | ]; reflexivity.
    + destruct (item t); reflexivity.
  - destruct (seq0 l) as [x | e]; [destruct (py_float L x) | ]; reflexivity.
  - destruct (flat0 a); reflexivity.
  - destruct (py_float L v); reflexivity.
Qed.

Lemma extract_never_raises (p : raw_output PyObj) (fr : Frame) :
  exists x, fst (_extract_prediction_value L p fr) = Ok x.
Proof.
  rewrite extract_eq.
  destruct (first_value L p); eexists; reflexivity.
Qed.

(** ** History *)

Lemma update_history_display_eq (fr : Frame) :
  update_history_display fr =
  (Ok tt, on_self (set_history_display (view_of (prediction_history (self fr)))) fr).
Proof.
  unfold update_history_display, bind, gets, modify, view_of.
  destruct (prediction_history (self fr)); reflexivity.
Qed.

Lemma add_to_history_eq (smi : string) (x c : float) (fr : Frame) :
  add_to_history L smi x c fr = (Ok tt, on_self (with_entry L smi x c) fr).
Proof.
  unfold add_to_history, bind, gets, modify. simpl.
  rewrite update_history_display_eq. reflexivity.
Qed.

Lemma record_predictions_ok (ps : list prediction) :
  Forall (fun p => is_text (smiles p) = true) ps ->
  forall fr : Frame,
  exists fr',
    record_predictions L ps fr = (Ok tt, fr') /\
    prediction_history (self fr') =
      prediction_history (self fr) ++ entries_of L (clock (self fr)) ps /\
    result_table (self fr') = result_table (self fr) /\
    empty_rows (self fr') = empty_rows (self fr) /\
    dialogs (self fr') = dialogs (self fr) /\
    files (self fr') = files (self fr) /\
    model (self fr') = model (self fr) /\
    predictions fr' = predictions fr.
Proof.
  induction 1 as [| p rest Hp0 _ IH]; intro fr; simpl.
  - exists fr. rewrite app_nil_r. repeat split; reflexivity.
  - unfold bind. destruct (pred p) as [x |].
    + destruct (smiles p) as [smi | ]; [ | discriminate Hp0].
      rewrite add_to_history_eq.
      destruct (IH (on_self (with_entry L smi x (confidence p)) fr))
        as (fr' & E & Hh & Ht & He & Hd & Hf & Hm & Hp).
      exists fr'. rewrite E, Hh, Ht, He, Hd, Hf, Hm, Hp. simpl.
      rewrite <- app_assoc. repeat split; reflexivity.
    + unfold ret.
      destruct (IH fr) as (fr' & E & Hh & Ht & He & Hd & Hf & Hm & Hp).
      exists fr'. rewrite E, Hh, Ht, He, Hd, Hf, Hm, Hp.
      repeat split; reflexivity.
Qed.

(** ** The result table *)

Lemma set_table_twice (t1 t2 : list table_row) (e1 e2 : nat)
    (w : window Model) :
  set_table t2 e2 (set_table t1 e1 w) = set_table t2 e2 w.
Proof. reflexivity. Qed.

(** Writing the row [i] of a table whose rows before it are filled. *)
Lemma put_row_eq (i : nat) (r : table_row) (w : window Model) :
  i <= List.length (result_table w) ->
  i < List.length (result_table w) + empty_rows w ->
  put_row i r w =
  set_table (firstn i (result_table w) ++ r :: skipn (S i) (result_table w))
    (List.length (result_table w) + empty_rows w -
     List.length (firstn i (result_table w) ++ r :: skipn (S i) (result_table w)))
    w.
Proof.
  intros Hi Hn. unfold put_row.
  destruct (i <? List.length (result_table w)) eqn:E.
  - apply Nat.ltb_lt in E. f_equal.
    rewrite length_app, length_firstn. cbn [Datatypes.length].
    rewrite length_skipn. lia.
  - apply Nat.ltb_ge in E.
    assert (Hi' : i = List.length (result_table w)) by lia.
    rewrite Hi', Nat.eqb_refl.
    assert (He : (0 <? empty_rows w) = true) by (apply Nat.ltb_lt; lia).
    rewrite He. cbn [andb]. rewrite firstn_all.
    rewrite skipn_all2 by lia. f_equal.
    rewrite length_app. cbn [Datatypes.length]. lia.
Qed.

Lemma display_rows_text (ps : list prediction) :
  Forall (fun p => is_text (smiles p) = true) ps ->
  forall (i : nat) (fr : Frame),
    i <= List.length (result_table (self fr)) ->
    List.length (result_table (self fr)) + empty_rows (self fr) =
      i + List.length ps ->
    display_rows i ps fr =
    (Ok tt,
     on_self (set_table (firstn i (result_table (self fr)) ++ map row_of ps) 0)
       fr).
Proof.
  induction 1 as [| p rest Hp _ IH]; intros i fr Hi Hn; simpl.
  - rewrite app_nil_r.
    replace i with (List.length (result_table (self fr))) by (simpl in Hn; lia).
    rewrite firstn_all. unfold ret. f_equal.
    destruct fr as [w b tl pr]. unfold on_self. simpl. f_equal.
    destruct w. unfold set_table. simpl in *. f_equal. lia.
  - simpl in Hn. unfold bind at 1. unfold lift at 1.
    destruct (smiles p) as [smi | ] eqn:Hs; [ | discriminate Hp].
    cbn [QTableWidgetItem].
    unfold bind at 1. unfold modify at 1.
    set (w := self fr) in *.
    assert (Hput : put_row i (row_with smi p) w =
                   set_table (firstn i (result_table w) ++ row_with smi p ::
                                skipn (S i) (result_table w))
                     (List.length (result_table w) + empty_rows w -
                      List.length (firstn i (result_table w) ++
                                   row_with smi p :: skipn (S i) (result_table w)))
                     w)
      by (apply put_row_eq; lia).
    assert (Hlen : List.length (firstn i (result_table w) ++ row_with smi p ::
                                  skipn (S i) (result_table w)) =
                   Nat.max (S i) (List.length (result_table w))).
    { rewrite length_app, length_firstn. cbn [Datatypes.length].
      rewrite length_skipn. lia. }
    assert (Hfirst : firstn (S i)
                       (firstn i (result_table w) ++ row_with smi p ::
                          skipn (S i) (result_table w)) =
                     firstn i (result_table w) ++ [row_of p]).
    { replace (S i) with (List.length (firstn i (result_table w)) + 1)
        by (rewrite length_firstn; lia).
      rewrite firstn_app_2. unfold row_of. rewrite Hs. reflexivity. }
    rewrite IH.
    + f_equal. unfold on_self. cbn [self batch test_loader predictions].
      fold w. rewrite Hput. rewrite set_table_twice. cbn [result_table set_table].
      rewrite Hfirst, <- app_assoc. reflexivity.
    + unfold on_self. cbn [self]. fold w. rewrite Hput.
      cbn [result_table set_table]. rewrite Hlen. lia.
    + unfold on_self. cbn [self]. fold w. rewrite Hput.
      cbn [result_table empty_rows set_table]. rewrite Hlen. lia.
Qed.

Lemma display_single_result_eq (smi : string) (x c : float) (fr : Frame) :
  display_single_result smi x c fr =
  (Ok tt, on_self (set_table [single_row smi x c] 0) fr).
Proof.
  unfold display_single_result, bind, modify, on_self, set_row_count, put_row.
  cbn [self result_table empty_rows set_table fst snd].
  destruct (result_table (self fr)) as [| r0 t]; reflexivity.
Qed.





(** On records whose [smiles] are all [str], [display_batch_results] fills
    the table with their rows and leaves no row empty. *)
Lemma display_batch_results_text (ps : list prediction) (fr : Frame) :
  Forall (fun p => is_text (smiles p) = true) ps ->
  display_batch_results ps fr =
  (Ok tt, on_self (set_table (map row_of ps) 0) fr).
Proof.
  intro Hps. unfold display_batch_results.
  unfold bind at 1. unfold modify at 1.
  rewrite (display_rows_text Hps).
  - f_equal.
  - lia.
  - unfold on_self, set_row_count. cbn [self result_table empty_rows set_table].
    rewrite length_firstn. lia.
Qed.

(** ** The loop of the batch prediction *)

Lemma predict_item_ok (total i : nat) (smi : cell) (fr : Frame) :
  exists fr',
    predict_item L total i smi fr = (Ok tt, fr') /\
    predictions fr' =
      predictions fr ++ [record_of smi (fst (score_item L smi fr))] /\
    wcore (self fr') = wcore (self fr).
Proof.
  unfold predict_item, try_except, bind.
  destruct (keeps_score_item smi fr) as [Hw Hp].
  destruct (score_item L smi fr) as [[x | e] fr1]; simpl in *;
    eexists; (split; [reflexivity | ]); simpl; rewrite Hp;
    (split; [reflexivity | exact Hw]).
Qed.

Lemma predict_items_cons (total i : nat) (smi : cell) (rest : list cell)
    (fr : Frame) :
  predict_items L total i (smi :: rest) fr =
  predict_items L total (S i) rest (snd (predict_item L total i smi fr)).
Proof.
  simpl. unfold bind.
  destruct (predict_item_ok total i smi fr) as (fr' & E & _).
  rewrite E. reflexivity.
Qed.

Lemma predict_items_ok (total : nat) (l : list cell) : forall i (fr : Frame),
  exists fr',
    predict_items L total i l fr = (Ok tt, fr') /\
    wcore (self fr') = wcore (self fr) /\
    exists ps, predictions fr' = predictions fr ++ ps /\ map smiles ps = l.
Proof.
  induction l as [| smi rest IH]; intros i fr.
  - exists fr. repeat split. exists []. rewrite app_nil_r. split; reflexivity.
  - rewrite predict_items_cons.
    destruct (predict_item_ok total i smi fr) as (fr1 & E1 & Hp1 & Hw1).
    rewrite E1. simpl.
    destruct (IH (S i) fr1) as (fr' & E & Hw & ps & Hp & Hs).
    exists fr'. split; [exact E | ]. split; [congruence | ].
    exists (record_of smi (fst (score_item L smi fr)) :: ps).
    split.
    + rewrite Hp, Hp1, <- app_assoc. reflexivity.
    + simpl. rewrite Hs. destruct (fst (score_item L smi fr)); reflexivity.
Qed.

(** The record at the place of a molecule is the one its own [try] block
    gives, run in the frame the earlier molecules left. *)
Lemma predict_items_nth (total : nat) (l : list cell) :
  forall i (fr : Frame) k smi,
    nth_error l k = Some smi ->
    nth_error (predictions (snd (predict_items L total i l fr)))
              (List.length (predictions fr) + k) =
    Some (record_of smi
            (fst (score_item L smi
                    (snd (predict_items L total i (firstn k l) fr))))).
Proof.
  induction l as [| s rest IH]; intros i fr k smi Hk.
  - destruct k; discriminate.
  - rewrite predict_items_cons.
    destruct (predict_item_ok total i s fr) as (fr1 & E1 & Hp1 & Hw1).
    rewrite E1. simpl snd at 2.
    destruct k as [| k].
    + injection Hk as <-. simpl firstn.
      destruct (predict_items_ok total rest (S i) fr1) as (fr' & E & _ & ps & Hp & _).
      rewrite E. simpl. rewrite Hp, Hp1, <- app_assoc, Nat.add_0_r.
      rewrite nth_error_app2 by lia. rewrite Nat.sub_diag. reflexivity.
    + simpl in Hk. simpl firstn. rewrite predict_items_cons, E1. simpl snd at 3.
      rewrite <- (IH (S i) fr1 k smi Hk).
      f_equal. rewrite Hp1, length_app. simpl. lia.
Qed.

Lemma predict_items_records (total : nat) (l : list cell) :
  forall i (fr : Frame),
  exists ps,
    predictions (snd (predict_items L total i l fr)) = predictions fr ++ ps /\
    Forall2 (fun smi p => exists o, p = record_of smi o) l ps.
Proof.
  induction l as [| smi rest IH]; intros i fr.
  - exists []. simpl. rewrite app_nil_r. split; constructor.
  - rewrite predict_items_cons.
    destruct (predict_item_ok total i smi fr) as (fr1 & E1 & Hp1 & _).
    rewrite E1. simpl snd at 2.
    destruct (IH (S i) fr1) as (ps & Hp & HF).
    exists (record_of smi (fst (score_item L smi fr)) :: ps). split.
    + rewrite Hp, Hp1, <- app_assoc. reflexivity.
    + constructor; [eexists; reflexivity | exact HF].
Qed.

(** ** The batch prediction as a whole *)

Lemma run_prediction_ok (w : window Model) (df : list (string * list cell))
    (l : list cell) :
  str_empty (strip (test_edit w)) = false ->
  not_model L (model w) = false ->
  read_csv L (strip (test_edit w)) = Ok df ->
  column "smiles" df = Some l ->
  Forall (fun c => is_text c = true) l ->
  exists fr',
    run_prediction L (enter w) = (Ok tt, fr') /\
    result_table (self fr') =
      map row_of (batch_predictions L w (strip (test_edit w)) l) /\
    empty_rows (self fr') = 0 /\
    prediction_history (self fr') =
      prediction_history w ++
      entries_of L (clock w) (batch_predictions L w (strip (test_edit w)) l) /\
    files (self fr') = files w /\ model (self fr') = model w.
Proof.
  intros Hf Hm Hc Hl Htext.
  unfold batch_predictions, frame_at. rewrite firstn_all.
  unfold run_prediction.
  unfold bind at 1. unfold gets at 1. cbn [self enter test_edit].
  rewrite Hf.
  unfold bind at 1. unfold gets at 1. cbn [self enter model]. rewrite Hm.
  unfold try_except.
  unfold bind at 1. unfold log at 1, modify at 1.
  unfold bind at 1. unfold call at 1. rewrite Hc.
  rewrite Hl.
  unfold bind at 1. unfold log at 1, modify at 1.
  unfold bind at 1. unfold modify at 1.
  unfold bind at 1.
  fold (loop_start Dataset Loader w (strip (test_edit w)) (List.length l)).
  destruct (predict_items_ok (List.length l) l 0
              (loop_start Dataset Loader w (strip (test_edit w)) (List.length l)))
    as (fr1 & E & Hw & ps & Hp & Hs).
  rewrite E. simpl in Hp. cbn [snd].
  unfold bind at 1. unfold gets at 1. rewrite Hp.
  assert (Hps : Forall (fun p => is_text (smiles p) = true) ps).
  { rewrite <- Hs in Htext. apply Forall_map in Htext. exact Htext. }
  unfold bind at 1. rewrite (display_batch_results_text _ Hps).
  unfold bind at 1.
  destruct (record_predictions_ok Hps
              (on_self (set_table (map row_of ps) 0) fr1))
    as (fr2 & E2 & Hh & Ht & He & Hd & Hfi & Hmo & Hpr).
  rewrite E2.
  injection Hw as Hw1 Hw2 Hw3 Hw4 Hw5 Hw6 Hw7 Hw8 Hw9 Hw10 Hw11 Hw12 Hw13 Hw14.
  simpl in *.
  destruct (List.length ps =? 0);
    (eexists; split; [reflexivity | ]); simpl;
    rewrite Hh, Ht, He, Hfi, Hmo; repeat split; congruence.
Qed.

Lemma batch_predictions_records (w : window Model) (path : string)
    (l : list cell) :
  Forall2 (fun smi p => exists o, p = record_of smi o) l
          (batch_predictions L w path l).
Proof.
  unfold batch_predictions, frame_at. rewrite firstn_all.
  destruct (predict_items_records (List.length l) l 0
              (loop_start Dataset Loader w path (List.length l)))
    as (ps & Hp & HF).
  rewrite Hp. exact HF.
Qed.

Lemma batch_predictions_nth (w : window Model) (path : string)
    (l : list cell) (i : nat) (smi : cell) :
  nth_error l i = Some smi ->
  nth_error (batch_predictions L w path l) i =
  Some (record_of smi (fst (score_item L smi (frame_at L w path l i)))).
Proof.
  intro Hi. unfold batch_predictions, frame_at at 1. rewrite firstn_all.
  apply (predict_items_nth (List.length l) l 0
           (loop_start Dataset Loader w path (List.length l)) i Hi).
Qed.

(** ** The single prediction *)

Lemma predict_single_ok (w : window Model) :
  str_empty (strip (smiles_input w)) = false ->
  not_model L (model w) = false ->
  let smi := strip (smiles_input w) in
  let fr0 : Frame :=
    on_self (add_log (LogAnalysing (take_chars 50 smi))) (enter w) in
  exists fr',
    predict_single_molecule L (enter w) = (Ok tt, fr') /\
    files (self fr') = files w /\
    match fst (score_single L smi fr0) with
    | Ok x =>
        prediction_history (self fr') =
          prediction_history w ++
          [{| timestamp := timestamp_now L (clock w); h_smiles := smi;
              h_prediction := x; h_confidence := 0.95%float |}] /\
        result_table (self fr') = [single_row smi x 0.95%float] /\
        dialogs (self fr') = dialogs w
    | Raise e =>
        prediction_history (self fr') = prediction_history w /\
        result_table (self fr') = result_table w /\
        dialogs (self fr') = dialogs w ++ [Dialog Critical (PredictFailed e)]
    end.
Proof.
  intros Hs Hm smi fr0.
  unfold predict_single_molecule.
  unfold bind at 1. unfold gets at 1. cbn [self enter smiles_input].
  rewrite Hs.
  unfold bind at 1. unfold gets at 1. cbn [self enter model]. rewrite Hm.
  unfold try_except.
  unfold bind at 1. unfold log at 1, modify at 1.
  unfold bind at 1. fold smi. fold fr0.
  destruct (keeps_score_single smi fr0) as [Hw Hp].
  destruct (score_single L smi fr0) as [[x | e] fr1]; cbn [fst snd] in *.
  - unfold bind at 1. rewrite add_to_history_eq.
    unfold bind at 1. rewrite display_single_result_eq.
    injection Hw as Hw1 Hw2 Hw3 Hw4 Hw5 Hw6 Hw7 Hw8 Hw9 Hw10 Hw11 Hw12 Hw13 Hw14.
    simpl in *.
    eexists; split; [reflexivity | ]. simpl.
    repeat split; congruence.
  - injection Hw as Hw1 Hw2 Hw3 Hw4 Hw5 Hw6 Hw7 Hw8 Hw9 Hw10 Hw11 Hw12 Hw13 Hw14.
    simpl in *.
    eexists; split; [reflexivity | ]. simpl.
    repeat split; congruence.
Qed.

(** With no model, the method stops at one of its two guards. *)
Lemma predict_single_unloaded (w : window Model) :
  model w = None ->
  predict_single_molecule L (enter w) =
  (Ok tt,
   on_self (add_dialog
              (Dialog Warning
                 (if str_empty (strip (smiles_input w))
                  then PleaseEnterSmiles else PleaseLoadModel)))
           (enter w)).
Proof.
  intro Hm. unfold predict_single_molecule.
  unfold bind at 1. unfold gets at 1. cbn [self enter smiles_input].
  destruct (str_empty (strip (smiles_input w))).
  - reflexivity.
  - unfold bind at 1. unfold gets at 1. cbn [self enter model].
    rewrite Hm. reflexivity.
Qed.

(** ** Exceptions that escape *)

Lemma try_all_safe A (body : Comp A) (h : exn -> Comp A) :
  (forall e fr, raised (fst (h e fr)) = false) ->
  forall fr, raised (fst (try_except body is_Exception h fr)) = false.
Proof.
  intros Hh fr. unfold try_except.
  destruct (body fr) as [[a | e] fr1]; simpl; [reflexivity | apply Hh].
Qed.

Lemma load_model_safe (fr : Frame) : raised (fst (load_model L fr)) = false.
Proof.
  unfold load_model. unfold bind at 1. unfold gets at 1.
  destruct (str_empty _); [reflexivity | ].
  apply try_all_safe. reflexivity.
Qed.

Lemma predict_single_safe (fr : Frame) :
  raised (fst (predict_single_molecule L fr)) = false.
Proof.
  unfold predict_single_molecule. unfold bind at 1. unfold gets at 1.
  destruct (str_empty _); [reflexivity | ].
  unfold bind at 1. unfold gets at 1.
  destruct (not_model _ _); [reflexivity | ].
  apply try_all_safe. reflexivity.
Qed.

Lemma run_prediction_safe (fr : Frame) :
  raised (fst (run_prediction L fr)) = false.
Proof.
  unfold run_prediction. unfold bind at 1. unfold gets at 1.
  destruct (str_empty _); [reflexivity | ].
  unfold bind at 1. unfold gets at 1.
  destruct (not_model _ _); [reflexivity | ].
  apply try_all_safe. reflexivity.
Qed.

(** [export_history] has no handler: what [to_csv] raises escapes. *)
Lemma export_history_eq (path : string) (fr : Frame) :
  export_history L path fr =
  match prediction_history (self fr) with
  | [] => (Ok tt, on_self (add_dialog (Dialog Warning NoHistoryToExport)) fr)
  | _ :: _ =>
      if str_empty path then (Ok tt, fr)
      else
        match to_csv L path with
        | Ok _ =>
            (Ok tt,
             on_self (add_dialog (Dialog Information HistoryExported))
               (on_self (add_log (LogExported path))
                  (on_self (add_file path (DataFrame (prediction_history (self fr))))
                     (on_self (add_call (CallToCsv path)) fr))))
        | Raise e => (Raise e, on_self (add_call (CallToCsv path)) fr)
        end
  end.
Proof.
  unfold export_history. unfold bind at 1. unfold gets at 1.
  destruct (prediction_history (self fr)) as [| e0 h] eqn:Hh; [reflexivity | ].
  destruct (str_empty path); [reflexivity | ].
  unfold bind, call, modify, log, show. simpl.
  destruct (to_csv L path); simpl; rewrite ?Hh; reflexivity.
Qed.

Lemma export_history_raises (w : window Model) (path : string) (e : exn) :
  prediction_history w <> [] ->
  str_empty path = false ->
  to_csv L path = Raise e ->
  fst (run_method (export_history L path) w) = Raise e.
Proof.
  intros Hh Hp Hc. unfold run_method. rewrite export_history_eq.
  cbn [self enter]. destruct (prediction_history w); [contradiction | ].
  rewrite Hp, Hc. reflexivity.
Qed.

(** The three methods with a handler raise nothing. *)
Lemma handled_methods_never_raise (w : window Model) :
  fst (run_method (load_model L) w) = Ok tt /\
  fst (run_method (predict_single_molecule L) w) = Ok tt /\
  fst (run_method (run_prediction L) w) = Ok tt.
Proof.
  unfold run_method.
  pose proof (load_model_safe (enter w)) as H1.
  pose proof (predict_single_safe (enter w)) as H2.
  pose proof (run_prediction_safe (enter w)) as H3.
  destruct (load_model L (enter w)) as [[[] | ?] ?];
  destruct (predict_single_molecule L (enter w)) as [[[] | ?] ?];
  destruct (run_prediction L (enter w)) as [[[] | ?] ?];
  try discriminate; repeat split.
Qed.

(** ** One molecule taken alone *)

Lemma score_single_eq (smi : string) (fr : Frame) :
  fst (score_single L smi fr) = solo L (model (self fr)) smi.
Proof.
  unfold score_single, solo, primary, infer, bind, call, gets.
  destruct (SimpleMoleculeMolGraphFeaturizer L) as [f | e]; [ | reflexivity].
  destruct (from_smi L smi) as [dp | e]; [ | reflexivity].
  destruct (MoleculeDataset L [dp] (Some f)) as [b | e]; [ | reflexivity].
  destruct (build_dataloader L b) as [ld | e]; [ | reflexivity].
  destruct (pl_Trainer L) as [t | e]; [ | reflexivity].
  simpl.
  destruct (trainer_predict L t (model (self fr)) ld) as [p | e]; [ | reflexivity].
  destruct (np_concatenate L p) as [a | e]; [ | reflexivity].
  rewrite extract_eq. simpl. destruct (flat0 a); reflexivity.
Qed.

(** When the first [try] block of the loop body does not raise a
    [TypeError], the molecule is scored as by the single prediction,
    whatever the earlier molecules left behind. *)
Lemma score_item_no_fallback (smi : cell) (fr : Frame) :
  (forall e, primary L smi = Raise e -> is_TypeError e = false) ->
  fst (score_item L smi fr) = solo L (model (self fr)) smi.
Proof.
  intro Hno.
  unfold score_item, build_item, read_test_loader, solo, infer.
  unfold primary in *.
  unfold bind, call, gets, modify, try_except.
  destruct (SimpleMoleculeMolGraphFeaturizer L) as [f | e].
  2:{ rewrite (Hno e eq_refl). reflexivity. }
  destruct (from_smi L smi) as [dp | e].
  2:{ rewrite (Hno e eq_refl). reflexivity. }
  destruct (MoleculeDataset L [dp] (Some f)) as [b | e].
  2:{ rewrite (Hno e eq_refl). reflexivity. }
  destruct (build_dataloader L b) as [ld | e].
  2:{ rewrite (Hno e eq_refl). reflexivity. }
  simpl.
  destruct (pl_Trainer L) as [t | e]; [ | reflexivity].
  simpl.
  destruct (trainer_predict L t (model (self fr)) ld) as [p | e]; [ | reflexivity].
  destruct (np_concatenate L p) as [a | e]; [ | reflexivity].
  rewrite extract_eq. simpl. destruct (flat0 a); reflexivity.
Qed.

Lemma frame_at_model (w : window Model) (path : string) (l : list cell)
    (i : nat) :
  model (self (frame_at L w path l i)) = model w.
Proof.
  unfold frame_at.
  destruct (predict_items_ok (List.length l) (firstn i l) 0
              (loop_start Dataset Loader w path (List.length l)))
    as (fr' & E & Hw & _).
  rewrite E. simpl snd. injection Hw as Hw1. simpl in *. congruence.
Qed.

Lemma run_method_eq (m : Comp unit) (w : window Model) (o : outcome unit)
    (fr : Frame) :
  m (enter w) = (o, fr) -> run_method m w = (o, self fr).
Proof. intro E. unfold run_method. rewrite E. reflexivity. Qed.

(** ** The fallback of the batch loop *)

(** A [TypeError] of the first construction is caught; were RDKit to
    return [None] and the datapoint to be built without its molecule, the
    string would be forced into a datapoint and [test_loader] would stay
    what the earlier molecules made it. *)
Lemma build_item_forces_string (smi : cell) (fr : Frame) (e : exn)
    (dp dp' : Datapoint) (b : Dataset) :
  primary L smi = Raise e ->
  is_TypeError e = true ->
  MolFromSmiles L smi = Ok None ->
  MoleculeDatapoint_noargs L = Ok dp ->
  set_smiles L dp smi = Ok dp' ->
  MoleculeDataset L [dp'] None = Ok b ->
  fst (build_item L smi fr) = Ok tt /\
  batch (snd (build_item L smi fr)) = Some b /\
  test_loader (snd (build_item L smi fr)) = test_loader fr.
Proof.
  intros Hp He Hmol Hdp Hset Hb.
  unfold build_item, primary in *.
  unfold bind, call, modify, raise, try_except.
  destruct (SimpleMoleculeMolGraphFeaturizer L) as [f | e1].
  2:{ injection Hp as ->. rewrite He, Hmol, Hdp, Hset, Hb.
      repeat split. }
  destruct (from_smi L smi) as [d | e1].
  2:{ injection Hp as ->. rewrite He, Hmol, Hdp, Hset, Hb.
      repeat split. }
  destruct (MoleculeDataset L [d] (Some f)) as [b0 | e1].
  2:{ injection Hp as ->. rewrite He, Hmol, Hdp, Hset, Hb.
      repeat split. }
  rewrite Hp, He, Hmol, Hdp, Hset, Hb. repeat split.
Qed.

(** Any other exception of the first construction leaves the loop body at
    once: the record of the molecule is the error record. *)
Lemma batch_reports_other_failures (total i : nat) (smi : cell) (fr : Frame)
    (e : exn) :
  primary L smi = Raise e ->
  is_TypeError e = false ->
  predictions (snd (predict_item L total i smi fr)) =
  predictions fr ++ [error_record smi].
Proof.
  intros Hp He.
  destruct (predict_item_ok total i smi fr) as (fr' & E & Hpr & _).
  rewrite E. simpl snd. rewrite Hpr, score_item_no_fallback.
  - unfold solo. rewrite Hp. reflexivity.
  - intros e' He'. congruence.
Qed.

(** The single prediction reports every failure of the construction. *)
Lemma single_reports_failures (w : window Model) (e : exn) :
  str_empty (strip (smiles_input w)) = false ->
  not_model L (model w) = false ->
  primary L (strip (smiles_input w)) = Raise e ->
  let w' := snd (run_method (predict_single_molecule L) w) in
  dialogs w' = dialogs w ++ [Dialog Critical (PredictFailed e)] /\
  prediction_history w' = prediction_history w.
Proof.
  intros Hs Hm Hp w'.
  destruct (predict_single_ok w Hs Hm) as (fr' & E & _ & H).
  assert (Hw' : w' = self fr').
  { unfold w'. erewrite run_method_eq by exact E. reflexivity. }
  rewrite Hw'. rewrite score_single_eq in H. unfold solo in H.
  simpl in H. rewrite Hp in H. tauto.
Qed.

(** * Properties of the specification *)


Lemma texts_are_text (l : list string) :
  Forall (fun c => is_text c = true) (map Text l).
Proof. apply Forall_map. apply Forall_forall. reflexivity. Qed.

(** The outcome of the loop body when a datapoint cannot be built without
    its molecule and RDKit gives no molecule for what the first
    construction rejects with a [TypeError]: the fallback raises. *)
Lemma score_item_strict (smi : cell) (fr : Frame) (e0 : exn) :
  MoleculeDatapoint_noargs L = Raise e0 ->
  (forall e, primary L smi = Raise e -> is_TypeError e = true ->
     forall m, MolFromSmiles L smi <> Ok (Some m)) ->
  fst (score_item L smi fr) =
  match primary L smi with
  | Ok loader => infer L (model (self fr)) loader
  | Raise e => Raise (if is_TypeError e then e0 else e)
  end.
Proof.
  intros H0 Hno.
  unfold score_item, build_item, read_test_loader, infer.
  unfold primary in *.
  unfold bind, call, gets, modify, raise, try_except.
  destruct (SimpleMoleculeMolGraphFeaturizer L) as [f | e].
  2:{ destruct (is_TypeError e) eqn:He; [ | reflexivity].
      pose proof (Hno e eq_refl He) as Hm.
      destruct (MolFromSmiles L smi) as [[m | ] | e1];
        [exfalso; exact (Hm m eq_refl) | | ]; simpl; rewrite H0; reflexivity. }
  destruct (from_smi L smi) as [dp | e].
  2:{ destruct (is_TypeError e) eqn:He; [ | reflexivity].
      pose proof (Hno e eq_refl He) as Hm.
      destruct (MolFromSmiles L smi) as [[m | ] | e1];
        [exfalso; exact (Hm m eq_refl) | | ]; simpl; rewrite H0; reflexivity. }
  destruct (MoleculeDataset L [dp] (Some f)) as [b | e].
  2:{ destruct (is_TypeError e) eqn:He; [ | reflexivity].
      pose proof (Hno e eq_refl He) as Hm.
      destruct (MolFromSmiles L smi) as [[m | ] | e1];
        [exfalso; exact (Hm m eq_refl) | | ]; simpl; rewrite H0; reflexivity. }
  destruct (build_dataloader L b) as [ld | e].
  2:{ destruct (is_TypeError e) eqn:He; [ | reflexivity].
      pose proof (Hno e eq_refl He) as Hm.
      destruct (MolFromSmiles L smi) as [[m | ] | e1];
        [exfalso; exact (Hm m eq_refl) | | ]; simpl; rewrite H0; reflexivity. }
  simpl.
  destruct (pl_Trainer L) as [t | e]; [ | reflexivity].
  simpl.
  destruct (trainer_predict L t (model (self fr)) ld) as [p | e]; [ | reflexivity].
  destruct (np_concatenate L p) as [a | e]; [ | reflexivity].
  rewrite extract_eq. simpl. destruct (flat0 a); reflexivity.
Qed.



(** C1: take a cell that chemprop cannot parse ([from_smi] raises on it) and
    for which RDKit gives no molecule, and the datapoint constructor of
    chemprop, which cannot build a datapoint without its molecule.  Then the
    construction of lines 797-811 raises: the exception of the first
    construction, or, when that one is a [TypeError] and the alternative
    constructions were tried, the exception of the last of them.  No dataset
    is bound in place of the failed one, the loop body records the error
    record for the cell and never a score, and the single prediction, whose
    featurization has no alternative construction, raises as well. *)
Theorem unparsed_molecule_fails_featurization (smi : cell) (e e0 : exn) :
  from_smi L smi = Raise e ->
  (forall m, MolFromSmiles L smi <> Ok (Some m)) ->
  MoleculeDatapoint_noargs L = Raise e0 ->
  (exists e1,
     primary L smi = Raise e1 /\
     forall fr : Frame,
       fst (build_item L smi fr) = Raise (if is_TypeError e1 then e0 else e1) /\
       batch (snd (build_item L smi fr)) = batch fr /\
       test_loader (snd (build_item L smi fr)) = test_loader fr /\
       raised (fst (score_item L smi fr)) = true) /\
  (forall total i (fr : Frame),
     predictions (snd (predict_item L total i smi fr)) =
     predictions fr ++ [error_record smi]) /\
  (forall (s : string) (fr : Frame),
     smi = Text s -> raised (fst (score_single L s fr)) = true).
Proof.
  intros He Hmol H0.
  assert (Hp : exists e1, primary L smi = Raise e1).
  { unfold primary. destruct (SimpleMoleculeMolGraphFeaturizer L); rewrite ?He; eauto. }
  destruct Hp as [e1 Hp].
  assert (Hscore : forall fr : Frame,
            fst (score_item L smi fr) = Raise (if is_TypeError e1 then e0 else e1)).
  { intro fr. rewrite (@score_item_strict smi fr e0 H0), Hp; [reflexivity | ].
    intros e' _ _. exact Hmol. }
  split; [ | split].
  - exists e1. split; [exact Hp | ]. intro fr.
    split; [ | split; [ | split]].
    + unfold build_item, primary in *.
      unfold bind, call, modify, raise, try_except.
      destruct (SimpleMoleculeMolGraphFeaturizer L) as [f | ef].
      * rewrite He in *. injection Hp as <-.
        destruct (is_TypeError e); [ | reflexivity].
        destruct (MolFromSmiles L smi) as [[m | ] | em];
          [exfalso; exact (Hmol m eq_refl) | | ]; simpl; rewrite H0; reflexivity.
      * injection Hp as <-.
        destruct (is_TypeError ef); [ | reflexivity].
        destruct (MolFromSmiles L smi) as [[m | ] | em];
          [exfalso; exact (Hmol m eq_refl) | | ]; simpl; rewrite H0; reflexivity.
    + unfold build_item, primary in *.
      unfold bind, call, modify, raise, try_except.
      destruct (SimpleMoleculeMolGraphFeaturizer L) as [f | ef].
      * rewrite He in *.
        destruct (is_TypeError e); [ | reflexivity].
        destruct (MolFromSmiles L smi) as [[m | ] | em];
          [exfalso; exact (Hmol m eq_refl) | | ]; simpl; rewrite H0; reflexivity.
      * destruct (is_TypeError ef); [ | reflexivity].
        destruct (MolFromSmiles L smi) as [[m | ] | em];
          [exfalso; exact (Hmol m eq_refl) | | ]; simpl; rewrite H0; reflexivity.
    + unfold build_item, primary in *.
      unfold bind, call, modify, raise, try_except.
      destruct (SimpleMoleculeMolGraphFeaturizer L) as [f | ef].
      * rewrite He in *.
        destruct (is_TypeError e); [ | reflexivity].
        destruct (MolFromSmiles L smi) as [[m | ] | em];
          [exfalso; exact (Hmol m eq_refl) | | ]; simpl; rewrite H0; reflexivity.
      * destruct (is_TypeError ef); [ | reflexivity].
        destruct (MolFromSmiles L smi) as [[m | ] | em];
          [exfalso; exact (Hmol m eq_refl) | | ]; simpl; rewrite H0; reflexivity.
    + rewrite Hscore. reflexivity.
  - intros total i fr.
    destruct (predict_item_ok total i smi fr) as (fr' & E & Hpr & _).
    rewrite E. cbn [snd]. rewrite Hpr, Hscore. reflexivity.
  - intros s fr ->. rewrite score_single_eq. unfold solo. rewrite Hp. reflexivity.
Qed.

Lemma entries_smiles (ps : list prediction) :
  Forall (fun p => is_text (smiles p) = true) ps ->
  forall n,
    map Text (map h_smiles (entries_of L n ps)) =
    map smiles (filter (fun p => negb (is_error p)) ps).
Proof.
  induction 1 as [| p rest Hp _ IH]; intro n; simpl; [reflexivity | ].
  unfold is_error. destruct (pred p); simpl; rewrite IH; [ | reflexivity].
  destruct (smiles p); [reflexivity | discriminate Hp].
Qed.

Lemma records_are_text (l : list string) (ps : list prediction) :
  Forall2 (fun smi p => exists o, p = record_of smi o) (map Text l) ps ->
  Forall (fun p => is_text (smiles p) = true) ps.
Proof.
  revert ps. induction l as [| smi l' IH]; intros ps HF; inversion HF; subst;
    constructor.
  - match goal with H : exists o, _ = record_of _ o |- _ => destruct H as [o ->] end.
    destruct o; reflexivity.
  - apply IH. assumption.
Qed.

Lemma entries_confidence (c : float) (ps : list prediction) :
  Forall (fun p => is_error p = false -> confidence p = c) ps ->
  forall n, Forall (fun e => h_confidence e = c) (entries_of L n ps).
Proof.
  induction 1 as [| p rest Hp _ IH]; intro n; simpl; [constructor | ].
  unfold is_error in Hp. destruct (pred p); [ | apply IH].
  constructor; [simpl; apply Hp; reflexivity | apply IH].
Qed.

Lemma records_confidence (l : list cell) (ps : list prediction) :
  Forall2 (fun smi p => exists o, p = record_of smi o) l ps ->
  Forall (fun p => is_error p = false -> confidence p = 0.95%float) ps.
Proof.
  induction 1 as [| smi p l' ps' [o Hp] _ IH]; constructor; [ | exact IH].
  subst p. destruct o; [reflexivity | discriminate].
Qed.

(** C4: the batch prediction appends to the history one entry for each
    record that is not error-tagged, in order, and nothing for an
    error-tagged one; with one scored and one failed molecule and an empty
    history before, the history holds exactly the entry of the scored
    molecule.  The single prediction appends its entry when the score was
    obtained and leaves the history as it was when the prediction failed. *)
Theorem history_holds_successes_only :
  (forall (w : window Model) (df : list (string * list cell))
          (l : list string),
     str_empty (strip (test_edit w)) = false ->
     not_model L (model w) = false ->
     read_csv L (strip (test_edit w)) = Ok df ->
     column "smiles" df = Some (map Text l) ->
     let w' := snd (run_method (run_prediction L) w) in
     let ps := batch_predictions L w (strip (test_edit w)) (map Text l) in
     let added := entries_of L (clock w) ps in
     result_table w' = map row_of ps /\
     prediction_history w' = prediction_history w ++ added /\
     map Text (map h_smiles added) =
       map smiles (filter (fun p => negb (is_error p)) ps) /\
     (forall p1 p2, ps = [p1; p2] -> is_error p1 = false ->
        is_error p2 = true -> prediction_history w = [] ->
        exists e, prediction_history w' = [e] /\
                  smiles p1 = Text (h_smiles e) /\
                  pred p1 = Score (h_prediction e))) /\
  (forall w : window Model,
     str_empty (strip (smiles_input w)) = false ->
     not_model L (model w) = false ->
     let smi := strip (smiles_input w) in
     let w' := snd (run_method (predict_single_molecule L) w) in
     match solo L (model w) smi with
     | Ok x =>
         prediction_history w' =
           prediction_history w ++
           [{| timestamp := timestamp_now L (clock w); h_smiles := smi;
               h_prediction := x; h_confidence := 0.95%float |}]
     | Raise _ => prediction_history w' = prediction_history w
     end).
Proof.
  split.
  - intros w df l Hf Hm Hc Hl w' ps added.
    destruct (run_prediction_ok w Hf Hm Hc Hl (texts_are_text l))
      as (fr' & E & Ht & _ & Hh & _).
    assert (Hw' : w' = self fr').
    { unfold w'. erewrite run_method_eq by exact E. reflexivity. }
    rewrite Hw'. fold ps in Ht, Hh. fold added in Hh.
    assert (Htext : Forall (fun p => is_text (smiles p) = true) ps).
    { apply (@records_are_text l). apply batch_predictions_records. }
    split; [exact Ht | ]. split; [exact Hh | ].
    split; [apply entries_smiles; exact Htext | ].
    intros p1 p2 Eps H1 H2 Hempty.
    rewrite Hh, Hempty. unfold added. rewrite Eps.
    rewrite Eps in Htext. inversion Htext as [| ? ? Ht1 _]; subst.
    unfold is_error in H1, H2. simpl.
    destruct (pred p1) as [x1 | ]; [ | discriminate].
    destruct (pred p2) as [x2 | ]; [discriminate | ].
    destruct (smiles p1) as [s1 | ]; [ | discriminate Ht1].
    eexists. split; [reflexivity | ]. split; reflexivity.
  - intros w Hs Hm smi w'.
    destruct (predict_single_ok w Hs Hm) as (fr' & E & _ & H).
    assert (Hw' : w' = self fr').
    { unfold w'. erewrite run_method_eq by exact E. reflexivity. }
    rewrite Hw'. rewrite score_single_eq in H. simpl in H. fold smi in H.
    destruct (solo L (model w) smi); tauto.
Qed.

(** C8: the record the batch loop appends for a molecule carries the label
    [0.5 < x] when its score is [x] (and a score of exactly 0.5 is labelled
    negative), and the label [False] when it is error-tagged; the row the
    single prediction displays for the score [x] is coloured and named by
    the same test. *)
Theorem label_is_score_above_half :
  (forall (total i : nat) (smi : cell) (fr : Frame),
     exists fr' p,
       predict_item L total i smi fr = (Ok tt, fr') /\
       predictions fr' = predictions fr ++ [p] /\
       match pred p with
       | Score x =>
           is_antibiotic p = (0.5 <? x)%float /\
           herb_type p = (if (0.5 <? x)%float then Antibiotic else NonAntibiotic)
       | ERROR => is_antibiotic p = false
       end /\
       (pred p = Score 0.5%float -> is_antibiotic p = false)) /\
  (forall (smi : string) (x c : float) (fr : Frame),
     result_table (self (snd (display_single_result smi x c fr))) =
     [{| col_smiles := smi;
         col_pred := ValueCell x (if (0.5 <? x)%float then " 🌿" else " 🍃")
                       (if (0.5 <? x)%float then Green else Yellow);
         col_conf := c;
         col_nature := if (0.5 <? x)%float then Antibiotic else NonAntibiotic |}]) /\
  (forall (smi : string) (c : float) (fr : Frame),
     map col_nature
       (result_table (self (snd (display_single_result smi 0.5%float c fr)))) =
     [NonAntibiotic]).
Proof.
  split; [ | split].
  - intros total i smi fr.
    destruct (predict_item_ok total i smi fr) as (fr' & E & Hp & _).
    exists fr', (record_of smi (fst (score_item L smi fr))).
    split; [exact E | ]. split; [exact Hp | ].
    destruct (fst (score_item L smi fr)) as [x | e]; simpl.
    + split; [split; reflexivity | ].
      intro H. injection H as ->. reflexivity.
    + split; [reflexivity | discriminate].
  - intros smi x c fr. rewrite display_single_result_eq. reflexivity.
  - intros smi c fr. rewrite display_single_result_eq. reflexivity.
Qed.

(** C10: every scored record of a batch has confidence 0.95, and so has
    every history entry the batch appends; the single prediction records
    and displays its score with confidence 0.95.  The constant is the same
    for every molecule, model and model output. *)
Theorem confidence_is_constant :
  (forall (w : window Model) (df : list (string * list cell))
          (l : list string),
     str_empty (strip (test_edit w)) = false ->
     not_model L (model w) = false ->
     read_csv L (strip (test_edit w)) = Ok df ->
     column "smiles" df = Some (map Text l) ->
     let w' := snd (run_method (run_prediction L) w) in
     Forall (fun row => col_pred row <> FailedCell -> col_conf row = 0.95%float)
            (result_table w') /\
     exists added,
       prediction_history w' = prediction_history w ++ added /\
       Forall (fun e => h_confidence e = 0.95%float) added) /\
  (forall (w : window Model) (x : float),
     str_empty (strip (smiles_input w)) = false ->
     not_model L (model w) = false ->
     solo L (model w) (strip (smiles_input w)) = Ok x ->
     let w' := snd (run_method (predict_single_molecule L) w) in
     map col_conf (result_table w') = [0.95%float] /\
     exists e,
       prediction_history w' = prediction_history w ++ [e] /\
       h_prediction e = x /\ h_confidence e = 0.95%float).
Proof.
  split.
  - intros w df l Hf Hm Hc Hl w'.
    destruct (run_prediction_ok w Hf Hm Hc Hl (texts_are_text l))
      as (fr' & E & Ht & _ & Hh & _).
    assert (Hw' : w' = self fr').
    { unfold w'. erewrite run_method_eq by exact E. reflexivity. }
    rewrite Hw', Ht, Hh.
    pose proof (records_confidence
                  (batch_predictions_records w (strip (test_edit w))
                     (map Text l))) as HF.
    split.
    + apply Forall_map. revert HF. apply Forall_impl.
      intros p Hp Hcell. simpl. apply Hp. unfold is_error.
      simpl in Hcell. destruct (pred p); [reflexivity | contradiction].
    + eexists. split; [reflexivity | ].
      apply entries_confidence. exact HF.
  - intros w x Hs Hm Hx w'.
    destruct (predict_single_ok w Hs Hm) as (fr' & E & _ & H).
    assert (Hw' : w' = self fr').
    { unfold w'. erewrite run_method_eq by exact E. reflexivity. }
    rewrite Hw'. rewrite score_single_eq in H. simpl in H. rewrite Hx in H.
    destruct H as (Hh & Ht & _). rewrite Hh, Ht.
    split; [reflexivity | ].
    eexists. split; [reflexivity | ]. split; reflexivity.
Qed.

(** C6, as amended: after [unload_model], from any window, no model is
    held; and with no model held a single prediction raises nothing, calls
    no library (so neither featurization nor inference), leaves the history
    and the result table alone and only shows one warning: "please load the
    model first" when the input is not blank, "please enter a SMILES" when
    it is blank. *)
Theorem unloaded_prediction_only_warns (w : window Model) :
  model (snd (run_method (@unload_model Model Dataset Loader) w)) = None /\
  forall w1 : window Model,
    model w1 = None ->
    let r := run_method (predict_single_molecule L) w1 in
    fst r = Ok tt /\
    calls (snd r) = calls w1 /\
    prediction_history (snd r) = prediction_history w1 /\
    result_table (snd r) = result_table w1 /\
    dialogs (snd r) =
      dialogs w1 ++
      [Dialog Warning
         (if str_empty (strip (smiles_input w1))
          then PleaseEnterSmiles else PleaseLoadModel)].
Proof.
  split; [reflexivity | ].
  intros w1 Hm r. unfold r.
  erewrite run_method_eq by (apply predict_single_unloaded; exact Hm).
  repeat split; reflexivity.
Qed.

(** C7: [export_history] writes a file exactly when the history is not
    empty, a path was chosen and [to_csv] succeeds; the file then has the
    columns timestamp, smiles, prediction, confidence and one row for every
    history entry, in insertion order.  The history display shows the last
    20 entries at most: all of them when there are at most 20, the final 20
    otherwise. *)
Theorem export_is_complete_display_is_truncated :
  (forall (w : window Model) (path : string),
     files (snd (run_method (export_history L path) w)) =
     match prediction_history w, str_empty path, to_csv L path with
     | _ :: _, false, Ok _ =>
         files w ++
         [(path, {| columns := ["timestamp"; "smiles"; "prediction"; "confidence"];
                    rows := prediction_history w |})]
     | _, _, _ => files w
     end) /\
  (forall fr : Frame,
     let h := prediction_history (self fr) in
     history_display (self (snd (update_history_display fr))) =
     match h with
     | [] => NoHistory
     | _ :: _ =>
         HistoryTable (map render_record (skipn (List.length h - 20) h))
     end /\
     List.length (skipn (List.length h - 20) h) = Nat.min (List.length h) 20).
Proof.
  split.
  - intros w path. unfold run_method. rewrite export_history_eq.
    cbn [self enter].
    destruct (prediction_history w) as [| e0 h]; [reflexivity | ].
    destruct (str_empty path); [reflexivity | ].
    destruct (to_csv L path); reflexivity.
  - intros fr h. rewrite update_history_display_eq. cbn [snd]. split.
    + fold h. destruct h; reflexivity.
    + rewrite length_skipn. lia.
Qed.

(** C9: after [clear_history], from any window, the history is empty, every
    slice [prediction_history[-limit:]] of it is empty and the display
    shows the placeholder; in particular after any number of scored
    predictions were recorded. *)
Theorem clear_history_empties (w : window Model) (ps : list prediction) :
  let w1 := snd (run_method (record_predictions L ps) w) in
  let w2 := snd (run_method (@clear_history Model Dataset Loader) w1) in
  fst (run_method (@clear_history Model Dataset Loader) w1) = Ok tt /\
  prediction_history w2 = [] /\
  (forall limit, last_n limit (prediction_history w2) = []) /\
  history_display w2 = NoHistory.
Proof.
  intros w1 w2. unfold w2, run_method, clear_history, bind, modify, log.
  rewrite update_history_display_eq. simpl.
  repeat split. intro limit. unfold last_n. destruct (limit =? 0); reflexivity.
Qed.

(** C2, as amended: [_extract_prediction_value] never fails.  When the
    [try] block extracts a scalar, that scalar is returned and nothing else
    changes; when the block raises, the score returned is the default 0.5
    and the only trace is one warning line, naming the exception, appended
    to the log. *)
Theorem extract_returns_value_or_default (p : raw_output PyObj) (fr : Frame) :
  raised (fst (_extract_prediction_value L p fr)) = false /\
  _extract_prediction_value L p fr =
  match first_value L p with
  | Ok x => (Ok x, fr)
  | Raise e => (Ok 0.5%float, on_self (add_log (LogExtractFailedDefault e)) fr)
  end.
Proof.
  rewrite extract_eq. split; [ | reflexivity].
  destruct (first_value L p); reflexivity.
Qed.

(** ** Small checks of the helpers *)

Example strip_both_ends : strip "  CCO 	" = "CCO".
Proof. reflexivity. Qed.

Example strip_blank : strip "   " = "".
Proof. reflexivity. Qed.

Example strip_unicode_spaces :
  strip (Lab.nbsp ++ " CCO" ++ Lab.wide_space)%string = "CCO" /\
  strip Lab.wide_space = "" /\
  strip (" 1" ++ Lab.nbsp)%string = "1" /\
  strip (" 本草 C" ++ Lab.wide_space)%string = "本草 C" /\
  strip Lab.zero_width = Lab.zero_width.
Proof. repeat split. Qed.

Example take_chars_counts_characters :
  take_chars 2 "本草御菌" = "本草" /\ take_chars 3 "CCO" = "CCO" /\
  take_chars 2 "CCO" = "CC" /\ take_chars 0 "CCO" = "".
Proof. repeat split. Qed.

Example endswith_ckpt :
  endswith "model/best.ckpt" ".ckpt" = true /\ endswith "w.pt" ".ckpt" = false.
Proof. split; reflexivity. Qed.

Example last_n_slices :
  last_n 2 [1; 2; 3] = [2; 3] /\ last_n 5 [1; 2; 3] = [1; 2; 3] /\
  last_n 0 [1; 2; 3] = [1; 2; 3].
Proof. repeat split. Qed.

Example tensor_row_of_two :
  item (NdArr [1; 1] [0.25%float]) = Ok 0.25%float /\
  raised (item (NdArr [1; 2] [0.25%float; 0.75%float])) = true /\
  raised (index0 (NdArr [] [0.25%float])) = true.
Proof. repeat split. Qed.

End Facts.


(** * The properties on the example libraries *)


(** The rejected string and an empty cell: the construction raises what a
    datapoint without molecule raises, and the record is the error record. *)
Lemma unparsed_molecule_fails_featurization_witness :
  from_smi Lab.typed Lab.junk = Raise (Exn TypeError "SMILES is invalid") /\
  MolFromSmiles Lab.typed Lab.junk = Ok None /\
  MoleculeDatapoint_noargs Lab.typed = Raise Lab.needs_mol /\
  fst (build_item Lab.typed Lab.junk (enter Lab.start)) = Raise Lab.needs_mol /\
  predictions (snd (predict_item Lab.typed 2 0 Lab.junk (enter Lab.start))) =
    [error_record Lab.junk] /\
  from_smi Lab.plain NaN = Raise Lab.not_smiles /\
  predictions (snd (predict_item Lab.plain 2 0 NaN (enter Lab.start))) =
    [error_record NaN].
Proof.
  assert (H1 : from_smi Lab.typed Lab.junk =
               Raise (Exn TypeError "SMILES is invalid")) by reflexivity.
  assert (H2 : forall m, MolFromSmiles Lab.typed Lab.junk <> Ok (Some m))
    by (intros m Hm; vm_compute in Hm; discriminate Hm).
  assert (H3 : MoleculeDatapoint_noargs Lab.typed = Raise Lab.needs_mol)
    by reflexivity.
  assert (H4 : from_smi Lab.plain NaN = Raise Lab.not_smiles) by reflexivity.
  assert (H5 : forall m, MolFromSmiles Lab.plain NaN <> Ok (Some m))
    by (intros m Hm; vm_compute in Hm; discriminate Hm).
  destruct (unparsed_molecule_fails_featurization Lab.typed (Text Lab.junk)
              H1 H2 H3) as ((e1 & Hp & Hb) & Hitem & _).
  destruct (unparsed_molecule_fails_featurization Lab.plain NaN H4 H5 H3)
    as (_ & Hnan & _).
  destruct (Hb (enter Lab.start)) as (Hraise & _).
  assert (He1 : e1 = Exn TypeError "SMILES is invalid")
    by (vm_compute in Hp; injection Hp as <-; reflexivity).
  rewrite He1 in Hraise.
  split; [exact H1 | ]. split; [reflexivity | ]. split; [exact H3 | ].
  split; [exact Hraise | ].
  split; [exact (Hitem 2 0 (enter Lab.start)) | ].
  split; [exact H4 | exact (Hnan 2 0 (enter Lab.start))].
Defined.

(** The same batch from an empty history leaves the entry of aspirin alone;
    a failed single prediction leaves the history empty. *)
Lemma history_holds_successes_only_witness :
  str_empty (strip (test_edit Lab.start)) = false /\
  not_model Lab.plain (model Lab.start) = false /\
  read_csv Lab.plain (strip (test_edit Lab.start)) = Ok Lab.two_molecules /\
  column "smiles" Lab.two_molecules = Some (map Text [Lab.aspirin; Lab.junk]) /\
  (exists e,
     prediction_history (snd (run_method (run_prediction Lab.plain) Lab.start)) =
       [e] /\
     h_smiles e = Lab.aspirin) /\
  str_empty (strip (smiles_input (Lab.loaded Lab.junk ""))) = false /\
  prediction_history
    (snd (run_method (predict_single_molecule Lab.plain)
            (Lab.loaded Lab.junk ""))) = [].
Proof.
  assert (H1 : str_empty (strip (test_edit Lab.start)) = false) by reflexivity.
  assert (H2 : not_model Lab.plain (model Lab.start) = false) by reflexivity.
  assert (H3 : read_csv Lab.plain (strip (test_edit Lab.start)) =
               Ok Lab.two_molecules) by reflexivity.
  assert (H4 : column "smiles" Lab.two_molecules =
               Some (map Text [Lab.aspirin; Lab.junk])) by reflexivity.
  assert (H5 : str_empty (strip (smiles_input (Lab.loaded Lab.junk ""))) = false)
    by reflexivity.
  destruct (history_holds_successes_only Lab.plain) as [Hbatch Hsingle].
  destruct (Hbatch Lab.start Lab.two_molecules [Lab.aspirin; Lab.junk]
              H1 H2 H3 H4) as (_ & _ & _ & Hscenario).
  destruct (Hscenario (success_record Lab.aspirin 0.8%float)
                      (error_record Lab.junk)
                      eq_refl eq_refl eq_refl eq_refl)
    as (e & He & Hs & _).
  repeat (split; [assumption | ]).
  split; [exists e; split; [assumption | injection Hs as <-; reflexivity] | ].
  split; [assumption | ].
  exact (Hsingle (Lab.loaded Lab.junk "") H5 eq_refl).
Defined.

(** Ethanol scores exactly 0.5 and is labelled negative. *)
Lemma label_is_score_above_half_witness :
  exists p,
    predictions
      (snd (predict_item Lab.plain 1 0 Lab.ethanol (enter Lab.start))) = [p] /\
    pred p = Score 0.5%float /\
    is_antibiotic p = false.
Proof.
  destruct (label_is_score_above_half Lab.plain) as (Hbatch & _ & _).
  destruct (Hbatch 1 0 Lab.ethanol (enter Lab.start))
    as (fr' & p & E & Hp & _ & Hhalf).
  exists p. rewrite E. simpl snd.
  assert (Hpred : pred p = Score 0.5%float).
  { vm_compute in E. injection E as <-. vm_compute in Hp.
    injection Hp as <-. reflexivity. }
  split; [exact Hp | ]. split; [exact Hpred | exact (Hhalf Hpred)].
Defined.

(** Aspirin, in the batch and alone, is shown with confidence 0.95. *)
Lemma confidence_is_constant_witness :
  str_empty (strip (test_edit Lab.start)) = false /\
  not_model Lab.plain (model Lab.start) = false /\
  read_csv Lab.plain (strip (test_edit Lab.start)) = Ok Lab.two_molecules /\
  column "smiles" Lab.two_molecules = Some (map Text [Lab.aspirin; Lab.junk]) /\
  str_empty (strip (smiles_input Lab.start)) = false /\
  solo Lab.plain (model Lab.start) (strip (smiles_input Lab.start)) =
    Ok 0.8%float /\
  Forall (fun row => col_pred row <> FailedCell -> col_conf row = 0.95%float)
    (result_table (snd (run_method (run_prediction Lab.plain) Lab.start))) /\
  map col_conf
    (result_table (snd (run_method (predict_single_molecule Lab.plain)
                          Lab.start))) = [0.95%float].
Proof.
  assert (H1 : str_empty (strip (test_edit Lab.start)) = false) by reflexivity.
  assert (H2 : not_model Lab.plain (model Lab.start) = false) by reflexivity.
  assert (H3 : read_csv Lab.plain (strip (test_edit Lab.start)) =
               Ok Lab.two_molecules) by reflexivity.
  assert (H4 : column "smiles" Lab.two_molecules =
               Some (map Text [Lab.aspirin; Lab.junk])) by reflexivity.
  assert (H5 : str_empty (strip (smiles_input Lab.start)) = false)
    by reflexivity.
  assert (H6 : solo Lab.plain (model Lab.start)
                 (strip (smiles_input Lab.start)) = Ok 0.8%float)
    by reflexivity.
  destruct (confidence_is_constant Lab.plain) as [Hbatch Hsingle].
  destruct (Hbatch Lab.start Lab.two_molecules [Lab.aspirin; Lab.junk]
              H1 H2 H3 H4) as (Hrows & _).
  destruct (Hsingle Lab.start 0.8%float H5 H2 H6) as (Hconf & _).
  repeat (split; [assumption | ]). exact Hconf.
Defined.

(** With aspirin typed in and the model unloaded, the prediction asks for a
    model and calls no library. *)
Lemma unloaded_prediction_only_warns_witness :
  model Lab.unloaded = None /\
  calls (snd (run_method (predict_single_molecule Lab.plain) Lab.unloaded)) =
    calls Lab.unloaded /\
  dialogs (snd (run_method (predict_single_molecule Lab.plain) Lab.unloaded)) =
    [Dialog Warning PleaseLoadModel].
Proof.
  assert (H : model Lab.unloaded = None) by reflexivity.
  destruct (unloaded_prediction_only_warns Lab.plain Lab.start) as (_ & Hw).
  destruct (Hw Lab.unloaded H) as (_ & Hcalls & _ & _ & Hdialogs).
  split; [exact H | ]. split; [exact Hcalls | exact Hdialogs].
Defined.

(** C6 as stated fails: with white space only in the input field (here an
    ideographic space), the prediction after [unload_model] ends on the
    warning that asks for a SMILES, and the warning that asks for a model
    is not shown. *)
Lemma unloaded_empty_input_asks_for_smiles :
  model Lab.unloaded_blank = None /\
  dialogs (snd (run_method (predict_single_molecule Lab.plain)
                  Lab.unloaded_blank)) =
    [Dialog Warning PleaseEnterSmiles] /\
  ~ In (Dialog Warning PleaseLoadModel)
       (dialogs (snd (run_method (predict_single_molecule Lab.plain)
                       Lab.unloaded_blank))).
Proof.
  split; [reflexivity | ]. split; [reflexivity | ].
  intros [H | []]. discriminate H.
Qed.

(** C2 as stated fails: an output with no element cannot be resolved into
    one scalar, and yet no error reaches the caller: the value returned is
    0.5, the very value returned for a model output of 0.5. *)
Lemma extract_empty_output_returns_half :
  first_value Lab.plain (Array (NdArr [0; 1] [])) =
    Raise (Exn IndexError "index 0 is out of bounds for size 0") /\
  fst (_extract_prediction_value Lab.plain (Array (NdArr [0; 1] []))
         (enter Lab.start)) = Ok 0.5%float /\
  fst (_extract_prediction_value Lab.plain (Array (NdArr [1; 1] [0.5%float]))
         (enter Lab.start)) = Ok 0.5%float.
Proof. repeat split. Qed.

(** Why the constructor matters: with libraries whose
    [MoleculeDatapoint()] could be built without a molecule, the
    alternative constructions would force the rejected string into a
    datapoint and leave [test_loader] as the previous molecule left it; the
    string would then receive the score of that molecule. *)
Example permissive_constructor_would_force_string :
  primary Lab.permissive Lab.junk = Raise (Exn TypeError "SMILES is invalid") /\
  MolFromSmiles Lab.permissive Lab.junk = Ok None /\
  MoleculeDatapoint_noargs Lab.permissive = Ok "" /\
  fst (build_item Lab.permissive Lab.junk (enter Lab.start)) = Ok tt /\
  batch (snd (build_item Lab.permissive Lab.junk (enter Lab.start))) =
    Some [Lab.junk] /\
  map col_pred
    (result_table (snd (run_method (run_prediction Lab.permissive) Lab.start))) =
    [ValueCell 0.8%float "" Green; ValueCell 0.8%float "" Green].
Proof. repeat split. Qed.

(** C5 on the code: with one entry in the history and a path that cannot
    be written, the exception of [to_csv] leaves [export_history]
    unhandled. *)
Lemma export_history_lets_write_error_escape :
  List.length (prediction_history Lab.after_one) = 1 /\
  fst (run_method
         (export_history Lab.plain "/readonly/prediction_history.csv")
         Lab.after_one) =
    Raise (Exn OSError "Permission denied").
Proof. split; reflexivity. Qed.

(** * Properties kept by every method *)

Section Kept.

Variables Model Featurizer Datapoint Dataset Loader Mol Trainer Preds PyObj : Type.
Variable L : Libs Model Featurizer Datapoint Dataset Loader Mol Trainer Preds PyObj.

Local Notation "'Frame'" := (frame Model Dataset Loader).
Local Notation "'Comp'" := (Py Model Dataset Loader).

(** A property of frames closed under the updates that the prediction
    methods make. *)
Variable I : Frame -> Prop.

Hypothesis I_log : forall l fr, I fr -> I (on_self (add_log l) fr).
Hypothesis I_dialog : forall d fr, I fr -> I (on_self (add_dialog d) fr).
Hypothesis I_call : forall c fr, I fr -> I (on_self (add_call c) fr).
Hypothesis I_batch : forall b (fr : Frame), I fr -> I (set_batch b fr).
Hypothesis I_loader : forall l (fr : Frame), I fr -> I (set_test_loader l fr).
Hypothesis I_predictions : forall ps (fr : Frame), I fr -> I (set_predictions ps fr).
Hypothesis I_table : forall t e fr, I fr -> I (on_self (set_table t e) fr).
Hypothesis I_entry :
  forall smi x c fr, I fr -> I (on_self (with_entry L smi x c) fr).

Lemma pres_ret A (a : A) : pres I (ret a : Comp A).
Proof. intros fr H. exact H. Qed.

Lemma pres_raise A (e : exn) : pres I (raise e : Comp A).
Proof. intros fr H. exact H. Qed.

Lemma pres_lift A (o : outcome A) : pres I (lift o : Comp A).
Proof. intros fr H. exact H. Qed.

Lemma pres_bind A B (m : Comp A) (k : A -> Comp B) :
  pres I m -> (forall a, pres I (k a)) -> pres I (bind m k).
Proof.
  intros Hm Hk fr H. unfold bind. specialize (Hm fr H).
  destruct (m fr) as [[a | e] fr1]; simpl in *; [apply Hk | ]; exact Hm.
Qed.

Lemma pres_gets A (f : Frame -> A) : pres I (gets f).
Proof. intros fr H. exact H. Qed.

Lemma pres_try A (body : Comp A) (c : exn -> bool) (h : exn -> Comp A) :
  pres I body -> (forall e, pres I (h e)) -> pres I (try_except body c h).
Proof.
  intros Hb Hh fr H. unfold try_except. specialize (Hb fr H).
  destruct (body fr) as [[a | e] fr1]; simpl in *; [exact Hb | ].
  destruct (c e); simpl; [apply Hh | ]; exact Hb.
Qed.

Lemma pres_log (l : log_line) : pres I (log l : Comp unit).
Proof. intros fr H. apply I_log. exact H. Qed.

Lemma pres_show (b : box) (m : message) : pres I (show b m : Comp unit).
Proof. intros fr H. apply I_dialog. exact H. Qed.

Lemma pres_call A (c : ext_call) (o : outcome A) : pres I (call c o : Comp A).
Proof. intros fr H. apply I_call. exact H. Qed.

Lemma pres_add_to_history (smi : string) (x c : float) :
  pres I (add_to_history L smi x c).
Proof. intros fr H. rewrite add_to_history_eq. apply I_entry. exact H. Qed.

Lemma pres_extract (p : raw_output PyObj) :
  pres I (_extract_prediction_value L p).
Proof.
  intros fr H. rewrite extract_eq.
  destruct (first_value L p); [exact H | apply I_log; exact H].
Qed.

Ltac pres_step :=
  first
    [ apply pres_ret | apply pres_raise | apply pres_lift | apply pres_gets
    | apply pres_log | apply pres_show | apply pres_call
    | apply pres_add_to_history | apply pres_extract
    | apply pres_bind; [ | intro ]
    | apply pres_try; [ | intro ]
    | match goal with
      | |- pres _ (modify (set_batch _)) =>
          intros ? ?; apply I_batch; assumption
      | |- pres _ (modify (set_test_loader _)) =>
          intros ? ?; apply I_loader; assumption
      | |- pres _ (modify (set_predictions _)) =>
          intros ? ?; apply I_predictions; assumption
      | |- pres _ (match ?x with _ => _ end) => destruct x
      end ].

Lemma pres_build_item (smi : cell) : pres I (build_item L smi).
Proof. unfold build_item. repeat pres_step. Qed.

Lemma pres_score_item (smi : cell) : pres I (score_item L smi).
Proof.
  unfold score_item, read_test_loader.
  repeat first [ apply pres_build_item | pres_step ].
Qed.

Lemma pres_score_single (smi : string) : pres I (score_single L smi).
Proof. unfold score_single. repeat pres_step. Qed.

Lemma pres_predict_item (total i : nat) (smi : cell) :
  pres I (predict_item L total i smi).
Proof.
  unfold predict_item, append_prediction.
  repeat first
    [ apply pres_score_item
    | pres_step
    | intros ? ?; apply I_predictions; assumption ].
Qed.

Lemma pres_predict_items (total : nat) (l : list cell) :
  forall i, pres I (predict_items L total i l).
Proof.
  induction l as [| smi rest IH]; intro i; simpl.
  - apply pres_ret.
  - apply pres_bind; [apply pres_predict_item | intro; apply IH].
Qed.

Lemma pres_record_predictions (ps : list prediction) :
  pres I (record_predictions L ps).
Proof.
  induction ps as [| p rest IH]; simpl.
  - apply pres_ret.
  - apply pres_bind; [ | intro; exact IH].
    destruct (pred p); [ | apply pres_ret].
    destruct (smiles p); [apply pres_add_to_history | apply pres_raise].
Qed.

Lemma pres_set_row_count (n : nat) :
  pres I (modify (on_self (set_row_count n)) : Comp unit).
Proof. intros fr H. apply I_table. exact H. Qed.

Lemma pres_put_row (i : nat) (r : table_row) :
  pres I (modify (on_self (put_row i r)) : Comp unit).
Proof.
  intros fr H. unfold modify. cbn [snd].
  assert (E : forall f g : window Model -> window Model,
            f (self fr) = g (self fr) -> on_self f fr = on_self g fr).
  { intros f g Hfg. unfold on_self. rewrite Hfg. reflexivity. }
  unfold put_row at 1.
  destruct (i <? List.length (result_table (self fr))) eqn:E1.
  - erewrite E; [apply I_table; exact H | ].
    unfold put_row. rewrite E1. reflexivity.
  - destruct ((i =? List.length (result_table (self fr))) &&
              (0 <? empty_rows (self fr))) eqn:E2.
    + erewrite E; [apply I_table; exact H | ].
      unfold put_row. rewrite E1, E2. reflexivity.
    + erewrite (E _ (fun w => w)); [destruct fr; exact H | ].
      unfold put_row. rewrite E1, E2. reflexivity.
Qed.

Lemma pres_display_single (smi : string) (x c : float) :
  pres I (display_single_result smi x c : Comp unit).
Proof.
  unfold display_single_result.
  apply pres_bind; [apply pres_set_row_count | intro; apply pres_put_row].
Qed.

Lemma pres_display_batch (ps : list prediction) :
  pres I (display_batch_results ps : Comp unit).
Proof.
  unfold display_batch_results.
  apply pres_bind; [apply pres_set_row_count | intros _].
  generalize 0. induction ps as [| p rest IH]; intro i; simpl.
  - apply pres_ret.
  - apply pres_bind; [apply pres_lift | intro].
    apply pres_bind; [apply pres_put_row | intro; apply IH].
Qed.

Lemma pres_predict_single : pres I (predict_single_molecule L).
Proof.
  unfold predict_single_molecule.
  apply pres_bind; [apply pres_gets | intro txt].
  destruct (str_empty (strip txt)); [apply pres_show | ].
  apply pres_bind; [apply pres_gets | intro mdl].
  destruct (not_model L mdl); [apply pres_show | ].
  repeat first
    [ apply pres_score_single
    | apply pres_display_single
    | pres_step ].
Qed.

Lemma pres_run_prediction : pres I (run_prediction L).
Proof.
  unfold run_prediction.
  apply pres_bind; [apply pres_gets | intro txt].
  destruct (str_empty (strip txt)); [apply pres_show | ].
  apply pres_bind; [apply pres_gets | intro mdl].
  destruct (not_model L mdl); [apply pres_show | ].
  apply pres_try; [ | intro; repeat pres_step].
  apply pres_bind; [apply pres_log | intro].
  apply pres_bind; [apply pres_call | intro df].
  destruct (column "smiles" df) as [l | ]; [ | apply pres_show].
  repeat first
    [ apply pres_predict_items
    | apply pres_record_predictions
    | apply pres_display_batch
    | pres_step ].
Qed.

End Kept.

(** * The model life cycle *)

Section LifeCycle.

Variables Model Featurizer Datapoint Dataset Loader Mol Trainer Preds PyObj : Type.
Variable L : Libs Model Featurizer Datapoint Dataset Loader Mol Trainer Preds PyObj.

Local Notation "'Frame'" := (frame Model Dataset Loader).
Local Notation "'Comp'" := (Py Model Dataset Loader).

Lemma load_model_eq (fr : Frame) :
  load_model L fr =
  let path := strip (model_path_edit (self fr)) in
  if str_empty path
  then (Ok tt, on_self (add_dialog (Dialog Warning PleaseSelectModelFile)) fr)
  else
    let fr1 := on_self (add_call (loader_call path))
                 (on_self (add_log LogLoading) fr) in
    match loader_result L path with
    | Ok m =>
        (Ok tt,
         on_self (add_dialog (Dialog Information ModelActivated))
           (on_self (add_log LogLoaded)
              (on_self (set_buttons true)
                 (on_self (set_model (Some m) (Some path)) fr1))))
    | Raise e =>
        (Ok tt,
         on_self (add_dialog (Dialog Critical (ModelLoadFailed e)))
           (on_self (add_log (LogLoadFailed e)) fr1))
    end.
Proof.
  unfold load_model, loader_call, loader_result.
  unfold bind at 1. unfold gets at 1. cbv zeta.
  destruct (str_empty (strip (model_path_edit (self fr)))); [reflexivity | ].
  unfold try_except, bind, log, modify, call, show.
  destruct (endswith (strip (model_path_edit (self fr))) ".ckpt").
  - destruct (load_from_checkpoint L _); reflexivity.
  - destruct (torch_load L _); reflexivity.
Qed.

(** X1: when the path in the line edit is not blank and the loader returns
    a model, [load_model] holds that model and the stripped path, replacing
    whatever was held, enables both prediction buttons and reports success;
    its one library call is [load_from_checkpoint] when the path ends in
    [.ckpt] and [torch.load] otherwise; history, result table and files are
    untouched. *)
Theorem load_model_replaces_model (w : window Model) (m : Model) :
  let path := strip (model_path_edit w) in
  str_empty path = false ->
  loader_result L path = Ok m ->
  let w' := snd (run_method (load_model L) w) in
  model w' = Some m /\
  model_path w' = Some path /\
  predict_single_btn w' = true /\ batch_predict_btn w' = true /\
  calls w' =
    calls w ++ [if endswith path ".ckpt" then CallLoadCheckpoint path
                else CallTorchLoad path] /\
  dialogs w' = dialogs w ++ [Dialog Information ModelActivated] /\
  prediction_history w' = prediction_history w /\
  result_table w' = result_table w /\ files w' = files w.
Proof.
  intros path Hp Hm w'. unfold w', run_method. rewrite load_model_eq.
  cbn [self enter]. cbv zeta. fold path. rewrite Hp, Hm.
  unfold loader_call. destruct (endswith path ".ckpt"); repeat split.
Qed.

(** X2: when the loader raises, [load_model] raises nothing and keeps the
    model, the path and the buttons exactly as they were (a model loaded
    before stays active); the failure is shown in a critical message box.
    With a blank path nothing is called at all and only a warning is
    shown. *)
Theorem load_model_failure_keeps_model (w : window Model) :
  let path := strip (model_path_edit w) in
  let r := run_method (load_model L) w in
  (forall e, str_empty path = false -> loader_result L path = Raise e ->
     fst r = Ok tt /\
     model (snd r) = model w /\ model_path (snd r) = model_path w /\
     predict_single_btn (snd r) = predict_single_btn w /\
     batch_predict_btn (snd r) = batch_predict_btn w /\
     dialogs (snd r) = dialogs w ++ [Dialog Critical (ModelLoadFailed e)]) /\
  (str_empty path = true ->
     fst r = Ok tt /\
     model (snd r) = model w /\ model_path (snd r) = model_path w /\
     calls (snd r) = calls w /\ log_edit (snd r) = log_edit w /\
     dialogs (snd r) = dialogs w ++ [Dialog Warning PleaseSelectModelFile]).
Proof.
  intros path r. unfold r, run_method. rewrite load_model_eq.
  cbn [self enter]. cbv zeta. fold path. split.
  - intros e Hp He. rewrite Hp, He. repeat split.
  - intros Hp. rewrite Hp. repeat split.
Qed.

(** X3: [unload_model] always succeeds and leaves no model, no path and
    both prediction buttons disabled, with the history, the result table
    and the files as they were; a second [unload_model] changes nothing but
    the log. *)
Theorem unload_model_idempotent (w : window Model) :
  let u := fun w => snd (run_method (@unload_model Model Dataset Loader) w) in
  fst (run_method (@unload_model Model Dataset Loader) w) = Ok tt /\
  model (u w) = None /\ model_path (u w) = None /\
  predict_single_btn (u w) = false /\ batch_predict_btn (u w) = false /\
  prediction_history (u w) = prediction_history w /\
  result_table (u w) = result_table w /\ files (u w) = files w /\
  wcore (u (u w)) = wcore (u w) /\
  log_edit (u (u w)) = log_edit (u w) ++ [LogUnloaded].
Proof. repeat split. Qed.

End LifeCycle.

(** * The batch prediction: guards and summary *)

Section Batch.

Variables Model Featurizer Datapoint Dataset Loader Mol Trainer Preds PyObj : Type.
Variable L : Libs Model Featurizer Datapoint Dataset Loader Mol Trainer Preds PyObj.

Local Notation "'Frame'" := (frame Model Dataset Loader).
Local Notation "'Comp'" := (Py Model Dataset Loader).

(** X4: [run_prediction] tests the test file first and the model second:
    with a blank file name it only warns that a file must be chosen, and
    with a file name but no model it only warns that a model must be
    loaded; in both cases the file is not read, no library is called and
    nothing else in the window changes. *)
Theorem run_prediction_guards (w : window Model) :
  (str_empty (strip (test_edit w)) = true ->
   run_method (run_prediction L) w =
   (Ok tt, add_dialog (Dialog Warning PleaseSelectTestFile) w)) /\
  (str_empty (strip (test_edit w)) = false ->
   not_model L (model w) = true ->
   run_method (run_prediction L) w =
   (Ok tt, add_dialog (Dialog Warning PleaseLoadModel) w)).
Proof.
  split.
  - intro H. unfold run_method, run_prediction.
    unfold bind at 1. unfold gets at 1. cbn [self enter test_edit].
    rewrite H. reflexivity.
  - intros H Hm. unfold run_method, run_prediction.
    unfold bind at 1. unfold gets at 1. cbn [self enter test_edit].
    rewrite H. unfold bind at 1. unfold gets at 1.
    cbn [self enter model]. rewrite Hm. reflexivity.
Qed.

(** X5: when the test file cannot be read, or is read but has no column
    named [smiles], [run_prediction] raises nothing, makes no prediction and
    leaves the result table and the history alone: an unreadable file ends
    in the critical box "batch prediction failed", a missing column in the
    warning that the CSV needs a [smiles] column; the one library call is
    [read_csv]. *)
Theorem run_prediction_bad_file (w : window Model) :
  str_empty (strip (test_edit w)) = false ->
  not_model L (model w) = false ->
  let path := strip (test_edit w) in
  let started := add_call (CallReadCsv path) (add_log LogBatchStart w) in
  (forall e, read_csv L path = Raise e ->
     run_method (run_prediction L) w =
     (Ok tt,
      add_dialog (Dialog Critical (BatchFailed e))
        (add_log (LogBatchFailed e) started))) /\
  (forall df, read_csv L path = Ok df -> column "smiles" df = None ->
     run_method (run_prediction L) w =
     (Ok tt, add_dialog (Dialog Warning CsvNeedsSmilesColumn) started)).
Proof.
  intros Hf Hm path started.
  assert (Hrun : run_prediction L (enter w) =
            try_except
              (log LogBatchStart ;;
               test_df <- call (CallReadCsv path) (read_csv L path) ;;
               match column "smiles" test_df with
               | None => show Warning CsvNeedsSmilesColumn
               | Some smiles_list =>
                   log (LogDetected (List.length smiles_list)) ;;
                   modify (set_predictions []) ;;
                   predict_items L (List.length smiles_list) 0 smiles_list ;;
                   ps <- gets (@predictions Model Dataset Loader) ;;
                   display_batch_results ps ;;
                   record_predictions L ps ;;
                   log LogBatchComplete ;;
                   log (LogTotal (List.length ps)) ;;
                   (if List.length ps =? 0
                    then raise (Exn ZeroDivisionError "division by zero")
                    else log (LogAntibiotics
                                (List.length (filter is_antibiotic ps))
                                (List.length ps))) ;;
                   log (LogErrors (List.length (filter is_error ps))) ;;
                   show Information
                     (BatchDone (List.length ps)
                        (List.length (filter is_antibiotic ps)))
               end)
              is_Exception
              (fun e => log (LogBatchFailed e) ;; show Critical (BatchFailed e))
              (enter w)).
  { unfold run_prediction. unfold bind at 1. unfold gets at 1.
    cbn [self enter test_edit]. rewrite Hf.
    unfold bind at 1. unfold gets at 1. cbn [self enter model]. rewrite Hm.
    reflexivity. }
  unfold run_method. rewrite Hrun. clear Hrun.
  split.
  - intros e He. unfold try_except, bind, log, modify, call, show.
    rewrite He. reflexivity.
  - intros df Hd Hc. unfold try_except, bind, log, modify, call, show.
    rewrite Hd, Hc. reflexivity.
Qed.

Lemma run_prediction_end (w : window Model) (df : list (string * list cell))
    (l : list cell) :
  str_empty (strip (test_edit w)) = false ->
  not_model L (model w) = false ->
  read_csv L (strip (test_edit w)) = Ok df ->
  column "smiles" df = Some l ->
  Forall (fun c => is_text c = true) l ->
  let ps := batch_predictions L w (strip (test_edit w)) l in
  exists fr' pre,
    run_prediction L (enter w) = (Ok tt, fr') /\
    dialogs (self fr') =
      dialogs w ++
      [match l with
       | [] => Dialog Critical
                 (BatchFailed (Exn ZeroDivisionError "division by zero"))
       | _ :: _ =>
           Dialog Information (BatchDone (List.length l) (count_antibiotic ps))
       end] /\
    log_edit (self fr') =
      pre ++
      match l with
      | [] => [LogBatchComplete; LogTotal 0;
               LogBatchFailed (Exn ZeroDivisionError "division by zero")]
      | _ :: _ =>
          [LogBatchComplete; LogTotal (List.length l);
           LogAntibiotics (count_antibiotic ps) (List.length l);
           LogErrors (count_errors ps)]
      end.
Proof.
  intros Hf Hm Hc Hl Htext ps.
  pose proof (batch_predictions_records L w (strip (test_edit w)) l) as HF.
  apply Forall2_length in HF. fold ps in HF.
  assert (Hps : ps = predictions (snd (predict_items L (List.length l) 0 l
             (loop_start Dataset Loader w (strip (test_edit w)) (List.length l))))).
  { unfold ps, batch_predictions, frame_at. rewrite firstn_all. reflexivity. }
  clearbody ps.
  unfold run_prediction.
  unfold bind at 1. unfold gets at 1. cbn [self enter test_edit].
  rewrite Hf.
  unfold bind at 1. unfold gets at 1. cbn [self enter model]. rewrite Hm.
  unfold try_except.
  unfold bind at 1. unfold log at 1, modify at 1.
  unfold bind at 1. unfold call at 1. rewrite Hc.
  rewrite Hl.
  unfold bind at 1. unfold log at 1, modify at 1.
  unfold bind at 1. unfold modify at 1.
  unfold bind at 1.
  fold (loop_start Dataset Loader w (strip (test_edit w)) (List.length l)).
  destruct (predict_items_ok L (List.length l) l 0
              (loop_start Dataset Loader w (strip (test_edit w)) (List.length l)))
    as (fr1 & E & Hw & qs & Hp & Hs).
  rewrite E in Hps |- *. simpl in Hp. cbn [snd] in Hps |- *.
  rewrite Hp in Hps. subst qs.
  unfold bind at 1. unfold gets at 1. rewrite Hp.
  assert (Htps : Forall (fun p => is_text (smiles p) = true) ps).
  { rewrite <- Hs in Htext. apply Forall_map in Htext. exact Htext. }
  unfold bind at 1. rewrite (display_batch_results_text _ Htps).
  unfold bind at 1.
  destruct (record_predictions_ok L Htps
              (on_self (set_table (map row_of ps) 0) fr1))
    as (fr2 & E2 & Hh & Ht & Her & Hd & Hfi & Hmo & Hpr).
  rewrite E2.
  injection Hw as Hw1 Hw2 Hw3 Hw4 Hw5 Hw6 Hw7 Hw8 Hw9 Hw10 Hw11 Hw12 Hw13 Hw14.
  simpl in Hd.
  unfold count_antibiotic, count_errors.
  destruct l as [| s0 l0]; destruct ps as [| q0 qs0]; try discriminate HF.
  - eexists. exists (log_edit (self fr2)). split; [reflexivity | ].
    simpl. rewrite Hd. split; [congruence | ].
    rewrite <- !app_assoc. reflexivity.
  - eexists. exists (log_edit (self fr2)). split; [reflexivity | ].
    simpl. rewrite Hd. simpl in HF. rewrite HF.
    split; [congruence | ].
    rewrite <- !app_assoc. reflexivity.
Qed.





(** X6: a test file whose [smiles] column is empty makes the summary divide
    by zero; the exception is caught by the handler of the method:
    [run_prediction] raises nothing, the result table is emptied, the
    history is kept, and the box shown is "batch prediction failed:
    division by zero", not the box of a completed batch. *)
Theorem run_prediction_empty_column (w : window Model)
    (df : list (string * list cell)) :
  str_empty (strip (test_edit w)) = false ->
  not_model L (model w) = false ->
  read_csv L (strip (test_edit w)) = Ok df ->
  column "smiles" df = Some [] ->
  let r := run_method (run_prediction L) w in
  fst r = Ok tt /\
  result_table (snd r) = [] /\
  prediction_history (snd r) = prediction_history w /\
  dialogs (snd r) =
    dialogs w ++
    [Dialog Critical (BatchFailed (Exn ZeroDivisionError "division by zero"))].
Proof.
  intros Hf Hm Hc Hl r.
  destruct (run_prediction_ok L w Hf Hm Hc Hl (Forall_nil _))
    as (fr' & E & Ht & _ & Hh & _).
  destruct (run_prediction_end w Hf Hm Hc Hl (Forall_nil _))
    as (fr2 & pre & E' & Hd & _).
  assert (fr2 = fr') by congruence. subst fr2.
  unfold r. erewrite run_method_eq by exact E. cbn [fst snd].
  rewrite Ht, Hh, Hd. simpl. rewrite app_nil_r. repeat split.
Qed.


End Batch.

(** * The fallback, the two prediction paths and the library calls *)

Section Paths.

Variables Model Featurizer Datapoint Dataset Loader Mol Trainer Preds PyObj : Type.
Variable L : Libs Model Featurizer Datapoint Dataset Loader Mol Trainer Preds PyObj.

Local Notation "'Frame'" := (frame Model Dataset Loader).
Local Notation "'Comp'" := (Py Model Dataset Loader).

(** Case analysis on an innermost scrutinee of the goal. *)
Ltac break_match :=
  match goal with
  | |- context [match ?x with _ => _ end] =>
      lazymatch x with
      | context [match _ with _ => _ end] => fail
      | _ => destruct x
      end
  end.

Lemma build_item_fallback (smi : cell) (fr : Frame) (e : exn) :
  primary L smi = Raise e ->
  is_TypeError e = true ->
  fst (build_item L smi fr) =
    match fallback L smi with Ok _ => Ok tt | Raise e' => Raise e' end /\
  test_loader (snd (build_item L smi fr)) = test_loader fr /\
  model (self (snd (build_item L smi fr))) = model (self fr).
Proof.
  intros Hp He.
  unfold build_item, primary, fallback, third_construction in *.
  unfold bind, call, modify, raise, try_except.
  destruct (SimpleMoleculeMolGraphFeaturizer L) as [f | e1];
    [destruct (from_smi L smi) as [d | e1];
       [destruct (MoleculeDataset L [d] (Some f)) as [b | e1];
          [destruct (build_dataloader L b) as [ld | e1];
             [discriminate Hp | ] | ] | ] | ];
    injection Hp as ->; simpl; rewrite He;
    repeat (break_match; simpl); repeat split.
Qed.

(** X8: when the first construction of a molecule raises a [TypeError]
    (as it does for the [nan] of an empty cell, which RDKit rejects), the
    loop body never scores the molecule itself.  If the fallback
    constructions fail too, their exception is the outcome; if they
    complete, the model is run on the loader the earlier molecules left,
    and when no earlier molecule left one the outcome is an
    [UnboundLocalError].  In particular such a molecule at the head of a
    file always gets the error record. *)
Theorem fallback_runs_previous_loader (smi : cell) (fr : Frame) (e : exn) :
  primary L smi = Raise e ->
  is_TypeError e = true ->
  fst (score_item L smi fr) =
    match fallback L smi with
    | Raise e' => Raise e'
    | Ok _ =>
        match test_loader fr with
        | Some loader => infer L (model (self fr)) loader
        | None =>
            match pl_Trainer L with
            | Ok _ =>
                Raise (Exn UnboundLocalError
                  "local variable 'test_loader' referenced before assignment")
            | Raise e' => Raise e'
            end
        end
    end /\
  (test_loader fr = None ->
   forall total i,
     predictions (snd (predict_item L total i smi fr)) =
     predictions fr ++ [error_record smi]).
Proof.
  intros Hp He.
  destruct (build_item_fallback smi fr Hp He) as (Hb & Hl & Hm).
  assert (Hs : fst (score_item L smi fr) =
    match fallback L smi with
    | Raise e' => Raise e'
    | Ok _ =>
        match test_loader fr with
        | Some loader => infer L (model (self fr)) loader
        | None =>
            match pl_Trainer L with
            | Ok _ =>
                Raise (Exn UnboundLocalError
                  "local variable 'test_loader' referenced before assignment")
            | Raise e' => Raise e'
            end
        end
    end).
  { unfold score_item, read_test_loader, infer. unfold bind at 1.
    destruct (build_item L smi fr) as [[[] | e1] fr1]; cbn [fst snd] in *;
      destruct (fallback L smi) as [b | e2]; try discriminate Hb;
      [ | injection Hb as ->; reflexivity].
    unfold bind, call, gets, raise, ret. rewrite <- Hl, <- Hm.
    destruct (pl_Trainer L) as [t | e3]; simpl.
    - destruct (test_loader fr1) as [ld | ]; simpl; [ | reflexivity].
      destruct (trainer_predict L t (model (self fr1)) ld) as [p | e4];
        [ | reflexivity].
      destruct (np_concatenate L p) as [a | e5]; [ | reflexivity].
      rewrite extract_eq. simpl. destruct (flat0 a); reflexivity.
    - destruct (test_loader fr1); reflexivity. }
  split; [exact Hs | ].
  intros Hnone total i.
  destruct (predict_item_ok L total i smi fr) as (fr' & E & Hpr & _).
  rewrite E. cbn [snd]. rewrite Hpr, Hs, Hnone.
  destruct (fallback L smi); [destruct (pl_Trainer L) | ]; reflexivity.
Qed.

(** X9: a test file with the one molecule that is typed in the SMILES
    field, compared with the single prediction of that molecule, provided
    the first construction does not raise a [TypeError].  Both append the
    same entry to the history, or none.  When the molecule is scored both
    show one row with the same SMILES, confidence, nature and background,
    but not the same text in the prediction cell: the single prediction
    writes the score followed by a leaf mark, the batch the score alone.
    When the molecule fails the batch shows the error row and the single
    prediction keeps the table as it was. *)
Theorem batch_of_one_and_single_prediction (w : window Model)
    (df : list (string * list cell)) :
  let smi := strip (smiles_input w) in
  str_empty smi = false ->
  str_empty (strip (test_edit w)) = false ->
  not_model L (model w) = false ->
  read_csv L (strip (test_edit w)) = Ok df ->
  column "smiles" df = Some [Text smi] ->
  (forall e, primary L smi = Raise e -> is_TypeError e = false) ->
  let wb := snd (run_method (run_prediction L) w) in
  let ws := snd (run_method (predict_single_molecule L) w) in
  prediction_history wb = prediction_history ws /\
  match solo L (model w) smi with
  | Ok x =>
      let positive := (0.5 <? x)%float in
      let nature := if positive then Antibiotic else NonAntibiotic in
      let background := if positive then Green else Yellow in
      result_table wb =
        [{| col_smiles := smi; col_pred := ValueCell x "" background;
            col_conf := 0.95%float; col_nature := nature |}] /\
      result_table ws =
        [{| col_smiles := smi;
            col_pred := ValueCell x (if positive then " 🌿" else " 🍃")
                          background;
            col_conf := 0.95%float; col_nature := nature |}] /\
      result_table wb <> result_table ws
  | Raise _ =>
      result_table wb = [row_of (error_record smi)] /\
      result_table ws = result_table w /\
      prediction_history wb = prediction_history w
  end.
Proof.
  intros smi Hs Hf Hm Hc Hl Hno wb ws.
  assert (Htext : Forall (fun c => is_text c = true) [Text smi])
    by (repeat constructor).
  destruct (run_prediction_ok L w Hf Hm Hc Hl Htext)
    as (fb & Eb & Htb & _ & Hhb & _).
  destruct (predict_single_ok L w Hs Hm) as (fs & Es & _ & H).
  assert (Hwb : wb = self fb).
  { unfold wb. erewrite run_method_eq by exact Eb. reflexivity. }
  assert (Hws : ws = self fs).
  { unfold ws. erewrite run_method_eq by exact Es. reflexivity. }
  rewrite Hwb, Hws, Htb, Hhb. clear Hwb Hws Htb Hhb.
  rewrite score_single_eq in H. cbn [self on_self enter model add_log] in H.
  fold smi in H.
  assert (Hps : batch_predictions L w (strip (test_edit w)) [Text smi] =
                [record_of smi (solo L (model w) smi)]).
  { pose proof (batch_predictions_records L w (strip (test_edit w)) [Text smi])
      as HF.
    pose proof (@batch_predictions_nth _ _ _ _ _ _ _ _ _ L w
                  (strip (test_edit w)) [Text smi] 0 (Text smi) eq_refl) as H0.
    rewrite score_item_no_fallback, frame_at_model in H0 by exact Hno.
    inversion HF as [| ? p ? ps' _ HF' ]; subst.
    inversion HF'; subst. simpl in H0. injection H0 as ->. reflexivity. }
  rewrite Hps.
  destruct (solo L (model w) smi) as [x | e]; simpl.
  - destruct H as (Hh & Ht & _). rewrite Hh, Ht.
    split; [reflexivity | ]. split; [reflexivity | ].
    split; [reflexivity | ].
    unfold row_of, row_with, single_row. simpl.
    destruct (0.5 <? x)%float; intro Heq; discriminate Heq.
  - destruct H as (Hh & Ht & _). rewrite Hh, Ht, app_nil_r. repeat split.
Qed.

Lemma score_single_calls (smi : string) (fr : Frame) :
  calls (self (snd (score_single L smi fr))) =
  calls (self fr) ++
  firstn (calls_made L (model (self fr)) smi) (single_calls smi).
Proof.
  unfold score_single, single_calls, calls_made, bind, call, gets.
  destruct (SimpleMoleculeMolGraphFeaturizer L) as [f | e]; [ | reflexivity].
  destruct (from_smi L smi) as [d | e];
    [ | simpl; rewrite <- app_assoc; reflexivity].
  destruct (MoleculeDataset L [d] (Some f)) as [b | e];
    [ | simpl; rewrite <- !app_assoc; reflexivity].
  destruct (build_dataloader L b) as [ld | e];
    [ | simpl; rewrite <- !app_assoc; reflexivity].
  destruct (pl_Trainer L) as [t | e];
    [ | simpl; rewrite <- !app_assoc; reflexivity].
  simpl.
  destruct (trainer_predict L t _ ld) as [p | e];
    [ | simpl; rewrite <- !app_assoc; reflexivity].
  destruct (np_concatenate L p) as [a | e];
    [ | simpl; rewrite <- !app_assoc; reflexivity].
  rewrite extract_eq.
  destruct (first_value L (Array a)); simpl; rewrite <- !app_assoc;
    reflexivity.
Qed.

(** The calls are all made exactly when the molecule is scored, but for the
    last of them, whose failure is still a failure. *)
Lemma calls_made_bounds (mdl : option Model) (smi : string) :
  1 <= calls_made L mdl smi <= 7 /\
  (raised (solo L mdl smi) = false -> calls_made L mdl smi = 7).
Proof.
  unfold calls_made, solo, primary, infer.
  destruct (SimpleMoleculeMolGraphFeaturizer L) as [f | e];
    [ | split; [lia | discriminate]].
  destruct (from_smi L smi) as [d | e]; [ | split; [lia | discriminate]].
  destruct (MoleculeDataset L [d] (Some f)) as [b | e];
    [ | split; [lia | discriminate]].
  destruct (build_dataloader L b) as [ld | e];
    [ | split; [lia | discriminate]].
  destruct (pl_Trainer L) as [t | e]; [ | split; [lia | discriminate]].
  destruct (trainer_predict L t mdl ld) as [p | e];
    [ | split; [lia | discriminate]].
  split; [lia | reflexivity].
Qed.

Lemma predict_single_calls (w : window Model) :
  str_empty (strip (smiles_input w)) = false ->
  not_model L (model w) = false ->
  exists fr',
    predict_single_molecule L (enter w) = (Ok tt, fr') /\
    calls (self fr') =
      calls w ++
      firstn (calls_made L (model w) (strip (smiles_input w)))
        (single_calls (strip (smiles_input w))) /\
    files (self fr') = files w.
Proof.
  intros Hs Hm.
  unfold predict_single_molecule.
  unfold bind at 1. unfold gets at 1. cbn [self enter smiles_input].
  rewrite Hs.
  unfold bind at 1. unfold gets at 1. cbn [self enter model].
  rewrite Hm.
  unfold try_except. unfold bind at 1. unfold log at 1, modify at 1.
  unfold bind at 1.
  set (fr0 := on_self (add_log (LogAnalysing
                (take_chars 50 (strip (smiles_input w))))) (enter w)).
  pose proof (score_single_calls (strip (smiles_input w)) fr0) as Hk.
  destruct (keeps_score_single L (strip (smiles_input w)) fr0) as [Hw _].
  destruct (score_single L (strip (smiles_input w)) fr0) as [[x | e] fr1];
    cbn [fst snd] in *.
  - eexists. unfold bind at 1. rewrite add_to_history_eq.
    unfold bind at 1. rewrite display_single_result_eq.
    split; [reflexivity | ]. simpl.
    split; [exact Hk | ].
    injection Hw as Hw1 Hw2 Hw3 Hw4 Hw5 Hw6 Hw7 Hw8 Hw9 Hw10 Hw11 Hw12 Hw13 Hw14.
    simpl in *. congruence.
  - eexists. split; [reflexivity | ]. simpl.
    split; [exact Hk | ].
    injection Hw as Hw1 Hw2 Hw3 Hw4 Hw5 Hw6 Hw7 Hw8 Hw9 Hw10 Hw11 Hw12 Hw13 Hw14.
    simpl in *. congruence.
Qed.

(** X10: the calls a single prediction makes into chemprop, lightning and
    numpy, whatever these libraries do.  When one of the two guards stops
    the method it makes none.  Otherwise it makes the calls of the fixed
    sequence featurizer, [from_smi], dataset, data loader, trainer,
    [predict], [concatenate] up to the first that raises, that one
    included: at least the first, and all seven when the molecule is
    scored.  It never calls RDKit or the bare datapoint constructor, and
    it writes no file. *)
Theorem single_prediction_calls (w : window Model) :
  let smi := strip (smiles_input w) in
  let w' := snd (run_method (predict_single_molecule L) w) in
  (str_empty smi || not_model L (model w) = true -> calls w' = calls w) /\
  (str_empty smi = false -> not_model L (model w) = false ->
   calls w' =
     calls w ++ firstn (calls_made L (model w) smi) (single_calls smi) /\
   1 <= calls_made L (model w) smi <= 7 /\
   (raised (solo L (model w) smi) = false -> calls_made L (model w) smi = 7)) /\
  files w' = files w.
Proof.
  intros smi w'. split; [ | split].
  - intro Hg. unfold w', run_method, predict_single_molecule.
    unfold bind at 1. unfold gets at 1. cbn [self enter smiles_input].
    fold smi. destruct (str_empty smi); [reflexivity | ].
    unfold bind at 1. unfold gets at 1. cbn [self enter model].
    simpl in Hg. rewrite Hg. reflexivity.
  - intros Hs Hm.
    destruct (predict_single_calls w Hs Hm) as (fr' & E & Hc & _).
    assert (Hw' : w' = self fr').
    { unfold w'. erewrite run_method_eq by exact E. reflexivity. }
    rewrite Hw'. split; [exact Hc | apply calls_made_bounds].
  - unfold w', run_method, predict_single_molecule.
    unfold bind at 1. unfold gets at 1. cbn [self enter smiles_input].
    fold smi. destruct (str_empty smi) eqn:Hs; [reflexivity | ].
    unfold bind at 1. unfold gets at 1. cbn [self enter model].
    destruct (not_model L (model w)) eqn:Hm; [reflexivity | ].
    destruct (predict_single_calls w Hs Hm) as (fr' & E & _ & Hfi).
    unfold predict_single_molecule in E.
    unfold bind at 1 in E. unfold gets at 1 in E.
    cbn [self enter smiles_input] in E. fold smi in E. rewrite Hs in E.
    unfold bind at 1 in E. unfold gets at 1 in E.
    cbn [self enter model] in E. rewrite Hm in E.
    rewrite E. exact Hfi.
Qed.

(** X11: on a numpy array [_extract_prediction_value] returns the first
    element in flat order whenever there is one, whatever the shape, so
    for an array with several rows everything after the first element is
    dropped; on a tensor with one row of several values [pred[0].item()]
    raises and the value returned is the default 0.5, with the warning in
    the log, while a tensor with one column returns its first value. *)
Theorem extract_by_shape (fr : Frame) :
  (forall sh x rest,
     _extract_prediction_value L (Array (NdArr sh (x :: rest))) fr =
     (Ok x, fr)) /\
  (forall n x rest,
     _extract_prediction_value L (Tensor (NdArr [S n; 1] (x :: rest))) fr =
     (Ok x, fr)) /\
  (forall k d,
     exists e,
       _extract_prediction_value L (Tensor (NdArr [1; S (S k)] d)) fr =
       (Ok 0.5%float, on_self (add_log (LogExtractFailedDefault e)) fr)).
Proof.
  split; [ | split].
  - intros sh x rest. rewrite extract_eq. reflexivity.
  - intros n x rest. rewrite extract_eq. unfold first_value, numel. simpl.
    rewrite Nat.mul_1_r. destruct n; reflexivity.
  - intros k d. rewrite extract_eq. unfold first_value, numel.
    cbn [shape fold_right]. rewrite Nat.mul_1_l, Nat.mul_1_r.
    eexists. cbn [Nat.ltb Nat.leb]. cbn [index0 shape].
    unfold item, numel. cbn [shape fold_right]. rewrite Nat.mul_1_r.
    reflexivity.
Qed.

(** X12: [export_history] never changes the history; with an empty history
    it only warns that there is nothing to export, without asking for a
    path or calling a library, and when the file dialog is cancelled
    (empty path) the window is exactly as before. *)
Theorem export_history_guards (w : window Model) (path : string) :
  let r := run_method (export_history L path) w in
  prediction_history (snd r) = prediction_history w /\
  (prediction_history w = [] ->
   r = (Ok tt, add_dialog (Dialog Warning NoHistoryToExport) w)) /\
  (prediction_history w <> [] -> str_empty path = true -> r = (Ok tt, w)).
Proof.
  intro r. unfold r, run_method. rewrite export_history_eq.
  cbn [self enter]. split; [ | split].
  - destruct (prediction_history w) as [| e0 h] eqn:Hh; simpl.
    + exact Hh.
    + destruct (str_empty path); [exact Hh | ].
      destruct (to_csv L path); exact Hh.
  - intro Hh. rewrite Hh. reflexivity.
  - intros Hh Hp. destruct (prediction_history w); [contradiction | ].
    rewrite Hp. destruct w; reflexivity.
Qed.

End Paths.

(** * Sequences of user actions *)

Section Sessions.

Variables Model Featurizer Datapoint Dataset Loader Mol Trainer Preds PyObj : Type.
Variable L : Libs Model Featurizer Datapoint Dataset Loader Mol Trainer Preds PyObj.

Local Notation "'Frame'" := (frame Model Dataset Loader).
Local Notation "'Comp'" := (Py Model Dataset Loader).

Lemma perform_load (w : window Model) :
  perform L LoadModel w =
  let path := strip (model_path_edit w) in
  if str_empty path
  then add_dialog (Dialog Warning PleaseSelectModelFile) w
  else
    let w1 := add_call (loader_call path) (add_log LogLoading w) in
    match loader_result L path with
    | Ok m =>
        add_dialog (Dialog Information ModelActivated)
          (add_log LogLoaded
             (set_buttons true (set_model (Some m) (Some path) w1)))
    | Raise e =>
        add_dialog (Dialog Critical (ModelLoadFailed e))
          (add_log (LogLoadFailed e) w1)
    end.
Proof.
  unfold perform, run_method. rewrite load_model_eq. cbn [self enter]. cbv zeta.
  destruct (str_empty (strip (model_path_edit w))); [reflexivity | ].
  destruct (loader_result L (strip (model_path_edit w))); reflexivity.
Qed.

Lemma perform_export (path : string) (w : window Model) :
  perform L (ExportHistory path) w =
  match prediction_history w with
  | [] => add_dialog (Dialog Warning NoHistoryToExport) w
  | _ :: _ =>
      if str_empty path then w
      else
        match to_csv L path with
        | Ok _ =>
            add_dialog (Dialog Information HistoryExported)
              (add_log (LogExported path)
                 (add_file path (DataFrame (prediction_history w))
                    (add_call (CallToCsv path) w)))
        | Raise _ => add_call (CallToCsv path) w
        end
  end.
Proof.
  unfold perform, run_method. rewrite export_history_eq. cbn [self enter].
  destruct (prediction_history w); [reflexivity | ].
  destruct (str_empty path); [destruct w; reflexivity | ].
  destruct (to_csv L path); reflexivity.
Qed.

(** A property of the window kept by the updates a prediction makes is
    kept by both predictions. *)
Lemma perform_predictions_keep (P : window Model -> Prop) :
  (forall l w, P w -> P (add_log l w)) ->
  (forall d w, P w -> P (add_dialog d w)) ->
  (forall c w, P w -> P (add_call c w)) ->
  (forall t e w, P w -> P (set_table t e w)) ->
  (forall smi x c w, P w -> P (with_entry L smi x c w)) ->
  forall w, P w ->
    P (perform L PredictSingle w) /\ P (perform L RunPrediction w).
Proof.
  intros Hlog Hdlg Hcall Htab Hent w Hw.
  assert (Hp : forall m : Comp unit,
            pres (fun fr : Frame => P (self fr)) m ->
            P (snd (run_method m w))).
  { intros m Hm. unfold run_method. specialize (Hm (enter w) Hw).
    destruct (m (enter w)). exact Hm. }
  split; apply Hp.
  - apply pres_predict_single; intros; cbn [self on_self];
      first [apply Hlog | apply Hdlg | apply Hcall | apply Htab | apply Hent
            | idtac]; assumption.
  - apply pres_run_prediction; intros; cbn [self on_self];
      first [apply Hlog | apply Hdlg | apply Hcall | apply Htab | apply Hent
            | idtac]; assumption.
Qed.

Lemma perform_all_keeps (P : window Model -> Prop) (ok : action -> bool) :
  (forall a w, ok a = true -> P w -> P (perform L a w)) ->
  forall acts w, forallb ok acts = true -> P w -> P (perform_all L acts w).
Proof.
  intros Hstep acts. unfold perform_all.
  induction acts as [| a rest IH]; intros w Hok Hw; simpl in *.
  - exact Hw.
  - apply andb_prop in Hok. destruct Hok as [Ha Hrest].
    apply IH; [exact Hrest | apply Hstep; assumption].
Qed.

Ltac keep_window :=
  intros;
  match goal with
  | H : _ |- _ => exact H
  end.

Lemma perform_grows (a : action) (w : window Model) :
  is_clear a = false ->
  exists added, prediction_history (perform L a w) = prediction_history w ++ added.
Proof.
  intro Ha.
  assert (Hnil : exists added : list history_entry,
            prediction_history w = prediction_history w ++ added).
  { exists []. rewrite app_nil_r. reflexivity. }
  pose proof (@perform_predictions_keep
                (fun w' => exists added,
                   prediction_history w' = prediction_history w ++ added))
    as Hpred.
  destruct a; try discriminate Ha; try exact Hnil.
  - rewrite perform_load. cbv zeta.
    destruct (str_empty _); [exact Hnil | ].
    destruct (loader_result L _); exact Hnil.
  - apply Hpred; try keep_window.
    intros smi x c w0 [added H]. eexists. simpl. rewrite H, <- app_assoc.
    reflexivity.
  - apply Hpred; try keep_window.
    intros smi x c w0 [added H]. eexists. simpl. rewrite H, <- app_assoc.
    reflexivity.
  - rewrite perform_export. clear Hpred Hnil.
    exists []. rewrite app_nil_r.
    destruct (prediction_history w) eqn:Hh; [exact Hh | ].
    destruct (str_empty file_path); [exact Hh | ].
    destruct (to_csv L file_path); exact Hh.
Qed.

(** X13: the history is append-only: any sequence of user actions without
    [clear_history] (edits, loading and unloading, single and batch
    predictions, exports, in any order and whatever the libraries do)
    leaves every earlier entry in place, unchanged and in order, and at
    most appends new ones; [clear_history] is the one action that removes
    entries, and it removes all of them. *)
Theorem history_is_append_only (acts : list action) (w : window Model) :
  (forallb (fun a => negb (is_clear a)) acts = true ->
   exists added,
     prediction_history (perform_all L acts w) = prediction_history w ++ added) /\
  prediction_history (perform_all L (acts ++ [ClearHistory]) w) = [].
Proof.
  split.
  - intro Hok.
    apply (@perform_all_keeps
             (fun w' => exists added,
                prediction_history w' = prediction_history w ++ added)
             (fun a => negb (is_clear a))); [ | exact Hok | ].
    + intros a w0 Ha [added H].
      destruct (perform_grows a w0) as [more Hm].
      { destruct (is_clear a); [discriminate | reflexivity]. }
      exists (added ++ more). rewrite Hm, H, app_assoc. reflexivity.
    + exists []. rewrite app_nil_r. reflexivity.
  - unfold perform_all. rewrite fold_left_app. reflexivity.
Qed.

Lemma perform_in_sync (a : action) (w : window Model) :
  in_sync w -> in_sync (perform L a w).
Proof.
  intro Hw.
  destruct a; try exact Hw.
  - rewrite perform_load. cbv zeta.
    destruct (str_empty _); [exact Hw | ].
    destruct (loader_result L _); exact Hw.
  - apply (@perform_predictions_keep (@in_sync Model)); try keep_window.
    intros. reflexivity.
  - apply (@perform_predictions_keep (@in_sync Model)); try keep_window.
    intros. reflexivity.
  - reflexivity.
  - rewrite perform_export.
    destruct (prediction_history w) eqn:Hh; [exact Hw | ].
    destruct (str_empty file_path); [exact Hw | ].
    destruct (to_csv L file_path); exact Hw.
Qed.

Lemma perform_path_with_model (a : action) (w : window Model) :
  path_with_model w -> path_with_model (perform L a w).
Proof.
  intro Hw.
  destruct a; try exact Hw.
  - rewrite perform_load. cbv zeta.
    destruct (str_empty _); [exact Hw | ].
    destruct (loader_result L _); [ | exact Hw].
    split; discriminate.
  - split; reflexivity.
  - apply (@perform_predictions_keep (@path_with_model Model)); try keep_window.
  - apply (@perform_predictions_keep (@path_with_model Model)); try keep_window.
  - rewrite perform_export.
    destruct (prediction_history w) eqn:Hh; [exact Hw | ].
    destruct (str_empty file_path); [exact Hw | ].
    destruct (to_csv L file_path); exact Hw.
Qed.

(** X14: two invariants of the window, kept by every user action whatever
    the libraries do: the history display agrees with the history (the
    placeholder for an empty history, otherwise the rendering of its last
    20 entries), and a model is held exactly when a model path is
    recorded.  The first is established by any action that changes the
    history, the second by [load_model] and [unload_model]. *)
Theorem window_invariants (acts : list action) (w : window Model) :
  (in_sync w -> in_sync (perform_all L acts w)) /\
  (path_with_model w -> path_with_model (perform_all L acts w)) /\
  in_sync (perform L ClearHistory w) /\
  path_with_model (perform L UnloadModel w).
Proof.
  assert (Hall : forallb (fun _ : action => true) acts = true).
  { induction acts; [reflexivity | exact IHacts]. }
  split; [ | split; [ | split; [reflexivity | split; reflexivity]]].
  - intro Hw.
    apply (@perform_all_keeps (@in_sync Model) (fun _ => true));
      [ | exact Hall | exact Hw].
    intros a w0 _. apply perform_in_sync.
  - intro Hw.
    apply (@perform_all_keeps (@path_with_model Model) (fun _ => true));
      [ | exact Hall | exact Hw].
    intros a w0 _. apply perform_path_with_model.
Qed.

(** X15: only [load_model] and [unload_model] touch the model: any
    sequence of other actions (edits, predictions that succeed or fail,
    clearing, exporting) leaves the model, its path and the state of the
    two prediction buttons as they were; and only [export_history] writes
    files: any sequence of actions without it leaves the files as they
    were. *)
Theorem model_and_files_are_kept (acts : list action) (w : window Model) :
  (forallb (fun a => negb (is_load_or_unload a)) acts = true ->
   model (perform_all L acts w) = model w /\
   model_path (perform_all L acts w) = model_path w /\
   predict_single_btn (perform_all L acts w) = predict_single_btn w /\
   batch_predict_btn (perform_all L acts w) = batch_predict_btn w) /\
  (forallb (fun a => negb (is_export a)) acts = true ->
   files (perform_all L acts w) = files w).
Proof.
  split.
  - intro Hok.
    apply (@perform_all_keeps
             (fun w' => model w' = model w /\ model_path w' = model_path w /\
                        predict_single_btn w' = predict_single_btn w /\
                        batch_predict_btn w' = batch_predict_btn w)
             (fun a => negb (is_load_or_unload a))); [ | exact Hok | ].
    + intros a w0 Ha Hw.
      destruct a; try discriminate Ha; try exact Hw.
      * apply (@perform_predictions_keep
                 (fun w' => model w' = model w /\
                            model_path w' = model_path w /\
                            predict_single_btn w' = predict_single_btn w /\
                            batch_predict_btn w' = batch_predict_btn w));
          try keep_window.
      * apply (@perform_predictions_keep
                 (fun w' => model w' = model w /\
                            model_path w' = model_path w /\
                            predict_single_btn w' = predict_single_btn w /\
                            batch_predict_btn w' = batch_predict_btn w));
          try keep_window.
      * rewrite perform_export.
        destruct (prediction_history w0) eqn:Hh; [exact Hw | ].
        destruct (str_empty file_path); [exact Hw | ].
        destruct (to_csv L file_path); exact Hw.
    + repeat split.
  - intro Hok.
    apply (@perform_all_keeps (fun w' => files w' = files w)
             (fun a => negb (is_export a))); [ | exact Hok | reflexivity].
    intros a w0 Ha Hw.
    destruct a; try discriminate Ha; try exact Hw.
    + rewrite perform_load. cbv zeta.
      destruct (str_empty _); [exact Hw | ].
      destruct (loader_result L _); exact Hw.
    + apply (@perform_predictions_keep (fun w' => files w' = files w));
        try keep_window.
    + apply (@perform_predictions_keep (fun w' => files w' = files w));
        try keep_window.
Qed.

End Sessions.

(** * The packaging script *)

Section PackagingFacts.

Import Packaging.

Variable H : Host.

Ltac run_script :=
  unfold main, method1_simple_fix, method2_with_hooks,
    method3_manual_data_files, method4_debug_mode, copy_if_exists,
    run_ok, do_makedirs, do_copy, input, print, bind, ret, modify;
  cbn [fst snd stdout commands made copies prompts].

(** X16: when [app_up.py] is missing, [main] returns 1 at once: it asks
    nothing, runs no command, creates no directory and copies no file,
    whatever would have been chosen (method 1 included, although the script
    it packages is [app_beautiful_fixed_v2.py]).  When [app_up.py] is
    there but the answer, stripped, is not one of 1, 2, 3, 4, it returns 1
    after the one question, again without running anything. *)
Theorem main_refuses (c : console) :
  (path_exists H "app_up.py" = false ->
   fst (main H c) = Ok 1%Z /\
   commands (snd (main H c)) = commands c /\
   prompts (snd (main H c)) = prompts c /\
   made (snd (main H c)) = made c /\ copies (snd (main H c)) = copies c) /\
  (path_exists H "app_up.py" = true ->
   methods H (strip (typed H)) = None ->
   fst (main H c) = Ok 1%Z /\
   commands (snd (main H c)) = commands c /\
   prompts (snd (main H c)) = prompts c ++ ["请输入选择 (1-4): "] /\
   made (snd (main H c)) = made c /\ copies (snd (main H c)) = copies c).
Proof.
  split.
  - intro He. run_script. rewrite He. simpl. repeat split.
  - intros He Hm. run_script. rewrite He. simpl. rewrite Hm.
    simpl. repeat split.
Qed.

Lemma bind_print A (s : string) (k : unit -> Sh A) (c : console) :
  bind (print s) k c = k tt (printed s c).
Proof. reflexivity. Qed.

Lemma bind_bind S A B C (m : M S A) (k : A -> M S B) (k' : B -> M S C) (c : S) :
  bind (bind m k) k' c = bind m (fun x => bind (k x) k') c.
Proof. unfold bind. destruct (m c) as [[a | e] c1]; reflexivity. Qed.

Lemma run_ok_true (cmd : list string) (c : console) (c' : console) :
  run_ok H cmd c = (Ok true, c') ->
  commands c' = commands c ++ [cmd] /\ subprocess_run H cmd = Ok 0%Z.
Proof.
  unfold run_ok.
  destruct (subprocess_run H cmd) as [rc | e]; [ | discriminate].
  intro E. injection E as E <-. apply Z.eqb_eq in E. subst rc.
  split; reflexivity.
Qed.

Lemma copy_if_exists_commands (name d : string) (c : console) :
  commands (snd (copy_if_exists H name d c)) = commands c.
Proof.
  unfold copy_if_exists. destruct (path_exists H name); reflexivity.
Qed.

Lemma method_success (choice : string) (m : Sh bool) (c c' : console) :
  methods H choice = Some m ->
  m c = (Ok true, c') ->
  exists cmd,
    commands c' = commands c ++ [cmd] /\
    subprocess_run H cmd = Ok 0%Z /\
    hd "" cmd = "pyinstaller".
Proof.
  unfold methods.
  destruct (String.eqb choice "1");
    [ | destruct (String.eqb choice "2");
        [ | destruct (String.eqb choice "3");
            [ | destruct (String.eqb choice "4"); [ | discriminate]]]];
    intro E; injection E as <-.
  - unfold method1_simple_fix. rewrite !bind_print.
    intro E. apply run_ok_true in E. destruct E as [E1 E2].
    exists method1_cmd. split; [exact E1 | split; [exact E2 | reflexivity]].
  - unfold method2_with_hooks. rewrite bind_print. cbv zeta.
    set (hook_dir := path_join H (getcwd H) "hooks").
    unfold bind at 1. unfold do_makedirs at 1.
    destruct (makedirs H hook_dir); [ | discriminate].
    unfold bind at 1.
    pose proof (copy_if_exists_commands "hook-descriptastorus.py" hook_dir) as C1.
    match goal with
    | |- context [copy_if_exists H "hook-descriptastorus.py" hook_dir ?x] =>
        specialize (C1 x);
        destruct (copy_if_exists H "hook-descriptastorus.py" hook_dir x)
          as [[[] | e1] c1]; [ | discriminate]
    end.
    unfold bind at 1.
    pose proof (copy_if_exists_commands "hook-rdkit.py" hook_dir c1) as C2.
    destruct (copy_if_exists H "hook-rdkit.py" hook_dir c1)
      as [[[] | e2] c2]; [ | discriminate].
    rewrite bind_print.
    intro E. apply run_ok_true in E. destruct E as [E1 E2].
    exists (method2_cmd hook_dir).
    split; [ | split; [exact E2 | reflexivity]].
    rewrite E1. cbn [snd] in C1, C2. cbn [printed commands].
    rewrite C2, C1. reflexivity.
  - unfold method3_manual_data_files. rewrite bind_print. cbv zeta.
    destruct (str_empty _ || negb (path_exists H _)).
    + rewrite bind_print. discriminate.
    + rewrite bind_print. intro E. apply run_ok_true in E.
      destruct E as [E1 E2].
      eexists. split; [exact E1 | split; [exact E2 | reflexivity]].
  - unfold method4_debug_mode. rewrite !bind_print.
    intro E. apply run_ok_true in E. destruct E as [E1 E2].
    exists method4_cmd. split; [exact E1 | split; [exact E2 | reflexivity]].
Qed.

(** X17: [main] returns 0 or 1 when it returns, and it returns 0 only when
    [app_up.py] exists, the answer (stripped) named one of the four
    methods, and that method ran exactly one command, a [pyinstaller]
    command whose return code was 0; a method that gives up before running
    PyInstaller, or a non-zero return code, gives 1. *)
Theorem main_exit_code (c : console) (z : Z) :
  fst (main H c) = Ok z ->
  (z = 0%Z \/ z = 1%Z) /\
  (z = 0%Z ->
   path_exists H "app_up.py" = true /\
   methods H (strip (typed H)) <> None /\
   exists cmd,
     commands (snd (main H c)) = commands c ++ [cmd] /\
     subprocess_run H cmd = Ok 0%Z /\
     hd "" cmd = "pyinstaller").
Proof.
  remember (main H c) as r eqn:Hr. revert Hr.
  unfold main. rewrite !bind_print.
  destruct (path_exists H "app_up.py"); cbn [negb].
  2:{ rewrite bind_print. unfold ret. intros -> E. cbn [fst] in E.
      injection E as <-. split; [right; reflexivity | discriminate]. }
  rewrite !bind_print. unfold bind at 1. unfold input at 1.
  destruct (methods H (strip (typed H))) as [m | ] eqn:Hm.
  2:{ rewrite bind_print. unfold ret. intros -> E. cbn [fst] in E.
      injection E as <-. split; [right; reflexivity | discriminate]. }
  unfold bind at 1.
  match goal with
  | |- context [m ?c0] =>
      pose proof (fun c' => @method_success (strip (typed H)) m c0 c' Hm) as Hs;
      destruct (m c0) as [[[] | e] c1]
  end.
  - rewrite !bind_bind, !bind_print. unfold ret. intros -> E. cbn [fst] in E.
    injection E as <-. split; [left; reflexivity | ].
    intros _. split; [reflexivity | ]. split; [discriminate | ].
    destruct (Hs c1 eq_refl) as (cmd & E1 & E2 & E3).
    exists cmd. split; [exact E1 | split; assumption].
  - rewrite !bind_bind, !bind_print. unfold ret. intros -> E. cbn [fst] in E.
    injection E as <-. split; [right; reflexivity | discriminate].
  - intros -> E. discriminate E.
Qed.

(** X18: method 3 gives up, returning [False] without running any
    command, when [site.getsitepackages()] is empty or its first entry
    does not exist; and when it does run, its command passes no script to
    PyInstaller, for any site-packages directory: every argument after the
    program name is an option, because the script name is joined to the
    preceding ["--"].  Methods 1, 2 and 4 do pass a script. *)
Theorem method3_passes_no_script (c : console) :
  ((getsitepackages H = [] \/
    exists sp rest, getsitepackages H = sp :: rest /\ path_exists H sp = false) ->
   fst (method3_manual_data_files H c) = Ok false /\
   commands (snd (method3_manual_data_files H c)) = commands c) /\
  (forall sp, has_script (method3_cmd H sp) = false) /\
  has_script method1_cmd = true /\
  (forall d, has_script (method2_cmd d) = true) /\
  has_script method4_cmd = true.
Proof.
  split; [ | repeat split].
  intros [Hnil | (sp & rest & Hsp & He)];
    unfold method3_manual_data_files, print, bind, modify, ret;
    cbn [fst snd].
  - rewrite Hnil. simpl. split; reflexivity.
  - rewrite Hsp, He. rewrite orb_true_r. simpl. split; reflexivity.
Qed.

(** X19: method 2 first creates the directory [hooks] under the current
    directory, then copies into it each of the two hook files that exists
    and no other file, and runs PyInstaller with that directory as
    additional hooks directory; a failure to create the directory or to
    copy is not handled and no command is run then. *)
Theorem method2_copies_existing_hooks (c : console) :
  let hook_dir := path_join H (getcwd H) "hooks" in
  let hooks :=
    filter (path_exists H) ["hook-descriptastorus.py"; "hook-rdkit.py"] in
  let c' := snd (method2_with_hooks H c) in
  (makedirs H hook_dir = Ok tt ->
   (forall name, In name hooks -> copy H name (path_join H hook_dir name) = Ok tt) ->
   made c' = made c ++ [hook_dir] /\
   copies c' = copies c ++ map (fun name => (name, path_join H hook_dir name)) hooks /\
   commands c' = commands c ++ [method2_cmd hook_dir]) /\
  (forall e, makedirs H hook_dir = Raise e ->
   fst (method2_with_hooks H c) = Raise e /\
   commands c' = commands c /\ copies c' = copies c).
Proof.
  intros hook_dir hooks c'. unfold c', hooks. clear c' hooks.
  remember (method2_with_hooks H c) as r eqn:Hr.
  unfold method2_with_hooks in Hr. rewrite bind_print in Hr. cbv zeta in Hr.
  fold hook_dir in Hr.
  unfold bind at 1 in Hr. unfold do_makedirs at 1 in Hr.
  split.
  - intros Hmk Hcp. rewrite Hmk in Hr. cbn [filter] in *.
    unfold bind at 1 in Hr. unfold copy_if_exists at 1 in Hr.
    unfold bind at 1 in Hr. unfold copy_if_exists at 1 in Hr.
    unfold do_copy, ret in Hr.
    destruct (path_exists H "hook-descriptastorus.py");
      destruct (path_exists H "hook-rdkit.py");
      repeat (rewrite Hcp in Hr by (simpl; tauto));
      rewrite bind_print in Hr; unfold run_ok in Hr; subst r;
      cbn [snd made copies commands printed map];
      rewrite ?app_nil_r, <- ?app_assoc; repeat split.
  - intros e Hmk. rewrite Hmk in Hr. subst r. repeat split.
Qed.

End PackagingFacts.

(** * The further properties on the examples *)

(** A checkpoint path typed between an ideographic space and a no-break
    space, and a loader that returns a model. *)
Lemma load_model_replaces_model_witness :
  strip (model_path_edit Cases.spaced_path) = "model.ckpt" /\
  str_empty (strip (model_path_edit Cases.spaced_path)) = false /\
  loader_result Lab.plain (strip (model_path_edit Cases.spaced_path)) = Ok 1 /\
  model (snd (run_method (load_model Lab.plain) Cases.spaced_path)) = Some 1 /\
  calls (snd (run_method (load_model Lab.plain) Cases.spaced_path)) =
    [CallLoadCheckpoint "model.ckpt"].
Proof.
  assert (H1 : str_empty (strip (model_path_edit Cases.spaced_path)) = false)
    by reflexivity.
  assert (H2 : loader_result Lab.plain
                 (strip (model_path_edit Cases.spaced_path)) = Ok 1)
    by reflexivity.
  destruct (load_model_replaces_model Lab.plain Cases.spaced_path H1 H2)
    as (Hm & _ & _ & _ & Hc & _).
  split; [reflexivity | ].
  split; [exact H1 | ]. split; [exact H2 | ]. split; [exact Hm | exact Hc].
Defined.

(** A loader that raises, with a model held; and a blank path. *)
Lemma load_model_failure_keeps_model_witness :
  loader_result Cases.no_checkpoint (strip (model_path_edit Lab.start)) =
    Raise Cases.corrupt /\
  model (snd (run_method (load_model Cases.no_checkpoint) Lab.start)) = Some 1 /\
  str_empty (strip (model_path_edit Cases.blank_path)) = true /\
  calls (snd (run_method (load_model Lab.plain) Cases.blank_path)) = [].
Proof.
  assert (H1 : str_empty (strip (model_path_edit Lab.start)) = false)
    by reflexivity.
  assert (H2 : loader_result Cases.no_checkpoint
                 (strip (model_path_edit Lab.start)) = Raise Cases.corrupt)
    by reflexivity.
  assert (H3 : str_empty (strip (model_path_edit Cases.blank_path)) = true)
    by reflexivity.
  destruct (load_model_failure_keeps_model Cases.no_checkpoint Lab.start)
    as (Hfail & _).
  destruct (Hfail Cases.corrupt H1 H2) as (_ & Hm & _).
  destruct (load_model_failure_keeps_model Lab.plain Cases.blank_path)
    as (_ & Hblank).
  destruct (Hblank H3) as (_ & _ & _ & Hc & _).
  split; [exact H2 | ]. split; [exact Hm | ]. split; [exact H3 | exact Hc].
Defined.

(** A blank test file; and a test file but no model. *)
Lemma run_prediction_guards_witness :
  str_empty (strip (test_edit Cases.blank_file)) = true /\
  dialogs (snd (run_method (run_prediction Lab.plain) Cases.blank_file)) =
    [Dialog Warning PleaseSelectTestFile] /\
  not_model Lab.plain (model Lab.unloaded) = true /\
  dialogs (snd (run_method (run_prediction Lab.plain) Lab.unloaded)) =
    [Dialog Warning PleaseLoadModel].
Proof.
  assert (H1 : str_empty (strip (test_edit Cases.blank_file)) = true)
    by reflexivity.
  assert (H2 : str_empty (strip (test_edit Lab.unloaded)) = false)
    by reflexivity.
  assert (H3 : not_model Lab.plain (model Lab.unloaded) = true)
    by reflexivity.
  destruct (run_prediction_guards Lab.plain Cases.blank_file) as (Hfile & _).
  destruct (run_prediction_guards Lab.plain Lab.unloaded) as (_ & Hmodel).
  split; [exact H1 | ]. split; [rewrite (Hfile H1); reflexivity | ].
  split; [exact H3 | rewrite (Hmodel H2 H3); reflexivity].
Defined.

(** A test file that cannot be read, and one without the column. *)
Lemma run_prediction_bad_file_witness :
  read_csv Cases.no_file (strip (test_edit Lab.start)) = Raise Cases.missing /\
  dialogs (snd (run_method (run_prediction Cases.no_file) Lab.start)) =
    [Dialog Critical (BatchFailed Cases.missing)] /\
  column "smiles" [("name", [Text "a"])] = None /\
  dialogs (snd (run_method (run_prediction Cases.no_column) Lab.start)) =
    [Dialog Warning CsvNeedsSmilesColumn].
Proof.
  assert (H1 : str_empty (strip (test_edit Lab.start)) = false) by reflexivity.
  assert (H2 : not_model Cases.no_file (model Lab.start) = false)
    by reflexivity.
  assert (H3 : read_csv Cases.no_file (strip (test_edit Lab.start)) =
               Raise Cases.missing) by reflexivity.
  assert (H4 : read_csv Cases.no_column (strip (test_edit Lab.start)) =
               Ok [("name", [Text "a"])]) by reflexivity.
  assert (H5 : column "smiles" [("name", [Text "a"])] = None) by reflexivity.
  destruct (run_prediction_bad_file Cases.no_file Lab.start H1 H2)
    as (Hraise & _).
  destruct (run_prediction_bad_file Cases.no_column Lab.start H1 H2)
    as (_ & Hcol).
  split; [exact H3 | ].
  split; [rewrite (Hraise Cases.missing H3); reflexivity | ].
  split; [exact H5 | rewrite (Hcol _ H4 H5); reflexivity].
Defined.

(** A test file with an empty [smiles] column. *)
Lemma run_prediction_empty_column_witness :
  read_csv Cases.no_rows (strip (test_edit Lab.start)) = Ok [("smiles", [])] /\
  column "smiles" [("smiles", @nil cell)] = Some [] /\
  dialogs (snd (run_method (run_prediction Cases.no_rows) Lab.start)) =
    [Dialog Critical (BatchFailed (Exn ZeroDivisionError "division by zero"))].
Proof.
  assert (H1 : str_empty (strip (test_edit Lab.start)) = false) by reflexivity.
  assert (H2 : not_model Cases.no_rows (model Lab.start) = false)
    by reflexivity.
  assert (H3 : read_csv Cases.no_rows (strip (test_edit Lab.start)) =
               Ok [("smiles", [])]) by reflexivity.
  assert (H4 : column "smiles" [("smiles", @nil cell)] = Some [])
    by reflexivity.
  destruct (run_prediction_empty_column Cases.no_rows Lab.start H1 H2 H3 H4)
    as (_ & _ & _ & Hd).
  split; [exact H3 | ]. split; [exact H4 | exact Hd].
Defined.


(** An empty cell at the head of a file: RDKit rejects [nan] with a
    [TypeError], the alternative constructions are tried, and the record is
    the error record. *)
Lemma fallback_runs_previous_loader_witness :
  primary Lab.plain NaN = Raise Lab.not_smiles /\
  is_TypeError Lab.not_smiles = true /\
  test_loader (@enter nat (list string) (list string) Lab.start) = None /\
  predictions (snd (predict_item Lab.plain 2 0 NaN (enter Lab.start))) =
    [error_record NaN].
Proof.
  assert (H1 : primary Lab.plain NaN = Raise Lab.not_smiles) by reflexivity.
  assert (H2 : is_TypeError Lab.not_smiles = true) by reflexivity.
  assert (H3 : test_loader (@enter nat (list string) (list string) Lab.start) =
               None) by reflexivity.
  destruct (fallback_runs_previous_loader Lab.plain NaN
              (enter Lab.start) H1 H2) as (_ & Hhead).
  split; [exact H1 | ]. split; [exact H2 | ].
  split; [exact H3 | exact (Hhead H3 2 0)].
Defined.

(** Aspirin typed in and alone in the test file: the two prediction cells
    differ by the leaf mark. *)
Lemma batch_of_one_and_single_prediction_witness :
  column "smiles" [("smiles", [Text Lab.aspirin])] =
    Some [Text (strip (smiles_input Lab.start))] /\
  map col_pred
    (result_table (snd (run_method (run_prediction Cases.one_row) Lab.start))) =
    [ValueCell 0.8%float "" Green] /\
  map col_pred
    (result_table
       (snd (run_method (predict_single_molecule Cases.one_row) Lab.start))) =
    [ValueCell 0.8%float " 🌿" Green] /\
  prediction_history (snd (run_method (run_prediction Cases.one_row) Lab.start)) =
  prediction_history
    (snd (run_method (predict_single_molecule Cases.one_row) Lab.start)).
Proof.
  assert (H0 : str_empty (strip (smiles_input Lab.start)) = false)
    by reflexivity.
  assert (H1 : str_empty (strip (test_edit Lab.start)) = false) by reflexivity.
  assert (H2 : not_model Cases.one_row (model Lab.start) = false)
    by reflexivity.
  assert (H3 : read_csv Cases.one_row (strip (test_edit Lab.start)) =
               Ok [("smiles", [Text Lab.aspirin])]) by reflexivity.
  assert (H4 : column "smiles" [("smiles", [Text Lab.aspirin])] =
               Some [Text (strip (smiles_input Lab.start))]) by reflexivity.
  assert (H5 : forall e,
            primary Cases.one_row (strip (smiles_input Lab.start)) = Raise e ->
            is_TypeError e = false).
  { intros e He. vm_compute in He. discriminate He. }
  destruct (batch_of_one_and_single_prediction Cases.one_row Lab.start
              H0 H1 H2 H3 H4 H5) as (Hh & Ht).
  change (solo Cases.one_row (model Lab.start) (strip (smiles_input Lab.start)))
    with (@Ok float 0.8%float) in Ht.
  destruct Ht as (Hb & Hs & _).
  split; [exact H4 | ]. split; [rewrite Hb; reflexivity | ].
  split; [rewrite Hs; reflexivity | exact Hh].
Defined.

(** A single prediction of aspirin makes the seven calls; when [from_smi]
    rejects the string it stops after the second. *)
Lemma single_prediction_calls_witness :
  calls (snd (run_method (predict_single_molecule Lab.plain) Lab.start)) =
    single_calls Lab.aspirin /\
  calls (snd (run_method (predict_single_molecule Lab.plain)
                (Lab.loaded Lab.junk ""))) =
    [CallFeaturizer; CallFromSmi Lab.junk] /\
  calls (snd (run_method (predict_single_molecule Lab.plain) Lab.unloaded)) = [].
Proof.
  assert (H1 : str_empty (strip (smiles_input Lab.start)) = false)
    by reflexivity.
  assert (H2 : not_model Lab.plain (model Lab.start) = false) by reflexivity.
  assert (H3 : str_empty (strip (smiles_input (Lab.loaded Lab.junk ""))) = false)
    by reflexivity.
  assert (H4 : str_empty (strip (smiles_input Lab.unloaded)) ||
               not_model Lab.plain (model Lab.unloaded) = true) by reflexivity.
  destruct (single_prediction_calls Lab.plain Lab.start) as (_ & Hrun & _).
  destruct (single_prediction_calls Lab.plain (Lab.loaded Lab.junk ""))
    as (_ & Hjunk & _).
  destruct (single_prediction_calls Lab.plain Lab.unloaded) as (Hguard & _).
  destruct (Hrun H1 H2) as (Hc & _).
  destruct (Hjunk H3 H2) as (Hj & _).
  split; [rewrite Hc; reflexivity | ].
  split; [rewrite Hj; reflexivity | exact (Hguard H4)].
Defined.

(** An empty history, and a cancelled file dialog. *)
Lemma export_history_guards_witness :
  prediction_history Lab.start = [] /\
  dialogs (snd (run_method (export_history Lab.plain "h.csv") Lab.start)) =
    [Dialog Warning NoHistoryToExport] /\
  prediction_history Lab.after_one <> [] /\
  snd (run_method (export_history Lab.plain "") Lab.after_one) = Lab.after_one.
Proof.
  assert (H1 : prediction_history Lab.start = []) by reflexivity.
  assert (H2 : prediction_history Lab.after_one <> []).
  { vm_compute. discriminate. }
  assert (H3 : str_empty "" = true) by reflexivity.
  destruct (export_history_guards Lab.plain Lab.start "h.csv")
    as (_ & Hempty & _).
  destruct (export_history_guards Lab.plain Lab.after_one "")
    as (_ & _ & Hcancel).
  split; [exact H1 | ]. split; [rewrite (Hempty H1); reflexivity | ].
  split; [exact H2 | rewrite (Hcancel H2 H3); reflexivity].
Defined.

(** A session without [clear_history] keeps what was there and adds the
    two scored predictions. *)
Lemma history_is_append_only_witness :
  forallb (fun a => negb (is_clear a)) Cases.session = true /\
  exists added,
    prediction_history (perform_all Lab.plain Cases.session Lab.after_one) =
    prediction_history Lab.after_one ++ added.
Proof.
  assert (H1 : forallb (fun a => negb (is_clear a)) Cases.session = true)
    by reflexivity.
  destruct (history_is_append_only Lab.plain Cases.session Lab.after_one)
    as (Hgrow & _).
  split; [exact H1 | exact (Hgrow H1)].
Defined.

(** The window [Lab.start] satisfies both invariants, and so does the
    window after the session. *)
Lemma window_invariants_witness :
  in_sync Lab.start /\ path_with_model Lab.start /\
  in_sync (perform_all Lab.plain Cases.session Lab.start) /\
  path_with_model (perform_all Lab.plain Cases.session Lab.start).
Proof.
  assert (H1 : in_sync Lab.start) by reflexivity.
  assert (H2 : path_with_model Lab.start) by (split; discriminate).
  destruct (window_invariants Lab.plain Cases.session Lab.start)
    as (Hsync & Hpath & _).
  split; [exact H1 | ]. split; [exact H2 | ].
  split; [exact (Hsync H1) | exact (Hpath H2)].
Defined.

(** The session neither loads nor unloads; a session of one prediction
    does not export. *)
Lemma model_and_files_are_kept_witness :
  forallb (fun a => negb (is_load_or_unload a)) Cases.session = true /\
  model (perform_all Lab.plain Cases.session Lab.start) = model Lab.start /\
  forallb (fun a => negb (is_export a)) [PredictSingle; ClearHistory] = true /\
  files (perform_all Lab.plain [PredictSingle; ClearHistory] Lab.start) =
    files Lab.start.
Proof.
  assert (H1 : forallb (fun a => negb (is_load_or_unload a)) Cases.session =
               true) by reflexivity.
  assert (H2 : forallb (fun a => negb (is_export a))
                 [PredictSingle; ClearHistory] = true) by reflexivity.
  destruct (model_and_files_are_kept Lab.plain Cases.session Lab.start)
    as (Hmodel & _).
  destruct (model_and_files_are_kept Lab.plain [PredictSingle; ClearHistory]
              Lab.start) as (_ & Hfiles).
  destruct (Hmodel H1) as (Hm & _).
  split; [exact H1 | ]. split; [exact Hm | ].
  split; [exact H2 | exact (Hfiles H2)].
Defined.

(** No [app_up.py]; and the answer 9. *)
Lemma main_refuses_witness :
  Packaging.path_exists Cases.empty_dir "app_up.py" = false /\
  fst (Packaging.main Cases.empty_dir Packaging.start) = Ok 1%Z /\
  Packaging.methods Cases.wrong_answer
    (strip (Packaging.typed Cases.wrong_answer)) = None /\
  Packaging.commands
    (snd (Packaging.main Cases.wrong_answer Packaging.start)) = [].
Proof.
  assert (H1 : Packaging.path_exists Cases.empty_dir "app_up.py" = false)
    by reflexivity.
  assert (H2 : Packaging.path_exists Cases.wrong_answer "app_up.py" = true)
    by reflexivity.
  assert (H3 : Packaging.methods Cases.wrong_answer
                 (strip (Packaging.typed Cases.wrong_answer)) = None)
    by reflexivity.
  destruct (main_refuses Cases.empty_dir Packaging.start) as (Hmiss & _).
  destruct (main_refuses Cases.wrong_answer Packaging.start) as (_ & Hbad).
  destruct (Hmiss H1) as (Hr & _).
  destruct (Hbad H2 H3) as (_ & Hc & _).
  split; [exact H1 | ]. split; [exact Hr | ]. split; [exact H3 | exact Hc].
Defined.

(** The answer 2 on a host where PyInstaller succeeds. *)
Lemma main_exit_code_witness :
  fst (Packaging.main Packaging.lab Packaging.start) = Ok 0%Z /\
  exists cmd,
    Packaging.commands (snd (Packaging.main Packaging.lab Packaging.start)) =
      [cmd] /\
    Packaging.subprocess_run Packaging.lab cmd = Ok 0%Z.
Proof.
  assert (H1 : fst (Packaging.main Packaging.lab Packaging.start) = Ok 0%Z)
    by (vm_compute; reflexivity).
  destruct (main_exit_code Packaging.lab Packaging.start H1) as (_ & Hzero).
  destruct (Hzero eq_refl) as (_ & _ & cmd & Hc & Hrc & _).
  split; [exact H1 | ]. exists cmd. split; [exact Hc | exact Hrc].
Defined.

(** No site-packages directory. *)
Lemma method3_passes_no_script_witness :
  Packaging.getsitepackages Cases.empty_dir = [] /\
  fst (Packaging.method3_manual_data_files Cases.empty_dir Packaging.start) =
    Ok false.
Proof.
  assert (H1 : Packaging.getsitepackages Cases.empty_dir = []) by reflexivity.
  destruct (method3_passes_no_script Cases.empty_dir Packaging.start)
    as (Hgive & _).
  destruct (Hgive (or_introl H1)) as (Hr & _).
  split; [exact H1 | exact Hr].
Defined.

(** One of the two hook files exists. *)
Lemma method2_copies_existing_hooks_witness :
  Packaging.makedirs Packaging.lab "/work/hooks" = Ok tt /\
  Packaging.copies
    (snd (Packaging.method2_with_hooks Packaging.lab Packaging.start)) =
    [("hook-rdkit.py", "/work/hooks/hook-rdkit.py")].
Proof.
  assert (H1 : Packaging.makedirs Packaging.lab
                 (Packaging.path_join Packaging.lab
                    (Packaging.getcwd Packaging.lab) "hooks") = Ok tt)
    by reflexivity.
  destruct (method2_copies_existing_hooks Packaging.lab Packaging.start)
    as (Hok & _).
  destruct (Hok H1 (fun name _ => eq_refl)) as (_ & Hc & _).
  split; [exact H1 | exact Hc].
Defined.
